(** * rawinput_joystick_logger: a shallow embedding and its properties

    The development follows [src/rawinput_joystick_logger.py]:

    - Python's [float] is IEEE-754 binary64; it is modelled by the Standard
      Library's [spec_float] at precision 53 and maximal exponent 1024,
      with the library's round-to-nearest-even operations.
    - The calls into [hid.dll] and [user32.dll] are the fields of a
      [HidPlatform] record; every function of the logger takes the platform
      as a parameter, so that the theorems hold for every behaviour of the
      operating system.
    - A Python exception is the [Raise] branch of [PyResult].
    - The dictionaries ([axes], [device_cache]) are [gmap]s.
    - The buffer that [GetRawInputData] fills is a list of bytes, from
      which [RAWINPUTHEADER] and [RAWHID] are copied as ctypes does, with
      the structure sizes of 64-bit Windows; a buffer that is too short
      for a structure makes [from_buffer_copy] raise [ValueError]. *)

From Stdlib Require Import ZArith QArith Qabs Lia Ascii String.
From Stdlib Require Import Floats.SpecFloat.
From stdpp Require Import gmap strings list sorting.

Local Open Scope Z_scope.

(** ** Python exceptions and results *)

(** The subclasses of [Exception] that the modelled code can raise. *)
Inductive PyExn : Type :=
| OverflowError            (* float(int) on an int too large for a double *)
| IndexError               (* index out of range on a ctypes array *)
| ValueError               (* from_buffer_copy on a buffer that is too small *)
| OSError (code : Z).      (* raised by ctypes for a fault inside a DLL call *)

Inductive PyResult (A : Type) : Type :=
| Ok (a : A)
| Raise (e : PyExn).
Arguments Ok {A} a.
Arguments Raise {A} e.

#[export] Instance PyResult_ret : MRet PyResult := fun A a => Ok a.
#[export] Instance PyResult_bind : MBind PyResult := fun A B f m =>
  match m with
  | Ok a => f a
  | Raise e => Raise e
  end.

(** ** Python floats *)

Module PyFloat.

Definition prec : Z := 53.
Definition emax : Z := 1024.

Definition float : Type := spec_float.

Definition fdiv : float -> float -> float := SFdiv prec emax.
Definition fmul : float -> float -> float := SFmul prec emax.
Definition fsub : float -> float -> float := SFsub prec emax.

(** The doubles [1.0], [2.0], [0.5], [0.0] and [-1.0]. *)
Definition one  : float := S754_finite false 4503599627370496 (-52).
Definition two  : float := S754_finite false 4503599627370496 (-51).
Definition half : float := S754_finite false 4503599627370496 (-53).
Definition zero : float := S754_zero false.
Definition minus_one : float := S754_finite true 4503599627370496 (-52).

(** [float(z)] for a Python int: the nearest double, ties to even;
    an int that rounds to infinity raises [OverflowError]. *)
Definition of_int (z : Z) : PyResult float :=
  match binary_normalize prec emax z 0 false with
  | S754_infinity _ => Raise OverflowError
  | f => Ok f
  end.

(** The exact rational value of a finite float (0 for the others). *)
Definition to_Q (f : float) : Q :=
  match f with
  | S754_finite s m e =>
      let v := if s then Zneg m else Zpos m in
      match e with
      | Z0 => v # 1
      | Zpos k => (v * Z.pow_pos 2 k) # 1
      | Zneg k => v # (Pos.pow 2 k)
      end
  | _ => 0%Q
  end.

(** The mantissa and the exponent of the double that equals a positive
    int of at most 53 bits: the int shifted left to 53 bits. *)
Definition canon_m (p : positive) : positive :=
  match (53 - Zpos (digits2_pos p))%Z with
  | Zpos k => Pos.iter xO p k
  | _ => p
  end.

Definition canon_e (p : positive) : Z := Zpos (digits2_pos p) - 53.

End PyFloat.

(** ** [normalize_value] *)

(** [int / float] and [int - int] as Python evaluates them: the int operand
    of a true division by a float is first converted with [float()]. *)
Definition normalize_value (value logical_min logical_max : Z)
  : PyResult (option PyFloat.float) :=
  if decide (logical_max = logical_min) then Ok None
  else
    span ← PyFloat.of_int (logical_max - logical_min);
    num ← PyFloat.of_int (value - logical_min);
    if decide (logical_min < 0) then
      Ok (Some (PyFloat.fsub (PyFloat.fmul (PyFloat.fdiv num span) PyFloat.two)
                             PyFloat.one))
    else
      Ok (Some (PyFloat.fdiv num span)).

(** ** Constants *)

Definition RIM_TYPEHID : Z := 2.
Definition HIDP_STATUS_SUCCESS : Z := 0x00110000.
Definition USAGE_PAGE_GENERIC_DESKTOP : Z := 0x01.

Definition USAGE_X : Z := 0x30.
Definition USAGE_Y : Z := 0x31.
Definition USAGE_Z : Z := 0x32.
Definition USAGE_RX : Z := 0x33.
Definition USAGE_RY : Z := 0x34.
Definition USAGE_RZ : Z := 0x35.
Definition USAGE_SLIDER : Z := 0x36.
Definition USAGE_DIAL : Z := 0x37.
Definition USAGE_WHEEL : Z := 0x38.
Definition USAGE_HAT : Z := 0x39.

Definition AXIS_USAGE_NAMES : gmap Z string :=
  list_to_map
    [ (USAGE_X, "x"); (USAGE_Y, "y"); (USAGE_Z, "z");
      (USAGE_RX, "rx"); (USAGE_RY, "ry"); (USAGE_RZ, "rz");
      (USAGE_SLIDER, "slider"); (USAGE_DIAL, "dial");
      (USAGE_WHEEL, "wheel"); (USAGE_HAT, "hat") ]%string.

(** ** ctypes values *)

(** The value read back from a [wintypes.USHORT], [wintypes.ULONG]. *)
Definition USHORT (z : Z) : Z := z mod 2 ^ 16.
Definition ULONG (z : Z) : Z := z mod 2 ^ 32.

(** The range of a [wintypes.LONG] field. *)
Definition is_LONG (z : Z) : Prop := - 2 ^ 31 <= z < 2 ^ 31.

Definition bytes : Type := list Byte.byte.

(** A device handle, as the integer [ctypes.cast(h, c_void_p).value or 0]. *)
Definition HANDLE : Type := Z.

(** The preparsed data of a device: an opaque string buffer. *)
Definition Preparsed : Type := list Byte.byte.

(** A ctypes array of [n] elements, zero-initialised, after a DLL call
    that wrote [written] from its start. *)
Definition c_array {A} (n : nat) (zero : A) (written : list A) : list A :=
  take n (written ++ replicate n zero).

(** The fields of [HIDP_CAPS] that the logger reads. *)
Record HIDP_CAPS : Type := {
  caps_Usage : Z;
  caps_UsagePage : Z;
  NumberInputButtonCaps : Z;
  NumberInputValueCaps : Z;
}.

(** [HIDP_VALUE_CAPS_UNION] and [HIDP_BUTTON_CAPS_UNION]: [Range] and
    [NotRange] overlay the same memory, so [Range.UsageMin] and
    [NotRange.Usage] are one and the same first USHORT. *)
Record HIDP_CAPS_UNION : Type := {
  u_word0 : Z;
  u_word1 : Z;
}.

Definition Range_UsageMin (u : HIDP_CAPS_UNION) : Z := u_word0 u.
Definition Range_UsageMax (u : HIDP_CAPS_UNION) : Z := u_word1 u.
Definition NotRange_Usage (u : HIDP_CAPS_UNION) : Z := u_word0 u.

Record HIDP_VALUE_CAPS : Type := {
  vc_UsagePage : Z;
  vc_LinkCollection : Z;
  vc_IsRange : Z;
  vc_LogicalMin : Z;
  vc_LogicalMax : Z;
  vc_u : HIDP_CAPS_UNION;
}.

Record HIDP_BUTTON_CAPS : Type := {
  bc_UsagePage : Z;
  bc_LinkCollection : Z;
  bc_IsRange : Z;
  bc_u : HIDP_CAPS_UNION;
}.

Definition zero_union : HIDP_CAPS_UNION := {| u_word0 := 0; u_word1 := 0 |}.
Definition zero_value_caps : HIDP_VALUE_CAPS :=
  {| vc_UsagePage := 0; vc_LinkCollection := 0; vc_IsRange := 0;
     vc_LogicalMin := 0; vc_LogicalMax := 0; vc_u := zero_union |}.
Definition zero_button_caps : HIDP_BUTTON_CAPS :=
  {| bc_UsagePage := 0; bc_LinkCollection := 0; bc_IsRange := 0;
     bc_u := zero_union |}.

(** ** The platform *)

(** What [hid.dll] and [user32.dll] answer. A [HidP_*] call returns its
    status together with what it stored through its out-pointers; the two
    calls made while a report is decoded may also fault, which ctypes turns
    into an exception. *)
Record HidPlatform : Type := {
  HidP_GetCaps : Preparsed -> Z * HIDP_CAPS;
  (* preparsed, array length: status, elements written, count written back *)
  HidP_GetValueCaps : Preparsed -> Z -> Z * list HIDP_VALUE_CAPS * Z;
  HidP_GetButtonCaps : Preparsed -> Z -> Z * list HIDP_BUTTON_CAPS * Z;
  (* preparsed, report, report length, usage page, usage: status, value *)
  HidP_GetUsageValue :
    Preparsed -> bytes -> Z -> Z -> Z -> PyResult (Z * Z);
  (* preparsed, report, report length, usage page, link collection,
     array length: status, usages written, count written back *)
  HidP_GetUsages :
    Preparsed -> bytes -> Z -> Z -> Z -> Z -> PyResult (Z * list Z * Z);
  (* GetRawInputDeviceInfoW: RIDI_DEVICENAME, RIDI_DEVICEINFO (usage page
     and usage of the hid member), RIDI_PREPARSEDDATA *)
  get_device_name : HANDLE -> string;
  get_device_info : HANDLE -> option (Z * Z);
  get_preparsed_data : HANDLE -> option Preparsed;
}.

(** ** Loops *)

(** [for x in xs: s = body(s, x)], where the body may raise. *)
Fixpoint for_each {A S : Type} (body : S -> A -> PyResult S)
    (xs : list A) (s : S) : PyResult S :=
  match xs with
  | [] => Ok s
  | x :: xs' => s' ← body s x; for_each body xs' s'
  end.

(** [data[start:stop]] on a bytes object, with Python's treatment of
    negative and out-of-range indices. *)
Definition slice_index (len i : Z) : Z :=
  if decide (i < 0) then Z.max (i + len) 0 else Z.min i len.

Definition py_slice {A} (data : list A) (start stop : Z) : list A :=
  let len := Z.of_nat (length data) in
  let lo := slice_index len start in
  let hi := slice_index len stop in
  take (Z.to_nat (hi - lo)) (drop (Z.to_nat lo) data).

(** ** The functions of the module *)

Definition _check_hidp (status : Z) : bool :=
  if decide (status ≠ HIDP_STATUS_SUCCESS) then false else true.

Section Logger.

Context (P : HidPlatform).

Definition parse_hid_caps (preparsed : Preparsed)
  : option (HIDP_CAPS * list HIDP_VALUE_CAPS * list HIDP_BUTTON_CAPS) :=
  let '(status, caps) := HidP_GetCaps P preparsed in
  if negb (_check_hidp status) then None
  else
    let nv := USHORT (NumberInputValueCaps caps) in
    let nb := USHORT (NumberInputButtonCaps caps) in
    let '(vstatus, vwritten, value_caps_count) :=
      HidP_GetValueCaps P preparsed nv in
    let value_caps :=
      if negb (_check_hidp vstatus) then []
      else take (Z.to_nat (USHORT value_caps_count))
                (c_array (Z.to_nat nv) zero_value_caps vwritten) in
    let '(bstatus, bwritten, button_caps_count) :=
      HidP_GetButtonCaps P preparsed nb in
    let button_caps :=
      if negb (_check_hidp bstatus) then []
      else take (Z.to_nat (USHORT button_caps_count))
                (c_array (Z.to_nat nb) zero_button_caps bwritten) in
    Some (caps, value_caps, button_caps).

Definition hid_get_usage_value (preparsed : Preparsed) (report_buf : bytes)
    (report_len usage_page usage : Z) : PyResult (option Z) :=
  '(status, value) ←
    HidP_GetUsageValue P preparsed report_buf report_len
      (USHORT usage_page) (USHORT usage);
  if negb (_check_hidp status) then Ok None
  else Ok (Some (ULONG value)).

Definition hid_get_usages (preparsed : Preparsed) (report_buf : bytes)
    (report_len usage_page link_collection max_usages : Z)
  : PyResult (list Z) :=
  '(status, written, usage_count) ←
    HidP_GetUsages P preparsed report_buf report_len
      (USHORT usage_page) (USHORT link_collection) max_usages;
  let usages := c_array (Z.to_nat max_usages) 0 (USHORT <$> written) in
  if negb (_check_hidp status) then Ok []
  else
    mapM (fun i : nat =>
            match usages !! i with
            | Some u => Ok u
            | None => Raise IndexError
            end)
         (seq 0 (Z.to_nat (ULONG usage_count))).

End Logger.

(** ** Decoding one report *)

(** An entry of the [axes] dictionary:
    [{"raw": ..., "norm": ..., "min": ..., "max": ...}]. *)
Record AxisReading : Type := {
  ar_raw : Z;
  ar_norm : option PyFloat.float;
  ar_min : Z;
  ar_max : Z;
}.

(** [sorted(set(buttons))]. *)
Definition sorted_set (buttons : list Z) : list Z :=
  merge_sort Z.le (elements (list_to_set buttons : gset Z)).

(** [range(a, b + 1)]. *)
Definition usage_range (a b : Z) : list Z := seqZ a (b + 1 - a).

Section Decode.

Context (P : HidPlatform).

(** The usages that a value capability stands for. *)
Definition value_cap_usages (cap : HIDP_VALUE_CAPS) : list Z :=
  if decide (vc_IsRange cap ≠ 0) then
    usage_range (Range_UsageMin (vc_u cap)) (Range_UsageMax (vc_u cap))
  else [NotRange_Usage (vc_u cap)].

(** The body of [for usage in usages]. *)
Definition decode_usage (preparsed : Preparsed) (report : bytes)
    (cap : HIDP_VALUE_CAPS) (axes : gmap string AxisReading) (usage : Z)
  : PyResult (gmap string AxisReading) :=
  match AXIS_USAGE_NAMES !! usage with
  | None => Ok axes
  | Some name =>
      value ← hid_get_usage_value P preparsed report
                (Z.of_nat (length report)) (vc_UsagePage cap) usage;
      match value with
      | None => Ok axes
      | Some value =>
          norm ← normalize_value value (vc_LogicalMin cap)
                                 (vc_LogicalMax cap);
          Ok (<[name := {| ar_raw := value; ar_norm := norm;
                           ar_min := vc_LogicalMin cap;
                           ar_max := vc_LogicalMax cap |}]> axes)
      end
  end.

(** The body of [for cap in value_caps]. *)
Definition decode_value_cap (preparsed : Preparsed) (report : bytes)
    (axes : gmap string AxisReading) (cap : HIDP_VALUE_CAPS)
  : PyResult (gmap string AxisReading) :=
  if decide (vc_UsagePage cap ≠ USAGE_PAGE_GENERIC_DESKTOP) then Ok axes
  else
    for_each (decode_usage preparsed report cap)
             (value_cap_usages cap) axes.

(** The body of [for cap in button_caps]. *)
Definition decode_button_cap (preparsed : Preparsed) (report : bytes)
    (buttons : list Z) (cap : HIDP_BUTTON_CAPS) : PyResult (list Z) :=
  let max_usages :=
    if decide (bc_IsRange cap ≠ 0) then
      Range_UsageMax (bc_u cap) - Range_UsageMin (bc_u cap) + 1
    else 1 in
  if decide (max_usages <= 0) then Ok buttons
  else
    pressed ← hid_get_usages P preparsed report
                (Z.of_nat (length report)) (bc_UsagePage cap)
                (bc_LinkCollection cap) max_usages;
    Ok (buttons ++ pressed).

Definition decode_hid_report (report : bytes) (preparsed : Preparsed)
    (value_caps : list HIDP_VALUE_CAPS)
    (button_caps : list HIDP_BUTTON_CAPS)
  : PyResult (gmap string AxisReading * list Z) :=
  axes ← for_each (decode_value_cap preparsed report) value_caps ∅;
  buttons ← for_each (decode_button_cap preparsed report) button_caps [];
  Ok (axes, sorted_set buttons).

End Decode.

(** ** Segmenting a batch of reports *)

Definition parse_report_bytes (data : bytes) (report_size count : Z)
  : list bytes :=
  foldl (fun reports idx =>
           let start := idx * report_size in
           let end_ := start + report_size in
           if decide (end_ <= Z.of_nat (length data))
           then reports ++ [py_slice data start end_]
           else reports)
        [] (seqZ 0 count).

(** ** Device state *)

Record DeviceState : Type := {
  ds_handle : HANDLE;
  ds_name : string;
  ds_info : option (Z * Z);
  ds_preparsed : option Preparsed;
  ds_caps : option HIDP_CAPS;
  ds_value_caps : list HIDP_VALUE_CAPS;
  ds_button_caps : list HIDP_BUTTON_CAPS;
}.

(** [DeviceState.__init__]. *)
Definition DeviceState_init (P : HidPlatform) (handle : HANDLE)
  : DeviceState :=
  let name := get_device_name P handle in
  let info := get_device_info P handle in
  let preparsed := get_preparsed_data P handle in
  let parsed :=
    match preparsed with
    | Some pp => parse_hid_caps P pp
    | None => None
    end in
  match parsed with
  | Some (caps, value_caps, button_caps) =>
      {| ds_handle := handle; ds_name := name; ds_info := info;
         ds_preparsed := preparsed; ds_caps := Some caps;
         ds_value_caps := value_caps; ds_button_caps := button_caps |}
  | None =>
      {| ds_handle := handle; ds_name := name; ds_info := info;
         ds_preparsed := preparsed; ds_caps := None;
         ds_value_caps := []; ds_button_caps := [] |}
  end.

Definition ds_usage_page (d : DeviceState) : option Z := fst <$> ds_info d.
Definition ds_usage (d : DeviceState) : option Z := snd <$> ds_info d.

(** ** Strings *)

(** [str.lower] and [sub in s], on ASCII strings. *)
Definition ascii_lower (c : ascii) : ascii :=
  let n := nat_of_ascii c in
  if (65 <=? n)%nat && (n <=? 90)%nat then ascii_of_nat (n + 32) else c.

Fixpoint str_lower (s : string) : string :=
  match s with
  | EmptyString => EmptyString
  | String c s' => String (ascii_lower c) (str_lower s')
  end.

Fixpoint str_contains (sub s : string) : bool :=
  String.prefix sub s ||
  match s with
  | EmptyString => false
  | String _ s' => str_contains sub s'
  end.

(** ** The logger *)

(** A row handed to [EventWriter.write_event]. The two JSON cells are kept
    as the values that [json.dumps] is applied to, the handle as the integer
    that [hex] is applied to, and the bytes as those [bytes.hex] is applied
    to. *)
Record EventRow : Type := {
  row_timestamp_ms : Z;
  row_device_handle : Z;
  row_device_name : string;
  row_usage_page : option Z;
  row_usage : option Z;
  row_report_size : Z;
  row_report : bytes;
  row_axes : gmap string AxisReading;
  row_buttons : list Z;
}.

(** [RawInputLogger]; [writer] is the sequence of rows written so far.
    [filter_checks] is not a field of the Python object: it records, for
    the proofs, the handle of every call of [_match_filter]. *)
Record RawInputLogger : Type := {
  writer : list EventRow;
  device_filter : option string;
  device_cache : gmap Z DeviceState;
  echo : bool;
  filter_checks : list HANDLE;
}.

(** [RawInputLogger.__init__]: an empty filter string counts as no filter. *)
Definition RawInputLogger_init (device_filter : option string) (echo : bool)
  : RawInputLogger :=
  {| writer := [];
     device_filter :=
       match device_filter with
       | Some f => if decide (f = ""%string) then None else Some (str_lower f)
       | None => None
       end;
     device_cache := ∅;
     echo := echo;
     filter_checks := [] |}.

Definition _match_filter (self : RawInputLogger) (name : string) : bool :=
  match device_filter self with
  | None => true
  | Some f =>
      if decide (f = ""%string) then true
      else str_contains f (str_lower name)
  end.

(** ** The buffer of a raw input message *)

(** The sizes of the two ctypes structures read from the buffer, on 64-bit
    Windows: [RAWINPUTHEADER] is two [DWORD]s, a [HANDLE] and a [WPARAM] of
    8 bytes each; [RAWHID] is two [DWORD]s and an array of one [BYTE],
    padded to the 4-byte alignment of the structure. *)
Definition sizeof_RAWINPUTHEADER : Z := 24.
Definition sizeof_RAWHID : Z := 12.

(** The value of an unsigned integer field stored in little-endian order. *)
Definition le_uint (field : bytes) : Z :=
  foldr (fun b acc => Z.of_N (Byte.to_N b) + 256 * acc) 0 field.

(** [Structure.from_buffer_copy(source, offset)] for a structure of [size]
    bytes: the bytes copied into the new instance. ctypes raises
    [ValueError] when the offset is negative and when the source has fewer
    than [offset + size] bytes. *)
Definition from_buffer_copy (size : Z) (source : bytes) (offset : Z)
  : PyResult bytes :=
  if decide (offset < 0) then Raise ValueError
  else if decide (Z.of_nat (length source) < offset + size)
  then Raise ValueError
  else Ok (py_slice source offset (offset + size)).

(** The fields of [RAWINPUTHEADER]; [hdr_hDevice] is the handle as the
    integer [int(ctypes.cast(hDevice, ctypes.c_void_p).value or 0)]. *)
Record RAWINPUTHEADER : Type := {
  hdr_dwType : Z;
  hdr_dwSize : Z;
  hdr_hDevice : HANDLE;
  hdr_wParam : Z;
}.

(** The two [DWORD] fields of [RAWHID]; of [bRawData] the code only uses
    the position, [data_offset]. *)
Record RAWHID : Type := {
  hid_dwSizeHid : Z;
  hid_dwCount : Z;
}.

Definition RAWINPUTHEADER_from_buffer_copy (source : bytes) (offset : Z)
  : PyResult RAWINPUTHEADER :=
  copy ← from_buffer_copy sizeof_RAWINPUTHEADER source offset;
  Ok {| hdr_dwType := le_uint (py_slice copy 0 4);
        hdr_dwSize := le_uint (py_slice copy 4 8);
        hdr_hDevice := le_uint (py_slice copy 8 16);
        hdr_wParam := le_uint (py_slice copy 16 24) |}.

Definition RAWHID_from_buffer_copy (source : bytes) (offset : Z)
  : PyResult RAWHID :=
  copy ← from_buffer_copy sizeof_RAWHID source offset;
  Ok {| hid_dwSizeHid := le_uint (py_slice copy 0 4);
        hid_dwCount := le_uint (py_slice copy 4 8) |}.

Section LoggerMethods.

Context (P : HidPlatform).

Definition get_device_state (handle : HANDLE) (self : RawInputLogger)
  : option DeviceState * RawInputLogger :=
  let handle_value := handle in
  match device_cache self !! handle_value with
  | Some state => (Some state, self)
  | None =>
      let state := DeviceState_init P handle in
      let self :=
        {| writer := writer self; device_filter := device_filter self;
           device_cache := device_cache self; echo := echo self;
           filter_checks := filter_checks self ++ [handle] |} in
      if negb (_match_filter self (ds_name state)) then (None, self)
      else
        (Some state,
         {| writer := writer self; device_filter := device_filter self;
            device_cache := <[handle_value := state]> (device_cache self);
            echo := echo self;
            filter_checks := filter_checks self |})
  end.

(** The decoding of one report inside [handle_wm_input], with its
    [try ... except Exception]. *)
Definition decode_or_empty (device_state : DeviceState) (report : bytes)
  : gmap string AxisReading * list Z :=
  match ds_preparsed device_state, ds_value_caps device_state with
  | Some preparsed, _ :: _ =>
      match decode_hid_report P report preparsed
              (ds_value_caps device_state) (ds_button_caps device_state)
      with
      | Ok r => r
      | Raise _ => (∅, [])
      end
  | _, _ => (∅, [])
  end.

Definition make_row (ts_ms : Z) (hDevice : HANDLE)
    (device_state : DeviceState) (report : bytes) : EventRow :=
  let '(axes, buttons) := decode_or_empty device_state report in
  {| row_timestamp_ms := ts_ms;
     row_device_handle := hDevice;
     row_device_name := ds_name device_state;
     row_usage_page := ds_usage_page device_state;
     row_usage := ds_usage device_state;
     row_report_size := Z.of_nat (length report);
     row_report := report;
     row_axes := axes;
     row_buttons := buttons |}.

Definition write_event (row : EventRow) (self : RawInputLogger)
  : RawInputLogger :=
  {| writer := writer self ++ [row]; device_filter := device_filter self;
     device_cache := device_cache self; echo := echo self;
     filter_checks := filter_checks self |}.

(** The body of [for report in reports]. *)
Definition emit_report (ts_ms : Z) (hDevice : HANDLE)
    (device_state : DeviceState) (self : RawInputLogger) (report : bytes)
  : RawInputLogger :=
  write_event (make_row ts_ms hDevice device_state report) self.

(** [handle_wm_input]. [input] is [None] when the function returns before
    it reads the buffer ([GetRawInputData] failed or reported no data), and
    otherwise the buffer of [data_size] bytes that [GetRawInputData]
    filled; [ts_ms] is [int(time.time() * 1000)]. The result is the outcome
    of the call, [Ok tt] for a return and [Raise e] for an exception that
    leaves the method, with the logger as the call leaves it. *)
Definition handle_wm_input (input : option bytes) (ts_ms : Z)
    (self : RawInputLogger) : PyResult unit * RawInputLogger :=
  match input with
  | None => (Ok tt, self)
  | Some buffer =>
      match RAWINPUTHEADER_from_buffer_copy buffer 0 with
      | Raise e => (Raise e, self)
      | Ok header =>
          if decide (hdr_dwType header ≠ RIM_TYPEHID) then (Ok tt, self)
          else
            let rahid_offset := sizeof_RAWINPUTHEADER in
            match RAWHID_from_buffer_copy buffer rahid_offset with
            | Raise e => (Raise e, self)
            | Ok rahid =>
                let data_offset := rahid_offset + 8 in
                let raw_bytes :=
                  py_slice buffer data_offset
                    (data_offset + hid_dwSizeHid rahid * hid_dwCount rahid) in
                let reports :=
                  parse_report_bytes raw_bytes (hid_dwSizeHid rahid)
                    (hid_dwCount rahid) in
                let '(device_state, self) :=
                  get_device_state (hdr_hDevice header) self in
                match device_state with
                | None => (Ok tt, self)
                | Some device_state =>
                    (Ok tt,
                     foldl (emit_report ts_ms (hdr_hDevice header)
                              device_state)
                           self reports)
                end
            end
      end
  end.

(** The calls of [handle_wm_input] that the window procedure makes on the
    one logger object, a call per [WM_INPUT] message. A call that raises
    leaves the object as it was when the exception left the method. *)
Definition run (events : list (option bytes * Z))
    (self : RawInputLogger) : RawInputLogger :=
  foldl (fun self ev => (handle_wm_input ev.1 ev.2 self).2) self events.

End LoggerMethods.

(** ** Vocabulary of the statements *)

(** The names of the axis table, in the order of their usages
    [0x30 .. 0x39]. *)
Definition axis_names : list string :=
  ["x"; "y"; "z"; "rx"; "ry"; "rz"; "slider"; "dial"; "wheel"; "hat"]%string.

(** The entry that a value capability writes for one of its usages. *)
Definition reading_of (cap : HIDP_VALUE_CAPS) (value : Z)
    (norm : option PyFloat.float) : AxisReading :=
  {| ar_raw := value; ar_norm := norm;
     ar_min := vc_LogicalMin cap; ar_max := vc_LogicalMax cap |}.

(** [axes[name] = r] was written for a usage of a value capability of the
    generic-desktop page that is in the axis table under [name]. *)
Definition axis_source (P : HidPlatform) (preparsed : Preparsed)
    (report : bytes) (value_caps : list HIDP_VALUE_CAPS)
    (name : string) (r : AxisReading) : Prop :=
  exists (cap : HIDP_VALUE_CAPS) (usage value : Z)
         (norm : option PyFloat.float),
    cap ∈ value_caps /\
    vc_UsagePage cap = USAGE_PAGE_GENERIC_DESKTOP /\
    usage ∈ value_cap_usages cap /\
    AXIS_USAGE_NAMES !! usage = Some name /\
    hid_get_usage_value P preparsed report (Z.of_nat (length report))
      (vc_UsagePage cap) usage = Ok (Some value) /\
    normalize_value value (vc_LogicalMin cap) (vc_LogicalMax cap)
      = Ok norm /\
    r = reading_of cap value norm.

(** The value capability [cap] obtains [value] for [usage] from the
    report: it is on the generic-desktop page, [usage] is one of the usages
    it stands for, and [hid_get_usage_value] returns [value]. *)
Definition cap_reads (P : HidPlatform) (preparsed : Preparsed)
    (report : bytes) (cap : HIDP_VALUE_CAPS) (usage value : Z) : Prop :=
  vc_UsagePage cap = USAGE_PAGE_GENERIC_DESKTOP /\
  usage ∈ value_cap_usages cap /\
  hid_get_usage_value P preparsed report (Z.of_nat (length report))
    (vc_UsagePage cap) usage = Ok (Some value).

(** A [WM_INPUT] message that carries HID data of the device [h]: its
    buffer holds a header of type [RIM_TYPEHID] with the handle [h], and
    after it a whole [RAWHID] structure. *)
Definition hid_input_from (h : HANDLE) (ev : option bytes * Z) : Prop :=
  match ev.1 with
  | Some buffer =>
      match RAWINPUTHEADER_from_buffer_copy buffer 0,
            RAWHID_from_buffer_copy buffer sizeof_RAWINPUTHEADER with
      | Ok header, Ok _ =>
          hdr_dwType header = RIM_TYPEHID /\ hdr_hDevice header = h
      | _, _ => False
      end
  | None => False
  end.

#[export] Instance hid_input_from_dec h ev : Decision (hid_input_from h ev).
Proof.
  unfold hid_input_from. destruct ev.1 as [buffer|]; [|apply _].
  destruct (RAWINPUTHEADER_from_buffer_copy buffer 0); [|apply _].
  destruct (RAWHID_from_buffer_copy buffer sizeof_RAWINPUTHEADER); apply _.
Defined.

(** A [WM_INPUT] message of type HID for the device [h] whose buffer ends
    before the [RAWHID] structure does: fewer than 4 bytes follow the two
    [DWORD]s of [RAWHID]. *)
Definition short_hid_input_from (h : HANDLE) (ev : option bytes * Z)
  : Prop :=
  match ev.1 with
  | Some buffer =>
      match RAWINPUTHEADER_from_buffer_copy buffer 0 with
      | Ok header =>
          hdr_dwType header = RIM_TYPEHID /\ hdr_hDevice header = h /\
          Z.of_nat (length buffer) < sizeof_RAWINPUTHEADER + sizeof_RAWHID
      | Raise _ => False
      end
  | None => False
  end.

(** The bytes of the buffer that follow the header and the two [DWORD]s
    of [RAWHID]: the reports of the message. *)
Definition raw_data (buffer : bytes) : bytes :=
  drop (Z.to_nat (sizeof_RAWINPUTHEADER + 8)) buffer.

(** Every cached state is the one built for its handle, and its name passed
    the filter. *)
Definition cache_ok (P : HidPlatform) (self : RawInputLogger) : Prop :=
  forall k st, device_cache self !! k = Some st ->
    st = DeviceState_init P k /\ _match_filter self (ds_name st) = true.

(** How often [_match_filter] was called for the handle [h]. *)
Definition checks_of (h : HANDLE) (self : RawInputLogger) : nat :=
  length (filter (fun k => k = h) (filter_checks self)).

(** ** Sample devices *)

(** Concrete platforms and inputs on which the functions are evaluated. *)
Module Samples.

Definition blob : bytes :=
  [Byte.x01; Byte.x02; Byte.x03; Byte.x04; Byte.x05].

Definition HIDP_STATUS_USAGE_NOT_FOUND : Z := 0xC0110004.

(** An X axis with the range of a signed 16-bit stick. *)
Definition x_cap : HIDP_VALUE_CAPS :=
  {| vc_UsagePage := USAGE_PAGE_GENERIC_DESKTOP; vc_LinkCollection := 0;
     vc_IsRange := 0; vc_LogicalMin := -32768; vc_LogicalMax := 32767;
     vc_u := {| u_word0 := USAGE_X; u_word1 := 0 |} |}.

(** A second X axis, declared with an unsigned 8-bit range. *)
Definition x_cap_8bit : HIDP_VALUE_CAPS :=
  {| vc_UsagePage := USAGE_PAGE_GENERIC_DESKTOP; vc_LinkCollection := 0;
     vc_IsRange := 0; vc_LogicalMin := 0; vc_LogicalMax := 255;
     vc_u := {| u_word0 := USAGE_X; u_word1 := 0 |} |}.

(** A slider whose logical range is degenerate. *)
Definition flat_cap : HIDP_VALUE_CAPS :=
  {| vc_UsagePage := USAGE_PAGE_GENERIC_DESKTOP; vc_LinkCollection := 0;
     vc_IsRange := 0; vc_LogicalMin := 7; vc_LogicalMax := 7;
     vc_u := {| u_word0 := USAGE_SLIDER; u_word1 := 0 |} |}.

(** Buttons 1 to 8 and buttons 5 to 12 of the button page. *)
Definition buttons_1_8 : HIDP_BUTTON_CAPS :=
  {| bc_UsagePage := 0x09; bc_LinkCollection := 0; bc_IsRange := 1;
     bc_u := {| u_word0 := 1; u_word1 := 8 |} |}.
Definition buttons_5_12 : HIDP_BUTTON_CAPS :=
  {| bc_UsagePage := 0x09; bc_LinkCollection := 1; bc_IsRange := 1;
     bc_u := {| u_word0 := 5; u_word1 := 12 |} |}.

Definition caps_1_2 : HIDP_CAPS :=
  {| caps_Usage := 0x05; caps_UsagePage := USAGE_PAGE_GENERIC_DESKTOP;
     NumberInputButtonCaps := 2; NumberInputValueCaps := 1 |}.

(** A gamepad named "Logitech Gamepad": an X axis that reads 0, a slider
    that reads 3, two overlapping button ranges that both report button 5
    as pressed. The two table queries answer with the statuses [vstatus]
    and [bstatus]; decoding a report whose first byte is [0xff] faults
    inside [HidP_GetUsageValue]. *)
Definition gamepad (vstatus bstatus : Z) : HidPlatform :=
  {| HidP_GetCaps := fun _ => (HIDP_STATUS_SUCCESS, caps_1_2);
     HidP_GetValueCaps := fun _ _ => (vstatus, [x_cap], 1);
     HidP_GetButtonCaps := fun _ _ =>
       (bstatus, [buttons_1_8; buttons_5_12], 2);
     HidP_GetUsageValue := fun _ report _ _ usage =>
       match report with
       | Byte.xff :: _ => Raise (OSError (-1073741819))
       | _ =>
           if decide (usage = USAGE_X) then Ok (HIDP_STATUS_SUCCESS, 0)
           else if decide (usage = USAGE_SLIDER)
           then Ok (HIDP_STATUS_SUCCESS, 3)
           else Ok (HIDP_STATUS_USAGE_NOT_FOUND, 0)
       end;
     HidP_GetUsages := fun _ _ _ _ _ _ => Ok (HIDP_STATUS_SUCCESS, [5], 1);
     get_device_name := fun _ => "Logitech Gamepad"%string;
     get_device_info := fun _ => Some (USAGE_PAGE_GENERIC_DESKTOP, 0x05);
     get_preparsed_data := fun _ => Some [] |}.

Definition pad : HidPlatform :=
  gamepad HIDP_STATUS_SUCCESS HIDP_STATUS_SUCCESS.

(** The same gamepad when [HidP_GetValueCaps] fails, and when
    [HidP_GetButtonCaps] fails. *)
Definition no_values : HidPlatform :=
  gamepad HIDP_STATUS_USAGE_NOT_FOUND HIDP_STATUS_SUCCESS.
Definition no_buttons : HidPlatform :=
  gamepad HIDP_STATUS_SUCCESS HIDP_STATUS_USAGE_NOT_FOUND.

(** The double that [normalize_value 0 (-32768) 32767] returns:
    [0x1.00010001p-16]. *)
Definition norm_x : PyFloat.float :=
  S754_finite false 4503668347895808 (-68).

(** The [n] bytes of an unsigned integer in little-endian order. *)
Fixpoint le_bytes (n : nat) (z : Z) : bytes :=
  match n with
  | O => []
  | S n' =>
      default Byte.x00 (Byte.of_N (Z.to_N (z mod 256)))
        :: le_bytes n' (z / 256)
  end.

(** The buffer that [GetRawInputData] fills for a message: the header
    ([dwType], [dwSize], [hDevice], [wParam]), the two [DWORD]s of [RAWHID]
    and the reports. *)
Definition raw_input_buffer (dwType hDevice dwSizeHid dwCount : Z)
    (data : bytes) : bytes :=
  le_bytes 4 dwType ++ le_bytes 4 (32 + Z.of_nat (length data)) ++
  le_bytes 8 hDevice ++ le_bytes 8 0 ++
  le_bytes 4 dwSizeHid ++ le_bytes 4 dwCount ++ data.

(** A [WM_INPUT] message of 3 reports of 2 bytes from handle 1; the
    second report starts with [0xff]. *)
Definition input3 : bytes :=
  raw_input_buffer RIM_TYPEHID 1 2 3
    [Byte.x01; Byte.x02; Byte.xff; Byte.x04; Byte.x05; Byte.x06].

(** A [WM_INPUT] message of a single report of 2 bytes from handle 1: a
    buffer of 34 bytes. *)
Definition input_short : bytes :=
  raw_input_buffer RIM_TYPEHID 1 2 1 [Byte.x01; Byte.x02].

End Samples.


(** ** More vocabulary *)

(** The platform answers every query made while [report] is decoded
    without a fault, and never reports more usages than it was asked
    for. *)
Definition answers_decoding (P : HidPlatform) (preparsed : Preparsed)
    (report : bytes) : Prop :=
  (forall usage_page usage,
      exists status value,
        HidP_GetUsageValue P preparsed report (Z.of_nat (length report))
          usage_page usage = Ok (status, value)) /\
  (forall usage_page link_collection max_usages,
      0 < max_usages ->
      exists status written usage_count,
        HidP_GetUsages P preparsed report (Z.of_nat (length report))
          usage_page link_collection max_usages
          = Ok (status, written, usage_count) /\
        (status = HIDP_STATUS_SUCCESS -> ULONG usage_count <= max_usages)).

(** More sample devices. *)
Module Samples2.

(** A single button, usage 7. *)
Definition button_7 : HIDP_BUTTON_CAPS :=
  {| bc_UsagePage := 0x09; bc_LinkCollection := 0; bc_IsRange := 0;
     bc_u := {| u_word0 := 7; u_word1 := 0 |} |}.

(** The gamepad of [Samples] with a [HidP_GetUsages] that reports two
    pressed usages whatever the length of the array it is given. *)
Definition overcount : HidPlatform :=
  {| HidP_GetCaps := HidP_GetCaps Samples.pad;
     HidP_GetValueCaps := HidP_GetValueCaps Samples.pad;
     HidP_GetButtonCaps := HidP_GetButtonCaps Samples.pad;
     HidP_GetUsageValue := HidP_GetUsageValue Samples.pad;
     HidP_GetUsages := fun _ _ _ _ _ _ =>
       Ok (HIDP_STATUS_SUCCESS, [5; 6], 2);
     get_device_name := get_device_name Samples.pad;
     get_device_info := get_device_info Samples.pad;
     get_preparsed_data := get_preparsed_data Samples.pad |}.

(** A device state with one axis and the single button. *)
Definition one_button_state : DeviceState :=
  {| ds_handle := 1; ds_name := "Logitech Gamepad"%string;
     ds_info := Some (USAGE_PAGE_GENERIC_DESKTOP, 0x05);
     ds_preparsed := Some []; ds_caps := Some Samples.caps_1_2;
     ds_value_caps := [Samples.x_cap]; ds_button_caps := [button_7] |}.

(** The gamepad of [Samples] as a platform that never faults, whatever the
    report, and that has no slider. *)
Definition calm : HidPlatform :=
  {| HidP_GetCaps := HidP_GetCaps Samples.pad;
     HidP_GetValueCaps := HidP_GetValueCaps Samples.pad;
     HidP_GetButtonCaps := HidP_GetButtonCaps Samples.pad;
     HidP_GetUsageValue := fun _ _ _ _ usage =>
       if decide (usage = USAGE_X) then Ok (HIDP_STATUS_SUCCESS, 0)
       else Ok (Samples.HIDP_STATUS_USAGE_NOT_FOUND, 0);
     HidP_GetUsages := fun _ _ _ _ _ _ => Ok (HIDP_STATUS_SUCCESS, [5], 1);
     get_device_name := get_device_name Samples.pad;
     get_device_info := get_device_info Samples.pad;
     get_preparsed_data := get_preparsed_data Samples.pad |}.

End Samples2.

(** A row that was written for a device of the platform: its name is the
    name of its handle and passes the filter of the logger, and its usage
    page and usage are those of the device info of its handle. *)
Definition row_of_accepted (P : HidPlatform) (self : RawInputLogger)
    (row : EventRow) : Prop :=
  row_device_name row = get_device_name P (row_device_handle row) /\
  _match_filter self (row_device_name row) = true /\
  row_usage_page row = fst <$> get_device_info P (row_device_handle row) /\
  row_usage row = snd <$> get_device_info P (row_device_handle row) /\
  row_report_size row = Z.of_nat (length (row_report row)).

(** ** The wrappers of [user32.dll] *)

(** The functions that ask [user32.dll] for the device list, the name, the
    device info and the preparsed data of a device. No [restype] is set on
    the functions of [user32], so ctypes converts their results as C
    [int]. *)
Module Wrappers.

(** The Python value of a result converted as a C [int], and the value
    read back from a [wintypes.UINT]. *)
Definition c_int (z : Z) : Z := (z + 2 ^ 31) mod 2 ^ 32 - 2 ^ 31.
Definition UINT (z : Z) : Z := z mod 2 ^ 32.

Record RAWINPUTDEVICELIST : Type := {
  hDevice : HANDLE;
  dwType : Z;
}.

Definition zero_entry : RAWINPUTDEVICELIST := {| hDevice := 0; dwType := 0 |}.

(** What [user32.dll] answers: the result of each call with what it stored
    through its pointers. A size or count that the call does not store
    keeps the value it was given. *)
Record User32 : Type := {
  (* GetRawInputDeviceList(NULL, &count, ..): result, count *)
  GetRawInputDeviceList_count : Z * Z;
  (* GetRawInputDeviceList(array, &count, ..), length of the array:
     result, entries stored *)
  GetRawInputDeviceList_fill : Z -> Z * list RAWINPUTDEVICELIST;
  (* the error code that ctypes.WinError() reads *)
  GetLastError : Z;
  (* GetRawInputDeviceInfoW(h, RIDI_DEVICENAME, NULL, &size): result, size *)
  DeviceName_size : HANDLE -> Z * Z;
  (* GetRawInputDeviceInfoW(h, RIDI_DEVICENAME, buffer, &size), length of
     the buffer: result, characters stored *)
  DeviceName_fill : HANDLE -> Z -> Z * list ascii;
  (* GetRawInputDeviceInfoW(h, RIDI_DEVICEINFO, &info, &size): result,
     usUsagePage and usUsage of info.u.hid after the call *)
  DeviceInfo_fill : HANDLE -> Z * (Z * Z);
  (* GetRawInputDeviceInfoW(h, RIDI_PREPARSEDDATA, NULL, &size) *)
  PreparsedData_size : HANDLE -> Z * Z;
  (* GetRawInputDeviceInfoW(h, RIDI_PREPARSEDDATA, buffer, &size) *)
  PreparsedData_fill : HANDLE -> Z -> Z * list Byte.byte;
}.

(** [buffer.value] of a character buffer: the characters before the first
    NUL. *)
Fixpoint buffer_value (buffer : list ascii) : string :=
  match buffer with
  | [] => EmptyString
  | c :: rest =>
      if decide (c = Ascii.zero) then EmptyString
      else String c (buffer_value rest)
  end.

Section Wrap.

Context (U : User32).

Definition get_raw_input_device_list : PyResult (list RAWINPUTDEVICELIST) :=
  let '(res, device_count) := GetRawInputDeviceList_count U in
  if decide (c_int res ≠ 0) then Raise (OSError (GetLastError U))
  else if decide (UINT device_count = 0) then Ok []
  else
    let '(res, written) := GetRawInputDeviceList_fill U (UINT device_count) in
    let device_list :=
      c_array (Z.to_nat (UINT device_count)) zero_entry written in
    if decide (c_int res = UINT (-1)) then Raise (OSError (GetLastError U))
    else Ok device_list.

Definition get_device_name (handle : HANDLE) : string :=
  let '(res, size) := DeviceName_size U handle in
  if decide (c_int res = UINT (-1)) then EmptyString
  else
    let '(res, written) := DeviceName_fill U handle (UINT size + 1) in
    let buffer := c_array (Z.to_nat (UINT size + 1)) Ascii.zero written in
    if decide (c_int res = UINT (-1)) then EmptyString
    else buffer_value buffer.

Definition get_device_info (handle : HANDLE) : option (Z * Z) :=
  let '(res, info) := DeviceInfo_fill U handle in
  if decide (c_int res = UINT (-1)) then None
  else Some (USHORT info.1, USHORT info.2).

Definition get_preparsed_data (handle : HANDLE) : option Preparsed :=
  let '(res, size) := PreparsedData_size U handle in
  if decide (c_int res = UINT (-1) \/ UINT size = 0) then None
  else
    let '(res, written) := PreparsedData_fill U handle (UINT size) in
    let buffer := c_array (Z.to_nat (UINT size)) Byte.x00 written in
    if decide (c_int res = UINT (-1)) then None
    else Some buffer.

End Wrap.

(** A [user32.dll] whose every call fails with [(UINT)-1] and stores
    nothing, for a device list announced as 2 entries. *)
Definition failing : User32 :=
  {| GetRawInputDeviceList_count := (0, 2);
     GetRawInputDeviceList_fill := fun _ => (4294967295, []);
     GetLastError := 87;
     DeviceName_size := fun _ => (4294967295, 0);
     DeviceName_fill := fun _ _ => (4294967295, []);
     DeviceInfo_fill := fun _ => (4294967295, (0, 0));
     PreparsedData_size := fun _ => (0, 4);
     PreparsedData_fill := fun _ _ => (4294967295, []) |}.

End Wrappers.

(** ** The event writer *)

(** What [EventWriter] has written to its file, record by record: the CSV
    header, a CSV record ([csv.DictWriter.writerow]) or a line of JSON
    ([json.dumps(row) + "\n"]). The text of a record is not modelled. *)
Inductive FileRecord : Type :=
| CsvHeader (fieldnames : list string)
| CsvRecord (row : EventRow)
| JsonLine (row : EventRow).

Record EventWriter : Type := {
  ew_path : string;
  ew_fmt : string;
  ew_file : list FileRecord;
  ew_csv_writer : option (list string);
}.

Definition csv_fieldnames : list string :=
  [ "timestamp_iso"; "timestamp_ms"; "device_handle"; "device_name";
    "usage_page"; "usage"; "report_size"; "report_hex"; "axes_json";
    "buttons_json" ]%string.

(** [EventWriter.__init__], once the file is open. *)
Definition EventWriter_init (path fmt : string) : EventWriter :=
  if decide (fmt = "csv"%string) then
    {| ew_path := path; ew_fmt := fmt;
       ew_file := [CsvHeader csv_fieldnames];
       ew_csv_writer := Some csv_fieldnames |}
  else
    {| ew_path := path; ew_fmt := fmt; ew_file := [];
       ew_csv_writer := None |}.

(** [EventWriter.write_event]. *)
Definition EventWriter_write_event (row : EventRow) (self : EventWriter)
  : EventWriter :=
  if decide (ew_fmt self = "jsonl"%string) then
    {| ew_path := ew_path self; ew_fmt := ew_fmt self;
       ew_file := ew_file self ++ [JsonLine row];
       ew_csv_writer := ew_csv_writer self |}
  else
    match ew_csv_writer self with
    | None => self
    | Some _ =>
        {| ew_path := ew_path self; ew_fmt := ew_fmt self;
           ew_file := ew_file self ++ [CsvRecord row];
           ew_csv_writer := ew_csv_writer self |}
    end.

(** The writer after the rows of a session. *)
Definition EventWriter_session (path fmt : string) (rows : list EventRow)
  : EventWriter :=
  foldl (fun w row => EventWriter_write_event row w)
        (EventWriter_init path fmt) rows.

(** ** Facts about binary64 used by the normalizer *)

Section FloatFacts.

Import PyFloat.

Lemma digits2_pos_size (p : positive) : digits2_pos p = Pos.size p.
Proof. induction p as [p IH|p IH|]; simpl; congruence. Qed.

Lemma digits2_pos_iter_xO (p : positive) (n : positive) :
  Zpos (digits2_pos (Pos.iter xO p n)) = Zpos (digits2_pos p) + Zpos n.
Proof.
  induction n as [|n IH] using Pos.peano_ind.
  - simpl. lia.
  - rewrite Pos.iter_succ. simpl. lia.
Qed.

Lemma digits2_pos_bound (p : positive) (n : Z) :
  0 <= n -> Zpos p < 2 ^ n -> Zpos (digits2_pos p) <= n.
Proof.
  intros Hn Hp. rewrite digits2_pos_size.
  destruct (Z_le_gt_dec (Zpos (Pos.size p)) n) as [|Hgt]; [done|].
  exfalso.
  pose proof (Pos.size_le p) as Hle.
  assert (Hpow : 2 ^ (n + 1) <= 2 ^ Zpos (Pos.size p))
    by (apply Z.pow_le_mono_r; lia).
  rewrite Z.pow_add_r in Hpow by lia.
  assert (Hsz : 2 ^ Zpos (Pos.size p) <= 2 * Zpos p).
  { rewrite <- Pos2Z.inj_pow. lia. }
  lia.
Qed.

(** A mantissa of exactly 53 bits with an exponent in range is already
    rounded: [binary_round_aux] returns it unchanged. *)
Lemma binary_round_aux_canonical (s : bool) (m : positive) (e : Z) :
  Zpos (digits2_pos m) = 53 -> -1074 <= e <= 971 ->
  binary_round_aux prec emax s (Zpos m) e loc_Exact = S754_finite s m e.
Proof.
  intros Hd He.
  assert (Hn : fexp prec emax (Zdigits2 (Zpos m) + e) - e = 0).
  { simpl. rewrite Hd. unfold fexp, emin, prec, emax. lia. }
  unfold binary_round_aux, shr_fexp. rewrite Hn. simpl.
  rewrite Hd.
  replace (fexp prec emax (53 + e) - e) with 0
    by (unfold fexp, emin, prec, emax; lia).
  simpl.
  replace (e <=? emax - prec) with true
    by (symmetry; apply Z.leb_le; unfold emax, prec; lia).
  reflexivity.
Qed.

Lemma canon_m_digits (p : positive) :
  Zpos (digits2_pos p) <= 53 -> Zpos (digits2_pos (canon_m p)) = 53.
Proof.
  intros Hd. unfold canon_m.
  destruct (53 - Zpos (digits2_pos p)) as [|k|k] eqn:Hk; try lia.
  rewrite digits2_pos_iter_xO. lia.
Qed.

Lemma of_int_pos (p : positive) :
  Zpos (digits2_pos p) <= 53 ->
  of_int (Zpos p) = Ok (S754_finite false (canon_m p) (canon_e p)).
Proof.
  intros Hd. pose proof (canon_m_digits p Hd) as Hc.
  assert (Hpos : 0 < Zpos (digits2_pos p)) by lia.
  unfold of_int, binary_normalize, binary_round.
  assert (Hf : fexp prec emax (Zpos (digits2_pos p) + 0) = canon_e p).
  { unfold fexp, emin, prec, emax, canon_e. lia. }
  rewrite Hf. unfold shl_align, canon_e. rewrite Z.sub_0_r.
  unfold canon_m in *.
  destruct (Zpos (digits2_pos p) - 53) as [|k|k] eqn:Hk; try lia.
  - replace (53 - Zpos (digits2_pos p)) with 0 in * by lia.
    rewrite binary_round_aux_canonical by (try done; lia).
    replace (Zpos (digits2_pos p) + 0) with 53 by lia. reflexivity.
  - replace (53 - Zpos (digits2_pos p)) with (Zpos k) in * by lia.
    rewrite binary_round_aux_canonical by (try done; lia).
    replace (Zpos (digits2_pos p) + 0 ) with (53 + Zneg k) by lia.
    reflexivity.
Qed.

Lemma canon_xO (p : positive) :
  Zpos (digits2_pos p) < 53 ->
  canon_m p~0 = canon_m p /\ canon_e p~0 = canon_e p + 1.
Proof.
  intros Hd. unfold canon_m, canon_e. simpl digits2_pos. split; [|lia].
  destruct (53 - Zpos (digits2_pos p)) as [|k|k] eqn:Hk; try lia.
  destruct (53 - Zpos (Pos.succ (digits2_pos p))) as [|j|j] eqn:Hj; try lia.
  - assert (k = 1%positive) as -> by lia. reflexivity.
  - assert (k = Pos.succ j) as -> by lia.
    rewrite Pos.iter_succ. apply (Pos.iter_swap j _ xO p).
Qed.

Lemma div_eucl_shiftl (m : positive) (s : Z) :
  0 <= s -> Z.div_eucl (Z.shiftl (Zpos m) s) (Zpos m) = (2 ^ s, 0).
Proof.
  intros Hs. rewrite Z.shiftl_mul_pow2 by done.
  pose proof (Z.div_mul (2 ^ s) (Zpos m) ltac:(lia)) as Hq.
  pose proof (Z.mod_mul (2 ^ s) (Zpos m) ltac:(lia)) as Hr.
  rewrite (Z.mul_comm (2 ^ s)) in Hq, Hr.
  unfold Z.div, Z.modulo in Hq, Hr.
  destruct (Z.div_eucl (Zpos m * 2 ^ s) (Zpos m)) as [q r]. congruence.
Qed.

Lemma new_location_zero (m : positive) :
  new_location (Zpos m) 0 = loc_Exact.
Proof. unfold new_location. destruct (Z.even (Zpos m)); reflexivity. Qed.

(** [x / x] is exactly [1.0] for a positive finite double. *)
Lemma fdiv_same (m : positive) (e : Z) :
  fdiv (S754_finite false m e) (S754_finite false m e) = one.
Proof.
  unfold fdiv, SFdiv, SFdiv_core_binary.
  rewrite !Z.sub_diag. change (fexp prec emax 0) with (-53).
  change (Z.min (-53) 0) with (-53). change (0 - -53) with 53.
  cbv iota. rewrite (div_eucl_shiftl m 53) by lia.
  rewrite new_location_zero. reflexivity.
Qed.

(** [x / (2 * x)] is exactly [0.5]. *)
Lemma fdiv_double (m : positive) (e : Z) :
  fdiv (S754_finite false m e) (S754_finite false m (e + 1)) = half.
Proof.
  unfold fdiv, SFdiv, SFdiv_core_binary.
  replace (Zdigits2 (Zpos m) + e - (Zdigits2 (Zpos m) + (e + 1)))
    with (-1) by lia.
  replace (e - (e + 1)) with (-1) by lia.
  change (fexp prec emax (-1)) with (-54).
  change (Z.min (-54) (-1)) with (-54). change (-1 - -54) with 53.
  cbv iota. rewrite (div_eucl_shiftl m 53) by lia.
  rewrite new_location_zero. reflexivity.
Qed.

(** [0 / x] is [0.0] for a positive finite double. *)
Lemma fdiv_zero (m : positive) (e : Z) :
  fdiv zero (S754_finite false m e) = zero.
Proof. reflexivity. Qed.

(** A positive int below [2^53] converts exactly. *)
Lemma of_int_small (z : Z) :
  0 < z < 2 ^ 53 ->
  exists m e, of_int z = Ok (S754_finite false m e).
Proof.
  intros [Hz Hlt]. destruct z as [|p|p]; try lia.
  exists (canon_m p), (canon_e p). apply of_int_pos.
  apply digits2_pos_bound; lia.
Qed.

Lemma of_int_double (z : Z) :
  0 < z -> 2 * z < 2 ^ 53 ->
  exists m e, of_int z = Ok (S754_finite false m e) /\
              of_int (2 * z) = Ok (S754_finite false m (e + 1)).
Proof.
  intros Hz Hlt. destruct z as [|p|p]; try lia.
  assert (Hd : Zpos (digits2_pos p~0) <= 53)
    by (apply digits2_pos_bound; lia).
  simpl digits2_pos in Hd.
  destruct (canon_xO p ltac:(lia)) as [Hm He].
  exists (canon_m p), (canon_e p). split.
  - apply of_int_pos. lia.
  - change (2 * Zpos p) with (Zpos p~0).
    rewrite <- Hm, <- He. apply of_int_pos. simpl digits2_pos. lia.
Qed.

End FloatFacts.


(** ** The report segmenter *)

Section Segmenter.

(** The loop of [parse_report_bytes] keeps the indices whose slice ends
    inside the data and maps them to their slices. *)
Lemma parse_report_bytes_filter (data : bytes) (report_size count : Z) :
  parse_report_bytes data report_size count =
  (fun idx => py_slice data (idx * report_size)
                            (idx * report_size + report_size)) <$>
  filter (fun idx => idx * report_size + report_size
                     <= Z.of_nat (length data)) (seqZ 0 count).
Proof.
  unfold parse_report_bytes.
  generalize (seqZ 0 count) as l.
  enough (forall (l : list Z) (acc : list bytes),
    foldl (fun reports idx =>
             if decide (idx * report_size + report_size
                        <= Z.of_nat (length data))
             then reports ++
                  [py_slice data (idx * report_size)
                                 (idx * report_size + report_size)]
             else reports) acc l =
    acc ++ ((fun idx => py_slice data (idx * report_size)
                          (idx * report_size + report_size)) <$>
            filter (fun idx => idx * report_size + report_size
                               <= Z.of_nat (length data)) l)) as H
    by (intros l; apply (H l [])).
  induction l as [|x l IH]; intros acc; simpl.
  - by rewrite app_nil_r.
  - rewrite IH, filter_cons. case_decide; simpl; [|done].
    by rewrite <- app_assoc.
Qed.

Lemma filter_lt_seqZ (q : Z) (n : nat) :
  filter (fun i => i < q) (seqZ 0 (Z.of_nat n)) =
  seqZ 0 (Z.min (Z.of_nat n) q).
Proof.
  induction n as [|n IH].
  - simpl. rewrite (seqZ_nil 0 (Z.min _ _)) by lia. done.
  - rewrite seqZ_S, filter_app, IH, Z.add_0_l.
    rewrite filter_cons, filter_nil. case_decide.
    + rewrite !Z.min_l by lia. by rewrite seqZ_S.
    + rewrite !Z.min_r by lia. by rewrite app_nil_r.
Qed.

Lemma filter_all {A} (P : A -> Prop) `{!forall x, Decision (P x)}
    (l : list A) :
  (forall x, P x) -> filter P l = l.
Proof.
  intros HP. induction l as [|x l IH]; [done|].
  rewrite filter_cons_True by done. by rewrite IH.
Qed.

Lemma slice_end_in_data (len report_size idx : Z) :
  0 < report_size ->
  idx * report_size + report_size <= len <-> idx < len / report_size.
Proof.
  intros Hs.
  pose proof (Z.div_mod len report_size ltac:(lia)) as Hdm.
  pose proof (Z.mod_pos_bound len report_size Hs) as Hr.
  split; intros H; nia.
Qed.

Lemma py_slice_inside {A} (data : list A) (start stop : Z) :
  0 <= start <= stop -> stop <= Z.of_nat (length data) ->
  py_slice data start stop =
    take (Z.to_nat (stop - start)) (drop (Z.to_nat start) data) /\
  Z.of_nat (length (py_slice data start stop)) = stop - start.
Proof.
  intros Hs He. unfold py_slice, slice_index.
  repeat case_decide; try lia.
  rewrite !Z.min_l by lia. split; [done|].
  rewrite length_take, length_drop. lia.
Qed.

End Segmenter.

(** C1 (as amended). For a report size of at least 1 and a non-negative
    count, [parse_report_bytes] returns exactly
    [min(count, len(data) // report_size)] slices; slice [i] is
    [data[i*report_size : (i+1)*report_size]] and has [report_size] bytes;
    data shorter than one report gives no slice. *)
Theorem parse_report_bytes_spec (data : bytes) (report_size count : Z) :
  0 < report_size -> 0 <= count ->
  let n := Z.min count (Z.of_nat (length data) / report_size) in
  parse_report_bytes data report_size count =
    (fun i => py_slice data (i * report_size) ((i + 1) * report_size))
      <$> seqZ 0 n /\
  Z.of_nat (length (parse_report_bytes data report_size count)) = n /\
  (forall (i : nat) (r : bytes),
      parse_report_bytes data report_size count !! i = Some r ->
      r = take (Z.to_nat report_size)
               (drop (i * Z.to_nat report_size) data) /\
      Z.of_nat (length r) = report_size) /\
  (Z.of_nat (length data) < report_size ->
   parse_report_bytes data report_size count = []).
Proof.
  intros Hs Hc n.
  assert (Hq : 0 <= Z.of_nat (length data) / report_size)
    by (apply Z.div_pos; lia).
  assert (Heq : parse_report_bytes data report_size count =
    (fun i => py_slice data (i * report_size) ((i + 1) * report_size))
      <$> seqZ 0 n).
  { rewrite parse_report_bytes_filter.
    rewrite (list_filter_iff _
               (fun i => i < Z.of_nat (length data) / report_size))
      by (intros i; by apply slice_end_in_data).
    rewrite <- (Z2Nat.id count) by done.
    rewrite filter_lt_seqZ, Z2Nat.id by done. fold n.
    apply list_fmap_ext. intros _ i _. f_equal. lia. }
  split; [done|]. rewrite Heq. split; [|split].
  - rewrite length_fmap, length_seqZ. lia.
  - intros i r Hi. apply list_lookup_fmap_Some in Hi as (k & -> & Hk).
    apply lookup_seqZ in Hk as [-> Hlt]. rewrite Z.add_0_l.
    assert (Hin : (Z.of_nat i + 1) * report_size <= Z.of_nat (length data)).
    { pose proof (slice_end_in_data (Z.of_nat (length data)) report_size
                    (Z.of_nat i) Hs) as [_ Hle].
      lapply Hle; [|lia]. lia. }
    destruct (py_slice_inside data (Z.of_nat i * report_size)
                ((Z.of_nat i + 1) * report_size)) as [Hsl Hlen]; [nia|lia|].
    rewrite Hlen. split; [|lia]. rewrite Hsl.
    replace ((Z.of_nat i + 1) * report_size - Z.of_nat i * report_size)
      with report_size by lia.
    by rewrite Z2Nat.inj_mul, Nat2Z.id by lia.
  - intros Hshort. subst n.
    rewrite (Z.div_small (Z.of_nat (length data))) by lia.
    rewrite Z.min_r by lia. done.
Qed.

Lemma parse_report_bytes_spec_witness :
  parse_report_bytes Samples.blob 2 3 =
    [[Byte.x01; Byte.x02]; [Byte.x03; Byte.x04]] /\
  Z.of_nat (length (parse_report_bytes Samples.blob 2 3)) = 2.
Proof.
  split; [reflexivity|].
  destruct (parse_report_bytes_spec Samples.blob 2 3) as (_ & Hlen & _);
    [lia|lia|].
  exact Hlen.
Defined.

(** With a report size of 0 every index passes the length test: the
    function returns [count] empty slices, whatever the data. *)
Lemma parse_report_bytes_size_zero (data : bytes) (count : Z) :
  parse_report_bytes data 0 count = replicate (Z.to_nat count) [].
Proof.
  rewrite parse_report_bytes_filter.
  rewrite filter_all by (intros i; lia).
  apply list_eq. intros i. rewrite list_lookup_fmap.
  destruct (decide (Z.of_nat i < count)) as [Hlt|Hge].
  - rewrite lookup_seqZ_lt by done. rewrite lookup_replicate_2 by lia.
    simpl. f_equal. unfold py_slice, slice_index.
    rewrite !Z.mul_0_r, Z.add_0_r. case_decide; [lia|].
    rewrite Z.sub_diag. done.
  - rewrite lookup_seqZ_ge by lia. simpl. symmetry.
    apply lookup_replicate_None. lia.
Qed.

(** C1, counterexample: at report size 0 the data holds no whole number of
    reports, and the function returns [count] slices all the same. *)
Lemma parse_report_bytes_size_zero_counterexample :
  parse_report_bytes Samples.blob 0 2 = [[]; []] /\
  Z.of_nat (length (parse_report_bytes Samples.blob 0 2))
    <> Z.min 2 (Z.of_nat (length Samples.blob) / 0) /\
  ~ (exists q : Z, forall count : Z, 0 <= count ->
        Z.of_nat (length (parse_report_bytes Samples.blob 0 count))
        = Z.min count q).
Proof.
  split; [reflexivity|]. split; [by vm_compute|].
  intros [q Hq].
  pose proof (Hq (Z.max q 0 + 1) ltac:(lia)) as H.
  rewrite parse_report_bytes_size_zero, length_replicate in H. lia.
Qed.

(** ** The normalizer *)

Section Normalizer.

Import PyFloat.

Lemma is_LONG_span (lo hi : Z) :
  is_LONG lo -> is_LONG hi -> lo < hi -> 0 < hi - lo < 2 ^ 53.
Proof. unfold is_LONG. lia. Qed.

Lemma normalize_value_at_min (lo hi : Z) :
  is_LONG lo -> is_LONG hi -> lo < hi ->
  normalize_value lo lo hi =
    Ok (Some (if decide (lo < 0) then minus_one else zero)).
Proof.
  intros Hlo Hhi Hlt. unfold normalize_value.
  case_decide; [lia|].
  destruct (of_int_small (hi - lo)) as (m & e & ->);
    [by apply is_LONG_span|].
  rewrite Z.sub_diag. simpl. case_decide; reflexivity.
Qed.

Lemma normalize_value_at_max (lo hi : Z) :
  is_LONG lo -> is_LONG hi -> lo < hi ->
  normalize_value hi lo hi = Ok (Some one).
Proof.
  intros Hlo Hhi Hlt. unfold normalize_value.
  case_decide; [lia|].
  destruct (of_int_small (hi - lo)) as (m & e & ->);
    [by apply is_LONG_span|].
  cbn [mbind PyResult_bind]. rewrite fdiv_same. case_decide; reflexivity.
Qed.

Lemma normalize_value_at_mid (value lo hi : Z) :
  is_LONG lo -> is_LONG hi -> lo < 0 -> lo < hi ->
  2 * value = lo + hi ->
  normalize_value value lo hi = Ok (Some zero).
Proof.
  intros Hlo Hhi Hneg Hlt Hmid. unfold normalize_value.
  case_decide; [lia|].
  replace (hi - lo) with (2 * (value - lo)) by lia.
  destruct (of_int_double (value - lo)) as (m & e & -> & ->);
    [lia|unfold is_LONG in *; lia|].
  cbn [mbind PyResult_bind]. rewrite fdiv_double.
  case_decide; [reflexivity|lia].
Qed.

End Normalizer.

(** C3. With a logical range of 32-bit signed bounds, [normalize_value]
    maps the ends of the range exactly: for [logical_min < 0 <= logical_max]
    the minimum gives [-1.0], the maximum gives [1.0] and the midpoint,
    when it is an integer, gives exactly [0.0]; for
    [0 <= logical_min < logical_max] the minimum gives [0.0] and the maximum
    gives [1.0]. *)
Theorem normalize_value_endpoints (logical_min logical_max : Z) :
  is_LONG logical_min -> is_LONG logical_max ->
  (logical_min < 0 <= logical_max ->
     normalize_value logical_min logical_min logical_max
       = Ok (Some PyFloat.minus_one) /\
     normalize_value logical_max logical_min logical_max
       = Ok (Some PyFloat.one) /\
     (forall value, 2 * value = logical_min + logical_max ->
        normalize_value value logical_min logical_max
          = Ok (Some PyFloat.zero))) /\
  (0 <= logical_min < logical_max ->
     normalize_value logical_min logical_min logical_max
       = Ok (Some PyFloat.zero) /\
     normalize_value logical_max logical_min logical_max
       = Ok (Some PyFloat.one)).
Proof.
  intros Hlo Hhi. split.
  - intros [Hneg Hpos]. split; [|split].
    + rewrite normalize_value_at_min by (done || lia).
      case_decide; [done|lia].
    + apply normalize_value_at_max; (done || lia).
    + intros value Hmid. apply normalize_value_at_mid; (done || lia).
  - intros [Hpos Hlt]. split.
    + rewrite normalize_value_at_min by (done || lia).
      case_decide; [lia|done].
    + apply normalize_value_at_max; (done || lia).
Qed.

Lemma normalize_value_endpoints_witness :
  (normalize_value (-32768) (-32768) 32767 = Ok (Some PyFloat.minus_one) /\
   normalize_value 32767 (-32768) 32767 = Ok (Some PyFloat.one)) /\
  (normalize_value (-5) (-10) 0 = Ok (Some PyFloat.zero)) /\
  (normalize_value 0 0 255 = Ok (Some PyFloat.zero) /\
   normalize_value 255 0 255 = Ok (Some PyFloat.one)).
Proof.
  assert (H16lo : is_LONG (-32768)) by (unfold is_LONG; lia).
  assert (H16hi : is_LONG 32767) by (unfold is_LONG; lia).
  assert (H10 : is_LONG (-10)) by (unfold is_LONG; lia).
  assert (H0 : is_LONG 0) by (unfold is_LONG; lia).
  assert (H255 : is_LONG 255) by (unfold is_LONG; lia).
  split; [|split].
  - destruct (normalize_value_endpoints (-32768) 32767 H16lo H16hi)
      as [Hs _].
    destruct Hs as (Hmin & Hmax & _); [lia|]. by split.
  - destruct (normalize_value_endpoints (-10) 0 H10 H0) as [Hs _].
    destruct Hs as (_ & _ & Hmid); [lia|]. apply Hmid. lia.
  - destruct (normalize_value_endpoints 0 255 H0 H255) as [_ Hu].
    apply Hu. lia.
Defined.

(** ** Loops that may raise *)

Section ForEach.

Context {A S : Type} (body : S -> A -> PyResult S).

Lemma for_each_app (xs ys : list A) (s : S) :
  for_each body (xs ++ ys) s =
  s' ← for_each body xs s; for_each body ys s'.
Proof.
  revert s. induction xs as [|x xs IH]; intros s; simpl; [done|].
  destruct (body s x) as [s'|e]; simpl; [apply IH|done].
Qed.

(** A property kept by every step that returns is kept by the loop. *)
Lemma for_each_invariant (I : S -> Prop) (xs : list A) (s s' : S) :
  (forall s x s', x ∈ xs -> I s -> body s x = Ok s' -> I s') ->
  I s -> for_each body xs s = Ok s' -> I s'.
Proof.
  revert s. induction xs as [|x xs IH]; intros s Hstep Hs Hrun; simpl in *.
  - by simplify_eq.
  - destruct (body s x) as [s1|e] eqn:Hb; simpl in *; [|done].
    apply (IH s1); [|by eapply Hstep; [left|..]|done].
    intros s2 y s3 Hy. apply Hstep. by right.
Qed.

End ForEach.

(** ** The buttons of a decoded report *)

Section SortedSet.

Lemma StronglySorted_le_lt (l : list Z) :
  StronglySorted Z.le l -> NoDup l -> StronglySorted Z.lt l.
Proof.
  induction 1 as [|x l Hs IH Hall]; intros Hnd; [constructor|].
  apply NoDup_cons in Hnd as [Hx Hnd]. constructor; [by apply IH|].
  rewrite Forall_forall in *. intros y Hy.
  assert (x <> y) by (intros ->; done).
  specialize (Hall y Hy). lia.
Qed.

Lemma sorted_set_perm (buttons : list Z) :
  sorted_set buttons ≡ₚ elements (list_to_set buttons : gset Z).
Proof. apply merge_sort_Permutation. Qed.

Lemma elem_of_sorted_set (buttons : list Z) (b : Z) :
  b ∈ sorted_set buttons <-> b ∈ buttons.
Proof.
  rewrite sorted_set_perm, elem_of_elements. apply elem_of_list_to_set.
Qed.

Lemma NoDup_sorted_set (buttons : list Z) : NoDup (sorted_set buttons).
Proof. rewrite sorted_set_perm. apply NoDup_elements. Qed.

Lemma sorted_set_ascending (buttons : list Z) :
  StronglySorted Z.lt (sorted_set buttons).
Proof.
  apply StronglySorted_le_lt; [|apply NoDup_sorted_set].
  apply (StronglySorted_merge_sort Z.le); apply _.
Qed.

End SortedSet.

(** C2. Whatever the button capabilities and the report, the buttons that
    [decode_hid_report] returns are in strictly ascending order, hence
    without duplicates, and they are exactly the usages that the button
    capabilities reported as pressed. *)
Theorem decode_hid_report_buttons_sorted (P : HidPlatform) (report : bytes)
    (preparsed : Preparsed) (value_caps : list HIDP_VALUE_CAPS)
    (button_caps : list HIDP_BUTTON_CAPS)
    (axes : gmap string AxisReading) (buttons : list Z) :
  decode_hid_report P report preparsed value_caps button_caps
    = Ok (axes, buttons) ->
  StronglySorted Z.lt buttons /\
  NoDup buttons /\
  exists pressed : list Z,
    for_each (decode_button_cap P preparsed report) button_caps []
      = Ok pressed /\
    forall b : Z, b ∈ buttons <-> b ∈ pressed.
Proof.
  unfold decode_hid_report. intros H.
  destruct (for_each (decode_value_cap P preparsed report) value_caps ∅)
    as [axes0|e]; simpl in H; [|done].
  destruct (for_each (decode_button_cap P preparsed report) button_caps [])
    as [pressed|e]; simpl in H; [|done].
  injection H as <- <-. split; [apply sorted_set_ascending|].
  split; [apply NoDup_sorted_set|].
  exists pressed. split; [done|]. apply elem_of_sorted_set.
Qed.

(** Two button capabilities that both report usage 5: a single 5. *)
Lemma decode_hid_report_buttons_sorted_witness :
  decode_hid_report Samples.pad Samples.blob [] []
      [Samples.buttons_1_8; Samples.buttons_5_12] = Ok (∅, [5]) /\
  for_each (decode_button_cap Samples.pad [] Samples.blob)
      [Samples.buttons_1_8; Samples.buttons_5_12] [] = Ok [5; 5] /\
  StronglySorted Z.lt [5].
Proof.
  assert (H : decode_hid_report Samples.pad Samples.blob [] []
      [Samples.buttons_1_8; Samples.buttons_5_12] = Ok (∅, [5]))
    by (vm_compute; reflexivity).
  split; [exact H|]. split; [reflexivity|].
  exact (proj1 (decode_hid_report_buttons_sorted _ _ _ _ _ _ _ H)).
Defined.

(** ** The axes of a decoded report *)

Section Axes.

Context (P : HidPlatform) (preparsed : Preparsed) (report : bytes).

(** The axis table holds the ten usages [0x30 .. 0x39] and nothing else. *)
Lemma AXIS_USAGE_NAMES_lookup (usage : Z) :
  AXIS_USAGE_NAMES !! usage =
  if decide (0x30 <= usage <= 0x39)
  then axis_names !! Z.to_nat (usage - 0x30) else None.
Proof.
  case_decide as Hr.
  - assert (Hin : usage ∈ seqZ 0x30 10) by (apply elem_of_seqZ; lia).
    vm_compute seqZ in Hin.
    repeat (apply elem_of_cons in Hin as [->|Hin]; [reflexivity|]).
    by apply elem_of_nil in Hin.
  - apply not_elem_of_dom.
    assert (Hdom : dom AXIS_USAGE_NAMES
                   = list_to_set (seqZ 0x30 10) :> gset Z)
      by (vm_compute; reflexivity).
    rewrite Hdom, elem_of_list_to_set, elem_of_seqZ. lia.
Qed.

Lemma AXIS_USAGE_NAMES_name (usage : Z) (name : string) :
  AXIS_USAGE_NAMES !! usage = Some name ->
  0x30 <= usage <= 0x39 /\ name ∈ axis_names.
Proof.
  rewrite AXIS_USAGE_NAMES_lookup. case_decide; [|done].
  intros Hk. split; [done|]. by eapply list_elem_of_lookup_2.
Qed.

(** What one step of the usage loop does when it returns. *)
Lemma decode_usage_cases (cap : HIDP_VALUE_CAPS)
    (axes axes' : gmap string AxisReading) (usage : Z) :
  decode_usage P preparsed report cap axes usage = Ok axes' ->
  axes' = axes \/
  exists name value norm,
    AXIS_USAGE_NAMES !! usage = Some name /\
    hid_get_usage_value P preparsed report (Z.of_nat (length report))
      (vc_UsagePage cap) usage = Ok (Some value) /\
    normalize_value value (vc_LogicalMin cap) (vc_LogicalMax cap)
      = Ok norm /\
    axes' = <[name := reading_of cap value norm]> axes.
Proof.
  unfold decode_usage. intros H.
  destruct (AXIS_USAGE_NAMES !! usage) as [name|]; [|left; congruence].
  destruct (hid_get_usage_value _ _ _ _ _ _) as [[value|]|e];
    simpl in H; [|left; congruence|done].
  destruct (normalize_value _ _ _) as [norm|e] eqn:Hn; simpl in H; [|done].
  right. exists name, value, norm. by simplify_eq.
Qed.

Lemma decode_usage_hit (cap : HIDP_VALUE_CAPS)
    (axes : gmap string AxisReading) (usage value : Z) (name : string)
    (norm : option PyFloat.float) :
  AXIS_USAGE_NAMES !! usage = Some name ->
  hid_get_usage_value P preparsed report (Z.of_nat (length report))
    (vc_UsagePage cap) usage = Ok (Some value) ->
  normalize_value value (vc_LogicalMin cap) (vc_LogicalMax cap)
    = Ok norm ->
  decode_usage P preparsed report cap axes usage
    = Ok (<[name := reading_of cap value norm]> axes).
Proof.
  intros Hname Hvalue Hnorm. unfold decode_usage.
  rewrite Hname, Hvalue. cbn [mbind PyResult_bind]. by rewrite Hnorm.
Qed.

Lemma decode_usage_ignored (cap : HIDP_VALUE_CAPS)
    (axes : gmap string AxisReading) (usage : Z) :
  ~ (0x30 <= usage <= 0x39) ->
  decode_usage P preparsed report cap axes usage = Ok axes.
Proof.
  intros Hout. unfold decode_usage. rewrite AXIS_USAGE_NAMES_lookup.
  by case_decide.
Qed.

Lemma decode_value_cap_other_page (cap : HIDP_VALUE_CAPS)
    (axes : gmap string AxisReading) :
  vc_UsagePage cap <> USAGE_PAGE_GENERIC_DESKTOP ->
  decode_value_cap P preparsed report axes cap = Ok axes.
Proof. intros Hp. unfold decode_value_cap. by case_decide. Qed.

(** A capability that stands for a single usage runs the loop body once. *)
Lemma decode_value_cap_single (cap : HIDP_VALUE_CAPS)
    (axes : gmap string AxisReading) :
  vc_UsagePage cap = USAGE_PAGE_GENERIC_DESKTOP -> vc_IsRange cap = 0 ->
  decode_value_cap P preparsed report axes cap =
  decode_usage P preparsed report cap axes (NotRange_Usage (vc_u cap)).
Proof.
  intros Hp Hr. unfold decode_value_cap, value_cap_usages.
  rewrite Hr. repeat case_decide; try done. simpl.
  by destruct (decode_usage _ _ _ _ _ _).
Qed.

(** Every entry of the dictionary has a source among the capabilities. *)
Lemma decode_value_cap_source (value_caps : list HIDP_VALUE_CAPS)
    (cap : HIDP_VALUE_CAPS) (axes axes' : gmap string AxisReading) :
  cap ∈ value_caps ->
  (forall name r, axes !! name = Some r ->
     axis_source P preparsed report value_caps name r) ->
  decode_value_cap P preparsed report axes cap = Ok axes' ->
  forall name r, axes' !! name = Some r ->
    axis_source P preparsed report value_caps name r.
Proof.
  intros Hcap Hinv. unfold decode_value_cap.
  case_decide as Hpage; [by intros [= <-]|].
  intros Hrun.
  eapply (for_each_invariant _
            (fun a => forall name r, a !! name = Some r ->
               axis_source P preparsed report value_caps name r));
    [|exact Hinv|exact Hrun].
  intros a usage a' Hu Ha Hstep name r.
  apply decode_usage_cases in Hstep
    as [->|(nm & value & norm & Hnm & Hval & Hnorm & ->)]; [apply Ha|].
  destruct (decide (nm = name)) as [->|Hne].
  - rewrite lookup_insert_eq. intros [= <-].
    by exists cap, usage, value, norm.
  - rewrite lookup_insert_ne by done. apply Ha.
Qed.

Lemma decode_axes_source (value_caps : list HIDP_VALUE_CAPS)
    (axes : gmap string AxisReading) :
  for_each (decode_value_cap P preparsed report) value_caps ∅ = Ok axes ->
  forall name r, axes !! name = Some r ->
    axis_source P preparsed report value_caps name r.
Proof.
  intros Hrun.
  eapply (for_each_invariant _
            (fun a => forall name r, a !! name = Some r ->
               axis_source P preparsed report value_caps name r));
    [|by intros name r; rewrite lookup_empty|exact Hrun].
  intros a cap a' Hcap Ha Hstep.
  by eapply decode_value_cap_source.
Qed.

(** Two usages of the table with the same name are the same usage. *)
Lemma AXIS_USAGE_NAMES_inj (u u' : Z) (name : string) :
  AXIS_USAGE_NAMES !! u = Some name ->
  AXIS_USAGE_NAMES !! u' = Some name -> u = u'.
Proof.
  intros Hu Hu'.
  pose proof (AXIS_USAGE_NAMES_name _ _ Hu) as [Hr _].
  pose proof (AXIS_USAGE_NAMES_name _ _ Hu') as [Hr' _].
  assert (Hin : u ∈ seqZ 0x30 10) by (apply elem_of_seqZ; lia).
  assert (Hin' : u' ∈ seqZ 0x30 10) by (apply elem_of_seqZ; lia).
  vm_compute seqZ in Hin, Hin'.
  repeat (apply elem_of_cons in Hin as [->|Hin]);
    try (by apply elem_of_nil in Hin);
    vm_compute in Hu; injection Hu as <-;
    repeat (apply elem_of_cons in Hin' as [->|Hin']);
    try (by apply elem_of_nil in Hin'); by vm_compute in Hu'.
Qed.

(** After the usage loop of a capability, the entry of each of its
    usages that was read is the reading of this capability. *)
Lemma decode_usages_last (cap : HIDP_VALUE_CAPS) (usages : list Z)
    (axes axes' : gmap string AxisReading) (usage value : Z)
    (name : string) (norm : option PyFloat.float) :
  for_each (decode_usage P preparsed report cap) usages axes = Ok axes' ->
  AXIS_USAGE_NAMES !! usage = Some name ->
  hid_get_usage_value P preparsed report (Z.of_nat (length report))
    (vc_UsagePage cap) usage = Ok (Some value) ->
  normalize_value value (vc_LogicalMin cap) (vc_LogicalMax cap)
    = Ok norm ->
  usage ∈ usages \/ axes !! name = Some (reading_of cap value norm) ->
  axes' !! name = Some (reading_of cap value norm).
Proof.
  intros Hrun Hname Hval Hnorm. revert axes Hrun.
  induction usages as [|u usages IH]; intros axes Hrun Hin; simpl in Hrun.
  - destruct Hin as [Hin|Hin]; [by apply elem_of_nil in Hin|].
    by simplify_eq.
  - destruct (decode_usage P preparsed report cap axes u) as [axes1|e]
      eqn:Hstep; simpl in Hrun; [|done].
    apply (IH axes1 Hrun).
    destruct Hin as [Hin|Hin]; [apply elem_of_cons in Hin as [<-|Hin]|].
    + right.
      rewrite (decode_usage_hit cap axes usage value name norm)
        in Hstep by done.
      injection Hstep as <-. by rewrite lookup_insert_eq.
    + by left.
    + right. apply decode_usage_cases in Hstep
        as [->|(nm & v & n & Hnm & Hv & Hn & ->)]; [done|].
      destruct (decide (nm = name)) as [->|Hne].
      * pose proof (AXIS_USAGE_NAMES_inj _ _ _ Hnm Hname) as ->.
        rewrite Hval in Hv. injection Hv as <-.
        rewrite Hnorm in Hn. injection Hn as <-.
        by rewrite lookup_insert_eq.
      * by rewrite lookup_insert_ne.
Qed.

(** The entry of a usage read by a capability is the reading of that
    capability once its loop is over, whatever the dictionary held. *)
Lemma decode_value_cap_last (cap : HIDP_VALUE_CAPS)
    (axes axes' : gmap string AxisReading) (usage value : Z)
    (name : string) (norm : option PyFloat.float) :
  decode_value_cap P preparsed report axes cap = Ok axes' ->
  vc_UsagePage cap = USAGE_PAGE_GENERIC_DESKTOP ->
  usage ∈ value_cap_usages cap ->
  AXIS_USAGE_NAMES !! usage = Some name ->
  hid_get_usage_value P preparsed report (Z.of_nat (length report))
    (vc_UsagePage cap) usage = Ok (Some value) ->
  normalize_value value (vc_LogicalMin cap) (vc_LogicalMax cap)
    = Ok norm ->
  axes' !! name = Some (reading_of cap value norm).
Proof.
  unfold decode_value_cap. intros Hrun Hpage Hin Hname Hval Hnorm.
  case_decide; [done|].
  eapply decode_usages_last; eauto.
Qed.

(** One step of the usage loop, with the reason for which it leaves the
    dictionary as it is. *)
Lemma decode_usage_outcome (cap : HIDP_VALUE_CAPS)
    (axes axes' : gmap string AxisReading) (usage : Z) :
  decode_usage P preparsed report cap axes usage = Ok axes' ->
  (axes' = axes /\
   (AXIS_USAGE_NAMES !! usage = None \/
    hid_get_usage_value P preparsed report (Z.of_nat (length report))
      (vc_UsagePage cap) usage = Ok None)) \/
  exists name value norm,
    AXIS_USAGE_NAMES !! usage = Some name /\
    hid_get_usage_value P preparsed report (Z.of_nat (length report))
      (vc_UsagePage cap) usage = Ok (Some value) /\
    normalize_value value (vc_LogicalMin cap) (vc_LogicalMax cap)
      = Ok norm /\
    axes' = <[name := reading_of cap value norm]> axes.
Proof.
  unfold decode_usage. intros H.
  destruct (AXIS_USAGE_NAMES !! usage) as [name|];
    [|left; split; [congruence|by left]].
  destruct (hid_get_usage_value _ _ _ _ _ _) as [[value|]|e];
    simpl in H; [|left; split; [congruence|by right]|done].
  destruct (normalize_value _ _ _) as [norm|e] eqn:Hn; simpl in H; [|done].
  right. exists name, value, norm. by simplify_eq.
Qed.

(** The usage loop of a capability and the entry of one name: either no
    usage of that name was read and the entry is what it was, or a usage of
    that name was read and the entry is the reading of the capability. *)
Lemma decode_usages_entry (cap : HIDP_VALUE_CAPS) (usages : list Z)
    (axes axes' : gmap string AxisReading) (name : string) :
  for_each (decode_usage P preparsed report cap) usages axes = Ok axes' ->
  (axes' !! name = axes !! name /\
   forall usage value,
     usage ∈ usages -> AXIS_USAGE_NAMES !! usage = Some name ->
     hid_get_usage_value P preparsed report (Z.of_nat (length report))
       (vc_UsagePage cap) usage <> Ok (Some value)) \/
  exists usage value norm,
    usage ∈ usages /\ AXIS_USAGE_NAMES !! usage = Some name /\
    hid_get_usage_value P preparsed report (Z.of_nat (length report))
      (vc_UsagePage cap) usage = Ok (Some value) /\
    normalize_value value (vc_LogicalMin cap) (vc_LogicalMax cap)
      = Ok norm /\
    axes' !! name = Some (reading_of cap value norm).
Proof.
  revert axes. induction usages as [|u usages IH]; intros axes Hrun;
    simpl in Hrun.
  - left. injection Hrun as <-. split; [done|].
    intros usage value Hin. by apply elem_of_nil in Hin.
  - destruct (decode_usage P preparsed report cap axes u) as [axes1|e]
      eqn:Hstep; simpl in Hrun; [|done].
    destruct (IH axes1 Hrun)
      as [[Hsame Hnone]|(u' & v' & n' & Hin' & Hnm' & Hv' & Hn' & Hlk)].
    2:{ right. exists u', v', n'. split; [by right|done]. }
    apply decode_usage_outcome in Hstep
      as [[-> Hwhy]|(nm & v & n & Hnm & Hv & Hn & ->)].
    + left. split; [done|]. intros usage value Hin Hname.
      apply elem_of_cons in Hin as [->|Hin]; [|by apply Hnone].
      destruct Hwhy as [Hno|Hno]; congruence.
    + destruct (decide (nm = name)) as [->|Hne].
      * right. exists u, v, n. split; [by left|]. split; [done|].
        split; [done|]. split; [done|].
        by rewrite Hsame, lookup_insert_eq.
      * left. split; [by rewrite Hsame, lookup_insert_ne|].
        intros usage value Hin Hname.
        apply elem_of_cons in Hin as [->|Hin]; [|by apply Hnone].
        congruence.
Qed.

(** The same for a whole capability. *)
Lemma decode_value_cap_entry (cap : HIDP_VALUE_CAPS)
    (axes axes' : gmap string AxisReading) (name : string) :
  decode_value_cap P preparsed report axes cap = Ok axes' ->
  (axes' !! name = axes !! name /\
   forall usage value,
     AXIS_USAGE_NAMES !! usage = Some name ->
     ~ cap_reads P preparsed report cap usage value) \/
  exists usage value norm,
    AXIS_USAGE_NAMES !! usage = Some name /\
    cap_reads P preparsed report cap usage value /\
    normalize_value value (vc_LogicalMin cap) (vc_LogicalMax cap)
      = Ok norm /\
    axes' !! name = Some (reading_of cap value norm).
Proof.
  unfold decode_value_cap. case_decide as Hpage.
  - intros [= <-]. left. split; [done|].
    intros usage value _ (Hp & _). done.
  - intros Hrun.
    destruct (decode_usages_entry cap _ axes axes' name Hrun)
      as [[Hsame Hnone]|(u & v & n & Hin & Hnm & Hv & Hn & Hlk)].
    + left. split; [done|]. intros usage value Hname (_ & Hin & Hv).
      by apply (Hnone usage value).
    + right. by exists u, v, n.
Qed.

(** A capability that obtains no value for the usage of a name leaves the
    entry of that name as it is. *)
Lemma decode_value_cap_frame (cap : HIDP_VALUE_CAPS)
    (axes axes' : gmap string AxisReading) (usage : Z) (name : string) :
  AXIS_USAGE_NAMES !! usage = Some name ->
  (forall value, ~ cap_reads P preparsed report cap usage value) ->
  decode_value_cap P preparsed report axes cap = Ok axes' ->
  axes' !! name = axes !! name.
Proof.
  intros Hname Hnone Hrun.
  destruct (decode_value_cap_entry cap axes axes' name Hrun)
    as [[Hsame _]|(u & v & n & Hnm & Hreads & _)]; [done|].
  pose proof (AXIS_USAGE_NAMES_inj _ _ _ Hnm Hname) as ->.
  by destruct (Hnone v).
Qed.

(** A capability that obtains a value for the usage of a name writes its
    reading, whatever the entry was. *)
Lemma decode_value_cap_reads (cap : HIDP_VALUE_CAPS)
    (axes axes' : gmap string AxisReading) (usage value : Z)
    (name : string) :
  AXIS_USAGE_NAMES !! usage = Some name ->
  cap_reads P preparsed report cap usage value ->
  decode_value_cap P preparsed report axes cap = Ok axes' ->
  exists norm,
    normalize_value value (vc_LogicalMin cap) (vc_LogicalMax cap)
      = Ok norm /\
    axes' !! name = Some (reading_of cap value norm).
Proof.
  intros Hname Hreads Hrun.
  destruct (decode_value_cap_entry cap axes axes' name Hrun)
    as [[_ Hnone]|(u & v & n & Hnm & (_ & _ & Hv) & Hn & Hlk)].
  - by destruct (Hnone usage value Hname).
  - pose proof (AXIS_USAGE_NAMES_inj _ _ _ Hnm Hname) as ->.
    destruct Hreads as (_ & _ & Hv'). rewrite Hv in Hv'.
    injection Hv' as ->. by exists n.
Qed.

(** The entry of a name after the loop over the capabilities is the
    reading of the last capability that obtains a value for its usage. *)
Lemma decode_axes_last_reader (before after : list HIDP_VALUE_CAPS)
    (cap : HIDP_VALUE_CAPS) (axes0 axes : gmap string AxisReading)
    (usage value : Z) (name : string) :
  for_each (decode_value_cap P preparsed report)
    (before ++ cap :: after) axes0 = Ok axes ->
  AXIS_USAGE_NAMES !! usage = Some name ->
  cap_reads P preparsed report cap usage value ->
  (forall cap' value',
     cap' ∈ after -> ~ cap_reads P preparsed report cap' usage value') ->
  exists norm,
    normalize_value value (vc_LogicalMin cap) (vc_LogicalMax cap)
      = Ok norm /\
    axes !! name = Some (reading_of cap value norm).
Proof.
  intros Hrun Hname Hreads Hafter.
  rewrite for_each_app in Hrun.
  destruct (for_each (decode_value_cap P preparsed report) before axes0)
    as [axes1|e]; simpl in Hrun; [|done].
  destruct (decode_value_cap P preparsed report axes1 cap) as [axes2|e]
    eqn:Hcap; simpl in Hrun; [|done].
  destruct (decode_value_cap_reads cap axes1 axes2 usage value name
              Hname Hreads Hcap) as (norm & Hn & Hlk).
  exists norm. split; [done|].
  eapply (for_each_invariant _
            (fun a => a !! name = Some (reading_of cap value norm)));
    [|exact Hlk|exact Hrun].
  intros a cap' a' Hin Ha Hstep.
  rewrite (decode_value_cap_frame cap' a a' usage name Hname); [done| |done].
  intros value'. by apply Hafter.
Qed.

(** Every entry is the reading of a capability after which no capability
    obtains a value for the same usage. *)
Lemma decode_axes_entry_last (value_caps : list HIDP_VALUE_CAPS)
    (axes : gmap string AxisReading) (name : string) (r : AxisReading) :
  for_each (decode_value_cap P preparsed report) value_caps ∅ = Ok axes ->
  axes !! name = Some r ->
  exists before cap after usage value norm,
    value_caps = before ++ cap :: after /\
    AXIS_USAGE_NAMES !! usage = Some name /\
    cap_reads P preparsed report cap usage value /\
    normalize_value value (vc_LogicalMin cap) (vc_LogicalMax cap)
      = Ok norm /\
    r = reading_of cap value norm /\
    forall cap' value',
      cap' ∈ after -> ~ cap_reads P preparsed report cap' usage value'.
Proof.
  revert axes r.
  induction value_caps as [|c caps IH] using rev_ind; intros axes r Hrun Hr.
  - injection Hrun as <-. by rewrite lookup_empty in Hr.
  - rewrite for_each_app in Hrun.
    destruct (for_each (decode_value_cap P preparsed report) caps ∅)
      as [axes0|e]; simpl in Hrun; [|done].
    destruct (decode_value_cap P preparsed report axes0 c) as [axes1|e]
      eqn:Hc; simpl in Hrun; [|done].
    injection Hrun as <-.
    destruct (decode_value_cap_entry c axes0 axes1 name Hc)
      as [[Hsame Hnone]|(u & v & n & Hnm & Hreads & Hn & Hlk)].
    + rewrite Hsame in Hr.
      destruct (IH axes0 r eq_refl Hr)
        as (before & cap & after & u & v & n & -> & Hnm & Hreads & Hn & ->
            & Hafter).
      exists before, cap, (after ++ [c]), u, v, n.
      split; [by rewrite <- app_assoc|]. split_and!; try done.
      intros cap' value' Hin.
      apply elem_of_app in Hin as [Hin|Hin]; [by apply Hafter|].
      apply list_elem_of_singleton in Hin as ->. by apply Hnone.
    + rewrite Hlk in Hr. injection Hr as <-.
      exists caps, c, [], u, v, n. split_and!; try done.
      intros cap' value' Hin. by apply elem_of_nil in Hin.
Qed.

(** The capabilities of other usage pages can be left out. *)
Lemma for_each_value_caps_filter (value_caps : list HIDP_VALUE_CAPS)
    (axes : gmap string AxisReading) :
  for_each (decode_value_cap P preparsed report)
    (filter (fun cap => vc_UsagePage cap = USAGE_PAGE_GENERIC_DESKTOP)
            value_caps) axes
  = for_each (decode_value_cap P preparsed report) value_caps axes.
Proof.
  revert axes. induction value_caps as [|cap caps IH]; intros axes; [done|].
  rewrite filter_cons. case_decide as Hpage; simpl.
  - destruct (decode_value_cap P preparsed report axes cap); simpl; [|done].
    apply IH.
  - rewrite decode_value_cap_other_page by done. simpl. apply IH.
Qed.

End Axes.

Section DecodeReport.

Context (P : HidPlatform) (preparsed : Preparsed) (report : bytes).

(** The two components of the result are those of the two loops. *)
Lemma decode_hid_report_Ok (value_caps : list HIDP_VALUE_CAPS)
    (button_caps : list HIDP_BUTTON_CAPS)
    (axes : gmap string AxisReading) (buttons : list Z) :
  decode_hid_report P report preparsed value_caps button_caps
    = Ok (axes, buttons) <->
  exists pressed,
    for_each (decode_value_cap P preparsed report) value_caps ∅ = Ok axes /\
    for_each (decode_button_cap P preparsed report) button_caps []
      = Ok pressed /\
    buttons = sorted_set pressed.
Proof.
  unfold decode_hid_report.
  destruct (for_each (decode_value_cap P preparsed report) value_caps ∅)
    as [axes0|e]; simpl.
  - destruct (for_each (decode_button_cap P preparsed report)
                button_caps []) as [pressed|e]; simpl.
    + split; [intros [= <- <-]; by exists pressed|].
      by intros (pr & [= ->] & [= ->] & ->).
    + split; [done|]. by intros (pr & _ & ? & _).
  - split; [done|]. by intros (pr & ? & _).
Qed.

End DecodeReport.

(** C5. The [axes] of a decoded report only hold entries written for a
    usage of the axis table ([0x30 .. 0x39], named x, y, z, rx, ry, rz,
    slider, dial, wheel, hat) of a value capability of the generic-desktop
    page, under the name of that usage; a capability of another page and a
    usage outside the table leave the dictionary as it is, so that the
    capabilities of other pages can be removed from the table without any
    change of the result. Of the capabilities that obtain a value for the
    same usage the last one in the table wins, wherever it stands: its
    reading is the entry of the name when no capability after it obtains a
    value for that usage, whatever the capabilities before it wrote and
    whatever the capabilities after it wrote under other names; and every
    entry of the dictionary is such a reading. *)
Theorem decode_hid_report_axes (P : HidPlatform) (report : bytes)
    (preparsed : Preparsed) (value_caps : list HIDP_VALUE_CAPS)
    (button_caps : list HIDP_BUTTON_CAPS) :
  (forall axes buttons,
      decode_hid_report P report preparsed value_caps button_caps
        = Ok (axes, buttons) ->
      forall name r, axes !! name = Some r ->
        name ∈ axis_names /\
        axis_source P preparsed report value_caps name r) /\
  (forall usage : Z,
      AXIS_USAGE_NAMES !! usage =
      if decide (0x30 <= usage <= 0x39)
      then axis_names !! Z.to_nat (usage - 0x30) else None) /\
  (forall cap axes,
      vc_UsagePage cap <> USAGE_PAGE_GENERIC_DESKTOP ->
      decode_value_cap P preparsed report axes cap = Ok axes) /\
  (forall cap axes usage,
      ~ (0x30 <= usage <= 0x39) ->
      decode_usage P preparsed report cap axes usage = Ok axes) /\
  decode_hid_report P report preparsed
    (filter (fun cap => vc_UsagePage cap = USAGE_PAGE_GENERIC_DESKTOP)
            value_caps) button_caps
    = decode_hid_report P report preparsed value_caps button_caps /\
  (forall before cap after axes buttons usage name value,
      value_caps = before ++ cap :: after ->
      decode_hid_report P report preparsed value_caps button_caps
        = Ok (axes, buttons) ->
      AXIS_USAGE_NAMES !! usage = Some name ->
      cap_reads P preparsed report cap usage value ->
      (forall cap' value',
         cap' ∈ after -> ~ cap_reads P preparsed report cap' usage value') ->
      exists norm,
        normalize_value value (vc_LogicalMin cap) (vc_LogicalMax cap)
          = Ok norm /\
        axes !! name = Some (reading_of cap value norm)) /\
  (forall axes buttons name r,
      decode_hid_report P report preparsed value_caps button_caps
        = Ok (axes, buttons) ->
      axes !! name = Some r ->
      exists before cap after usage value norm,
        value_caps = before ++ cap :: after /\
        AXIS_USAGE_NAMES !! usage = Some name /\
        cap_reads P preparsed report cap usage value /\
        normalize_value value (vc_LogicalMin cap) (vc_LogicalMax cap)
          = Ok norm /\
        r = reading_of cap value norm /\
        forall cap' value',
          cap' ∈ after -> ~ cap_reads P preparsed report cap' usage value').
Proof.
  split_and!.
  - intros axes buttons Hdec name r Hr.
    apply decode_hid_report_Ok in Hdec as (pressed & Haxes & _ & _).
    pose proof (decode_axes_source P preparsed report value_caps axes
                  Haxes name r Hr) as Hsrc.
    split; [|done].
    destruct Hsrc as (cap & usage & value & norm & _ & _ & _ & Hname & _).
    by apply AXIS_USAGE_NAMES_name in Hname as [_ ?].
  - apply AXIS_USAGE_NAMES_lookup.
  - intros cap axes. apply decode_value_cap_other_page.
  - intros cap axes usage. apply decode_usage_ignored.
  - unfold decode_hid_report. by rewrite for_each_value_caps_filter.
  - intros before cap after axes buttons usage name value -> Hdec Hname
      Hreads Hafter.
    apply decode_hid_report_Ok in Hdec as (pressed & Haxes & _ & _).
    by eapply decode_axes_last_reader.
  - intros axes buttons name r Hdec Hr.
    apply decode_hid_report_Ok in Hdec as (pressed & Haxes & _ & _).
    by eapply decode_axes_entry_last.
Qed.

(** Three capabilities, two of them for the X axis: the entry of x is the
    reading of the second capability, which is the last one for X but not
    the last of the table, and the slider that follows keeps it. *)
Lemma decode_hid_report_axes_witness :
  decode_hid_report Samples.pad Samples.blob []
      [Samples.x_cap_8bit; Samples.x_cap; Samples.flat_cap] [] =
    Ok ({[ "x"%string := reading_of Samples.x_cap 0 (Some Samples.norm_x);
           "slider"%string := reading_of Samples.flat_cap 3 None ]}, []) /\
  decode_hid_report Samples.pad Samples.blob [] [Samples.x_cap_8bit] [] =
    Ok ({[ "x"%string :=
             reading_of Samples.x_cap_8bit 0 (Some PyFloat.zero) ]}, []) /\
  exists norm,
    normalize_value 0 (-32768) 32767 = Ok norm /\
    ({[ "x"%string := reading_of Samples.x_cap 0 (Some Samples.norm_x);
        "slider"%string := reading_of Samples.flat_cap 3 None ]}
       : gmap string AxisReading) !! "x"%string
      = Some (reading_of Samples.x_cap 0 norm).
Proof.
  assert (H3 : decode_hid_report Samples.pad Samples.blob []
                 [Samples.x_cap_8bit; Samples.x_cap; Samples.flat_cap] [] =
    Ok ({[ "x"%string := reading_of Samples.x_cap 0 (Some Samples.norm_x);
           "slider"%string := reading_of Samples.flat_cap 3 None ]}, []))
    by (vm_compute; reflexivity).
  split; [exact H3|]. split; [vm_compute; reflexivity|].
  destruct (decode_hid_report_axes Samples.pad Samples.blob []
              [Samples.x_cap_8bit; Samples.x_cap; Samples.flat_cap] [])
    as (_ & _ & _ & _ & _ & Hlast & _).
  apply (Hlast [Samples.x_cap_8bit] Samples.x_cap [Samples.flat_cap] _ []
           USAGE_X "x"%string 0 eq_refl H3 eq_refl).
  - split; [reflexivity|]. split; [|reflexivity].
    apply list_elem_of_singleton. reflexivity.
  - intros cap' value' Hin (_ & Husage & _).
    apply list_elem_of_singleton in Hin as ->.
    apply list_elem_of_singleton in Husage. done.
Defined.

(** C8. When [logical_max == logical_min], [normalize_value] returns
    [None] for every value, and the entry of the axis is still written,
    with the raw value and [norm] absent. *)
Theorem degenerate_range_reading (P : HidPlatform) (preparsed : Preparsed)
    (report : bytes) (cap : HIDP_VALUE_CAPS)
    (axes : gmap string AxisReading) (usage value : Z) (name : string) :
  vc_LogicalMax cap = vc_LogicalMin cap ->
  (forall v : Z,
      normalize_value v (vc_LogicalMin cap) (vc_LogicalMax cap) = Ok None) /\
  (AXIS_USAGE_NAMES !! usage = Some name ->
   hid_get_usage_value P preparsed report (Z.of_nat (length report))
     (vc_UsagePage cap) usage = Ok (Some value) ->
   decode_usage P preparsed report cap axes usage =
     Ok (<[name := {| ar_raw := value; ar_norm := None;
                      ar_min := vc_LogicalMin cap;
                      ar_max := vc_LogicalMax cap |}]> axes)).
Proof.
  intros Heq.
  assert (Hnone : forall v : Z,
    normalize_value v (vc_LogicalMin cap) (vc_LogicalMax cap) = Ok None).
  { intros v. unfold normalize_value. by case_decide. }
  split; [done|]. intros Hname Hval.
  by apply (decode_usage_hit P preparsed report cap axes usage value name None).
Qed.

Lemma degenerate_range_reading_witness :
  normalize_value 3 7 7 = Ok None /\
  decode_usage Samples.pad [] Samples.blob Samples.flat_cap ∅ USAGE_SLIDER =
    Ok {[ "slider"%string :=
            {| ar_raw := 3; ar_norm := None; ar_min := 7; ar_max := 7 |} ]} /\
  decode_hid_report Samples.pad Samples.blob [] [Samples.flat_cap] [] =
    Ok ({[ "slider"%string :=
             {| ar_raw := 3; ar_norm := None; ar_min := 7; ar_max := 7 |} ]},
        []).
Proof.
  destruct (degenerate_range_reading Samples.pad [] Samples.blob
              Samples.flat_cap ∅ USAGE_SLIDER 3 "slider"%string eq_refl)
    as [Hn Hd].
  split; [exact (Hn 3)|]. split; [|vm_compute; reflexivity].
  rewrite Hd; reflexivity.
Defined.

(** C9 (as amended). A single-usage value capability for usage [0x30] with
    the range [-32768 .. 32767], read as raw value 0, gives
    [axes["x"] = {raw: 0, norm: 0x1.00010001p-16, min: -32768, max: 32767}];
    the norm is positive and lies within [1e-15] of [1/65535], about
    [+0.0000152590]. *)
Theorem decode_x_axis_scenario (P : HidPlatform) (preparsed : Preparsed)
    (report : bytes) (cap : HIDP_VALUE_CAPS) :
  vc_UsagePage cap = USAGE_PAGE_GENERIC_DESKTOP ->
  vc_IsRange cap = 0 ->
  NotRange_Usage (vc_u cap) = 0x30 ->
  vc_LogicalMin cap = -32768 ->
  vc_LogicalMax cap = 32767 ->
  HidP_GetUsageValue P preparsed report (Z.of_nat (length report)) 0x01 0x30
    = Ok (HIDP_STATUS_SUCCESS, 0) ->
  decode_hid_report P report preparsed [cap] [] =
    Ok ({[ "x"%string :=
             {| ar_raw := 0; ar_norm := Some Samples.norm_x;
                ar_min := -32768; ar_max := 32767 |} ]}, []) /\
  (0 < PyFloat.to_Q Samples.norm_x)%Q /\
  (Qabs (PyFloat.to_Q Samples.norm_x - (1 # 65535))
     < 1 # 1000000000000000)%Q.
Proof.
  intros Hpage Hrange Husage Hmin Hmax Hos. split; [|split].
  - apply decode_hid_report_Ok. exists []. split; [|done].
    simpl. rewrite decode_value_cap_single by done.
    rewrite (decode_usage_hit P preparsed report cap ∅ _ 0 "x"%string
               (Some Samples.norm_x)).
    + simpl. unfold reading_of. by rewrite Hmin, Hmax.
    + by rewrite Husage.
    + unfold hid_get_usage_value. rewrite Hpage, Husage.
      change (USHORT USAGE_PAGE_GENERIC_DESKTOP) with 1.
      change (USHORT 48) with 48. by rewrite Hos.
    + rewrite Hmin, Hmax. reflexivity.
  - reflexivity.
  - reflexivity.
Qed.

Lemma decode_x_axis_scenario_witness :
  decode_hid_report Samples.pad Samples.blob [] [Samples.x_cap] [] =
    Ok ({[ "x"%string :=
             {| ar_raw := 0; ar_norm := Some Samples.norm_x;
                ar_min := -32768; ar_max := 32767 |} ]}, []).
Proof.
  exact (proj1 (decode_x_axis_scenario Samples.pad [] Samples.blob
                  Samples.x_cap eq_refl eq_refl eq_refl eq_refl eq_refl
                  eq_refl)).
Defined.

(** C9, counterexample: the decoded norm is not near [-0.0000152]; it is
    further than [0.00001] away from it. *)
Lemma decode_x_axis_norm_counterexample :
  ~ (exists axes buttons f,
       decode_hid_report Samples.pad Samples.blob [] [Samples.x_cap] []
         = Ok (axes, buttons) /\
       axes !! "x"%string =
         Some {| ar_raw := 0; ar_norm := Some f;
                 ar_min := -32768; ar_max := 32767 |} /\
       (Qabs (PyFloat.to_Q f - (-152 # 10000000)) <= 1 # 100000)%Q).
Proof.
  intros (axes & buttons & f & Hdec & Hx & Hnear).
  assert (Hrun : decode_hid_report Samples.pad Samples.blob []
                   [Samples.x_cap] [] =
    Ok ({[ "x"%string :=
             {| ar_raw := 0; ar_norm := Some Samples.norm_x;
                ar_min := -32768; ar_max := 32767 |} ]}, []))
    by (vm_compute; reflexivity).
  rewrite Hrun in Hdec. injection Hdec as <- <-.
  rewrite lookup_singleton_eq in Hx. injection Hx as <-.
  revert Hnear. by vm_compute.
Qed.

(** ** The report loop of [handle_wm_input] *)

Section ReportLoop.

Context (P : HidPlatform).

Lemma emit_reports (ts_ms : Z) (hDevice : HANDLE)
    (device_state : DeviceState) (reports : list bytes)
    (self : RawInputLogger) :
  foldl (emit_report P ts_ms hDevice device_state) self reports =
  {| writer := writer self ++
               (make_row P ts_ms hDevice device_state <$> reports);
     device_filter := device_filter self;
     device_cache := device_cache self;
     echo := echo self;
     filter_checks := filter_checks self |}.
Proof.
  revert self. induction reports as [|r reports IH]; intros self; simpl.
  - rewrite app_nil_r. by destruct self.
  - rewrite IH. unfold emit_report, write_event. simpl.
    by rewrite <- app_assoc.
Qed.

Lemma get_device_state_writer (handle : HANDLE)
    (self self1 : RawInputLogger) (r : option DeviceState) :
  get_device_state P handle self = (r, self1) -> writer self1 = writer self.
Proof.
  unfold get_device_state. destruct (device_cache self !! handle).
  - by intros [= _ <-].
  - destruct (negb _); by intros [= _ <-].
Qed.

Lemma make_row_decoded (ts_ms : Z) (hDevice : HANDLE)
    (device_state : DeviceState) (report : bytes) :
  (row_axes (make_row P ts_ms hDevice device_state report),
   row_buttons (make_row P ts_ms hDevice device_state report))
  = decode_or_empty P device_state report.
Proof.
  unfold make_row. by destruct (decode_or_empty P device_state report).
Qed.

(** A structure is copied from the buffer exactly when the buffer is long
    enough for it. *)
Lemma from_buffer_copy_cases (size : Z) (source : bytes) (offset : Z) :
  0 <= offset ->
  (offset + size <= Z.of_nat (length source) /\
   from_buffer_copy size source offset
     = Ok (py_slice source offset (offset + size))) \/
  (Z.of_nat (length source) < offset + size /\
   from_buffer_copy size source offset = Raise ValueError).
Proof.
  intros Hoff. unfold from_buffer_copy.
  rewrite decide_False by lia. case_decide; [right|left]; split; (lia || done).
Qed.

Lemma RAWINPUTHEADER_from_buffer_copy_cases (buffer : bytes) :
  (sizeof_RAWINPUTHEADER <= Z.of_nat (length buffer) /\
   exists header, RAWINPUTHEADER_from_buffer_copy buffer 0 = Ok header) \/
  (Z.of_nat (length buffer) < sizeof_RAWINPUTHEADER /\
   RAWINPUTHEADER_from_buffer_copy buffer 0 = Raise ValueError).
Proof.
  unfold RAWINPUTHEADER_from_buffer_copy.
  destruct (from_buffer_copy_cases sizeof_RAWINPUTHEADER buffer 0)
    as [[Hlen ->]|[Hlen ->]]; [done|left|right]; (split; [lia|]); [|done].
  by eexists.
Qed.

Lemma RAWHID_from_buffer_copy_cases (buffer : bytes) :
  (sizeof_RAWINPUTHEADER + sizeof_RAWHID <= Z.of_nat (length buffer) /\
   exists rahid,
     RAWHID_from_buffer_copy buffer sizeof_RAWINPUTHEADER = Ok rahid) \/
  (Z.of_nat (length buffer) < sizeof_RAWINPUTHEADER + sizeof_RAWHID /\
   RAWHID_from_buffer_copy buffer sizeof_RAWINPUTHEADER = Raise ValueError).
Proof.
  unfold RAWHID_from_buffer_copy.
  destruct (from_buffer_copy_cases sizeof_RAWHID buffer
              sizeof_RAWINPUTHEADER)
    as [[Hlen ->]|[Hlen ->]]; [done|left|right]; (split; [lia|]); [|done].
  by eexists.
Qed.

(** What a message does to the logger, in terms of the outcome of
    [get_device_state]. *)
Lemma handle_wm_input_unfold (ev : option bytes * Z)
    (self : RawInputLogger) :
  handle_wm_input P ev.1 ev.2 self =
  match ev.1 with
  | Some buffer =>
      match RAWINPUTHEADER_from_buffer_copy buffer 0 with
      | Ok header =>
          if decide (hdr_dwType header = RIM_TYPEHID) then
            match RAWHID_from_buffer_copy buffer sizeof_RAWINPUTHEADER with
            | Ok rahid =>
                let r := get_device_state P (hdr_hDevice header) self in
                match r.1 with
                | Some st =>
                    (Ok tt,
                     {| writer := writer r.2 ++
                          (make_row P ev.2 (hdr_hDevice header) st <$>
                           parse_report_bytes
                             (py_slice buffer (sizeof_RAWINPUTHEADER + 8)
                                (sizeof_RAWINPUTHEADER + 8 +
                                 hid_dwSizeHid rahid * hid_dwCount rahid))
                             (hid_dwSizeHid rahid) (hid_dwCount rahid));
                        device_filter := device_filter r.2;
                        device_cache := device_cache r.2;
                        echo := echo r.2;
                        filter_checks := filter_checks r.2 |})
                | None => (Ok tt, r.2)
                end
            | Raise e => (Raise e, self)
            end
          else (Ok tt, self)
      | Raise e => (Raise e, self)
      end
  | None => (Ok tt, self)
  end.
Proof.
  destruct ev as [[buffer|] ts]; [|done]. unfold handle_wm_input.
  cbn [fst snd].
  destruct (RAWINPUTHEADER_from_buffer_copy buffer 0) as [header|e]; [|done].
  do 2 case_decide; try done.
  destruct (RAWHID_from_buffer_copy buffer sizeof_RAWINPUTHEADER)
    as [rahid|e]; [|done]. cbv zeta.
  destruct (get_device_state P (hdr_hDevice header) self) as [[st|] self1];
    [|done].
  cbn [fst snd]. by rewrite emit_reports.
Qed.

(** A HID message whose buffer is too short for [RAWHID] raises before the
    logger is touched. *)
Lemma handle_wm_input_short (buffer : bytes) (header : RAWINPUTHEADER)
    (ts_ms : Z) (self : RawInputLogger) :
  RAWINPUTHEADER_from_buffer_copy buffer 0 = Ok header ->
  hdr_dwType header = RIM_TYPEHID ->
  Z.of_nat (length buffer) < sizeof_RAWINPUTHEADER + sizeof_RAWHID ->
  handle_wm_input P (Some buffer) ts_ms self = (Raise ValueError, self).
Proof.
  intros Hh Htype Hlen.
  pose proof (handle_wm_input_unfold (Some buffer, ts_ms) self) as Hu.
  cbn [fst snd] in Hu. rewrite Hu, Hh, decide_True by done.
  destruct (RAWHID_from_buffer_copy_cases buffer) as [[? _]|[_ ->]];
    [lia|done].
Qed.

End ReportLoop.

(** A message is a HID message of [h] when both structures can be copied
    from its buffer and the header names the type and the handle. *)
Lemma hid_input_from_iff (h : HANDLE) (buffer : bytes) (ts : Z) :
  hid_input_from h (Some buffer, ts) <->
  exists header rahid,
    RAWINPUTHEADER_from_buffer_copy buffer 0 = Ok header /\
    RAWHID_from_buffer_copy buffer sizeof_RAWINPUTHEADER = Ok rahid /\
    hdr_dwType header = RIM_TYPEHID /\ hdr_hDevice header = h.
Proof.
  unfold hid_input_from. cbn [fst].
  destruct (RAWINPUTHEADER_from_buffer_copy buffer 0) as [header|e].
  - destruct (RAWHID_from_buffer_copy buffer sizeof_RAWINPUTHEADER)
      as [rahid|e].
    + split; [intros [? ?]; by exists header, rahid|].
      by intros (hd & rh & [= <-] & _ & ? & ?).
    + split; [done|]. by intros (hd & rh & _ & ? & _).
  - split; [done|]. by intros (hd & rh & ? & _).
Qed.

(** C4. The loop over the reports of a batch writes one row per report, in
    order. A report whose decoding raises gets a row with empty axes and
    empty buttons; the row of every report is that of the report decoded on
    its own, whatever happened to the reports before it. A HID message
    whose buffer holds the header and a whole [RAWHID] structure, from a
    device that [get_device_state] returns, makes [handle_wm_input] return
    after this loop ran over the reports of the message. *)
Theorem report_loop_survives_decode_fault (P : HidPlatform) (ts_ms : Z)
    (hDevice : HANDLE) (device_state : DeviceState) (reports : list bytes)
    (self : RawInputLogger) :
  writer (foldl (emit_report P ts_ms hDevice device_state) self reports) =
    writer self ++ (make_row P ts_ms hDevice device_state <$> reports) /\
  (forall buffer header rahid self1,
      RAWINPUTHEADER_from_buffer_copy buffer 0 = Ok header ->
      hdr_dwType header = RIM_TYPEHID ->
      RAWHID_from_buffer_copy buffer sizeof_RAWINPUTHEADER = Ok rahid ->
      get_device_state P (hdr_hDevice header) self
        = (Some device_state, self1) ->
      (handle_wm_input P (Some buffer) ts_ms self).1 = Ok tt /\
      writer (handle_wm_input P (Some buffer) ts_ms self).2 =
        writer self ++
        (make_row P ts_ms (hdr_hDevice header) device_state <$>
         parse_report_bytes
           (py_slice buffer (sizeof_RAWINPUTHEADER + 8)
              (sizeof_RAWINPUTHEADER + 8 +
               hid_dwSizeHid rahid * hid_dwCount rahid))
           (hid_dwSizeHid rahid) (hid_dwCount rahid))) /\
  (forall report preparsed e,
      ds_preparsed device_state = Some preparsed ->
      decode_hid_report P report preparsed (ds_value_caps device_state)
        (ds_button_caps device_state) = Raise e ->
      row_axes (make_row P ts_ms hDevice device_state report) = ∅ /\
      row_buttons (make_row P ts_ms hDevice device_state report) = [] /\
      row_report (make_row P ts_ms hDevice device_state report) = report) /\
  (forall report preparsed axes buttons,
      ds_preparsed device_state = Some preparsed ->
      ds_value_caps device_state <> [] ->
      decode_hid_report P report preparsed (ds_value_caps device_state)
        (ds_button_caps device_state) = Ok (axes, buttons) ->
      row_axes (make_row P ts_ms hDevice device_state report) = axes /\
      row_buttons (make_row P ts_ms hDevice device_state report) = buttons).
Proof.
  split; [by rewrite emit_reports|]. split; [|split].
  - intros buffer header rahid self1 Hh Htype Hr Hstate.
    pose proof (handle_wm_input_unfold P (Some buffer, ts_ms) self) as Hu.
    cbn [fst snd] in Hu. rewrite Hu, Hh, decide_True, Hr by done. cbv zeta.
    rewrite Hstate. cbn [fst snd]. split; [done|]. simpl.
    by rewrite (get_device_state_writer P _ _ _ _ Hstate).
  - intros report preparsed e Hpp Hraise.
    pose proof (make_row_decoded P ts_ms hDevice device_state report) as Hrow.
    assert (Hempty : decode_or_empty P device_state report = (∅, [])).
    { unfold decode_or_empty. rewrite Hpp.
      destruct (ds_value_caps device_state); [done|]. by rewrite Hraise. }
    rewrite Hempty in Hrow. injection Hrow as -> ->.
    split; [done|]. split; [done|].
    unfold make_row. by destruct (decode_or_empty P device_state report).
  - intros report preparsed axes buttons Hpp Hvc Hok.
    pose proof (make_row_decoded P ts_ms hDevice device_state report) as Hrow.
    assert (Hdec : decode_or_empty P device_state report = (axes, buttons)).
    { unfold decode_or_empty. rewrite Hpp.
      destruct (ds_value_caps device_state); [done|]. by rewrite Hok. }
    rewrite Hdec in Hrow. by injection Hrow as -> ->.
Qed.

Lemma report_loop_survives_decode_fault_witness :
  row_axes <$> writer (handle_wm_input Samples.pad (Some Samples.input3) 0
                         (RawInputLogger_init None false)).2 =
    [ {[ "x"%string := reading_of Samples.x_cap 0 (Some Samples.norm_x) ]};
      ∅;
      {[ "x"%string := reading_of Samples.x_cap 0 (Some Samples.norm_x) ]} ] /\
  row_buttons <$> writer (handle_wm_input Samples.pad (Some Samples.input3) 0
                            (RawInputLogger_init None false)).2 =
    [[5]; []; [5]] /\
  row_report <$> writer (foldl (emit_report Samples.pad 0 1
                                   (DeviceState_init Samples.pad 1))
                           (RawInputLogger_init None false)
                           [[Byte.x01; Byte.x02]; [Byte.xff; Byte.x04];
                            [Byte.x05; Byte.x06]]) =
    [[Byte.x01; Byte.x02]; [Byte.xff; Byte.x04]; [Byte.x05; Byte.x06]] /\
  row_buttons (make_row Samples.pad 0 1 (DeviceState_init Samples.pad 1)
                 [Byte.xff; Byte.x04]) = [].
Proof.
  split; [vm_compute; reflexivity|]. split; [vm_compute; reflexivity|].
  destruct (report_loop_survives_decode_fault Samples.pad 0 1
              (DeviceState_init Samples.pad 1)
              [[Byte.x01; Byte.x02]; [Byte.xff; Byte.x04];
               [Byte.x05; Byte.x06]]
              (RawInputLogger_init None false)) as (Hw & _ & Hfault & _).
  split; [rewrite Hw; reflexivity|].
  exact (proj1 (proj2 (Hfault [Byte.xff; Byte.x04] []
                         (OSError (-1073741819)) eq_refl eq_refl))).
Defined.

(** C10. When the cached device state has no value capability, decoding is
    skipped: the row of every report has empty axes and empty buttons,
    whatever the button capabilities, the preparsed data and the platform
    are. *)
Theorem no_value_caps_no_decoding (P : HidPlatform) (ts_ms : Z)
    (hDevice : HANDLE) (device_state : DeviceState) (reports : list bytes)
    (self : RawInputLogger) :
  ds_value_caps device_state = [] ->
  (forall report, decode_or_empty P device_state report = (∅, [])) /\
  exists rows : list EventRow,
    writer (foldl (emit_report P ts_ms hDevice device_state) self reports)
      = writer self ++ rows /\
    row_report <$> rows = reports /\
    Forall (fun row => row_axes row = ∅ /\ row_buttons row = []) rows.
Proof.
  intros Hvc.
  assert (Hempty : forall report,
            decode_or_empty P device_state report = (∅, [])).
  { intros report. unfold decode_or_empty. rewrite Hvc.
    by destruct (ds_preparsed device_state). }
  split; [done|].
  exists (make_row P ts_ms hDevice device_state <$> reports).
  split; [by rewrite emit_reports|]. split.
  - rewrite <- list_fmap_compose. rewrite <- (list_fmap_id reports) at 2.
    apply list_fmap_ext. intros _ report _. simpl.
    unfold make_row. by destruct (decode_or_empty P device_state report).
  - apply Forall_fmap, Forall_forall. intros report _. simpl.
    pose proof (make_row_decoded P ts_ms hDevice device_state report) as Hrow.
    rewrite Hempty in Hrow. by injection Hrow as -> ->.
Qed.

(** A device whose value-capability query failed while its button query
    succeeded: no row carries a button, although the button capabilities
    alone decode to button 5. *)
Lemma no_value_caps_no_decoding_witness :
  ds_button_caps (DeviceState_init Samples.no_values 1) =
    [Samples.buttons_1_8; Samples.buttons_5_12] /\
  decode_hid_report Samples.no_values Samples.blob [] []
    (ds_button_caps (DeviceState_init Samples.no_values 1)) = Ok (∅, [5]) /\
  decode_or_empty Samples.no_values (DeviceState_init Samples.no_values 1)
    Samples.blob = (∅, []) /\
  row_buttons <$> writer (handle_wm_input Samples.no_values
                            (Some Samples.input3) 0
                            (RawInputLogger_init None false)).2
    = [[]; []; []].
Proof.
  split; [reflexivity|]. split; [vm_compute; reflexivity|].
  split; [|vm_compute; reflexivity].
  exact (proj1 (no_value_caps_no_decoding Samples.no_values 0 1
                  (DeviceState_init Samples.no_values 1) []
                  (RawInputLogger_init None false) eq_refl) Samples.blob).
Defined.

(** ** The capability tables *)

(** C6 (as amended). [parse_hid_caps] returns nothing only when
    [HidP_GetCaps] fails. When it succeeds the result is always a triple:
    a failed value-capability query leaves the value table empty, a failed
    button-capability query leaves the button table empty, and each table
    is otherwise the first [count] elements of what its own query stored,
    whatever the status of the other query. *)
Theorem parse_hid_caps_tables (P : HidPlatform) (preparsed : Preparsed) :
  ((HidP_GetCaps P preparsed).1 <> HIDP_STATUS_SUCCESS ->
   parse_hid_caps P preparsed = None) /\
  ((HidP_GetCaps P preparsed).1 = HIDP_STATUS_SUCCESS ->
   let caps := (HidP_GetCaps P preparsed).2 in
   let nv := USHORT (NumberInputValueCaps caps) in
   let nb := USHORT (NumberInputButtonCaps caps) in
   let '(vstatus, vwritten, vcount) := HidP_GetValueCaps P preparsed nv in
   let '(bstatus, bwritten, bcount) := HidP_GetButtonCaps P preparsed nb in
   exists value_caps button_caps,
     parse_hid_caps P preparsed = Some (caps, value_caps, button_caps) /\
     (vstatus <> HIDP_STATUS_SUCCESS -> value_caps = []) /\
     (bstatus <> HIDP_STATUS_SUCCESS -> button_caps = []) /\
     (vstatus = HIDP_STATUS_SUCCESS ->
      value_caps = take (Z.to_nat (USHORT vcount))
                     (c_array (Z.to_nat nv) zero_value_caps vwritten)) /\
     (bstatus = HIDP_STATUS_SUCCESS ->
      button_caps = take (Z.to_nat (USHORT bcount))
                      (c_array (Z.to_nat nb) zero_button_caps bwritten))).
Proof.
  unfold parse_hid_caps, _check_hidp.
  destruct (HidP_GetCaps P preparsed) as [status caps]. simpl. split.
  - intros Hs. by case_decide.
  - intros ->. case_decide; [done|]. simpl.
    destruct (HidP_GetValueCaps P preparsed _) as [[vstatus vwritten] vcount].
    destruct (HidP_GetButtonCaps P preparsed _) as [[bstatus bwritten] bcount].
    eexists _, _. split; [reflexivity|].
    repeat split; intros Hst; repeat case_decide; done.
Qed.

Lemma parse_hid_caps_tables_witness :
  parse_hid_caps Samples.no_values [] =
    Some (Samples.caps_1_2, [], [Samples.buttons_1_8; Samples.buttons_5_12]) /\
  parse_hid_caps Samples.pad [] =
    Some (Samples.caps_1_2, [Samples.x_cap],
          [Samples.buttons_1_8; Samples.buttons_5_12]).
Proof.
  destruct (parse_hid_caps_tables Samples.no_values []) as [_ Hn].
  specialize (Hn eq_refl).
  destruct Hn as (vc & bc & -> & Hv & _ & _ & Hb).
  rewrite Hv by done. rewrite Hb by done.
  split; reflexivity.
Defined.

(** C6, counterexample: with a failed value-capability query the button
    table is returned all the same, and with a failed button-capability
    query the value table is returned and the axes of the device are
    decoded. *)
Lemma parse_hid_caps_partial_failure_counterexample :
  (HidP_GetValueCaps Samples.no_values [] 1).1.1 <> HIDP_STATUS_SUCCESS /\
  parse_hid_caps Samples.no_values [] =
    Some (Samples.caps_1_2, [], [Samples.buttons_1_8; Samples.buttons_5_12]) /\
  (HidP_GetButtonCaps Samples.no_buttons [] 2).1.1 <> HIDP_STATUS_SUCCESS /\
  parse_hid_caps Samples.no_buttons [] =
    Some (Samples.caps_1_2, [Samples.x_cap], []) /\
  decode_or_empty Samples.no_buttons
      (DeviceState_init Samples.no_buttons 1) Samples.blob =
    ({[ "x"%string := reading_of Samples.x_cap 0 (Some Samples.norm_x) ]}, []).
Proof.
  split; [by vm_compute|]. split; [reflexivity|].
  split; [by vm_compute|]. split; [reflexivity|].
  vm_compute; reflexivity.
Qed.

(** ** The device cache and the name filter *)

Section DeviceCache.

Context (P : HidPlatform).

Lemma ds_name_init (h : HANDLE) :
  ds_name (DeviceState_init P h) = get_device_name P h.
Proof.
  unfold DeviceState_init.
  destruct (get_preparsed_data P h) as [pp|]; [|done].
  by destruct (parse_hid_caps P pp) as [[[caps vcs] bcs]|].
Qed.

Lemma _match_filter_ext (self self' : RawInputLogger) (name : string) :
  device_filter self' = device_filter self ->
  _match_filter self' name = _match_filter self name.
Proof. unfold _match_filter. by intros ->. Qed.

Lemma cache_ok_ext (self self' : RawInputLogger) :
  device_filter self' = device_filter self ->
  device_cache self' = device_cache self ->
  cache_ok P self -> cache_ok P self'.
Proof.
  intros Hf Hc Hok k st. rewrite Hc. intros Hk.
  destruct (Hok k st Hk) as [-> Hm]. split; [done|].
  by rewrite (_match_filter_ext self).
Qed.

(** A rejected name is the name of no cached handle. *)
Lemma rejected_not_cached (self : RawInputLogger) (h : HANDLE) :
  cache_ok P self ->
  _match_filter self (get_device_name P h) = false ->
  device_cache self !! h = None.
Proof.
  intros Hok Hrej.
  destruct (device_cache self !! h) as [st|] eqn:Hc; [|done].
  destruct (Hok h st Hc) as [-> Hm].
  rewrite ds_name_init in Hm. congruence.
Qed.

(** [get_device_state] on a handle that is not cached and whose name is
    rejected: nothing is returned, nothing is cached, and the filter has
    been evaluated once more. *)
Lemma get_device_state_rejected (self : RawInputLogger) (h : HANDLE) :
  device_cache self !! h = None ->
  _match_filter self (get_device_name P h) = false ->
  get_device_state P h self =
    (None,
     {| writer := writer self; device_filter := device_filter self;
        device_cache := device_cache self; echo := echo self;
        filter_checks := filter_checks self ++ [h] |}).
Proof.
  intros Hc Hrej. unfold get_device_state. rewrite Hc.
  rewrite ds_name_init.
  by rewrite (_match_filter_ext self), Hrej.
Qed.

(** What a call of [get_device_state] keeps and changes. *)
Lemma get_device_state_facts (self : RawInputLogger) (k h : HANDLE) :
  cache_ok P self ->
  _match_filter self (get_device_name P h) = false ->
  let r := get_device_state P k self in
  device_filter r.2 = device_filter self /\
  writer r.2 = writer self /\
  cache_ok P r.2 /\
  (k = h -> r.1 = None /\ checks_of h r.2 = S (checks_of h self)) /\
  (k <> h -> checks_of h r.2 = checks_of h self).
Proof.
  intros Hok Hrej. simpl.
  assert (Hck : forall (c : list HANDLE) (j : HANDLE),
    length (filter (fun k0 => k0 = h) (c ++ [j]))
    = (length (filter (fun k0 => k0 = h) c)
       + if decide (j = h) then 1 else 0)%nat).
  { intros c j. rewrite filter_app, length_app, filter_cons, filter_nil.
    by case_decide. }
  destruct (decide (k = h)) as [->|Hne].
  - rewrite get_device_state_rejected
      by (try done; by apply rejected_not_cached).
    simpl. split; [done|]. split; [done|]. split; [|split].
    + by apply (cache_ok_ext self).
    + intros _. split; [done|]. unfold checks_of. simpl.
      rewrite Hck, decide_True by done. lia.
    + done.
  - unfold get_device_state.
    destruct (device_cache self !! k) as [st|] eqn:Hc; simpl.
    { split; [done|]. split; [done|]. split; [done|]. by split. }
    destruct (_match_filter _ (ds_name (DeviceState_init P k))) eqn:Hm;
      simpl; (split; [done|]); (split; [done|]); (split; [|split]);
      try done.
    + intros j st. simpl. destruct (decide (k = j)) as [<-|Hj].
      * rewrite lookup_insert_eq. intros [= <-]. split; [done|].
        by rewrite <- Hm.
      * rewrite lookup_insert_ne by done. intros Hj'.
        destruct (Hok j st Hj') as [-> Hmj]. split; [done|].
        by rewrite <- Hmj.
    + intros _. unfold checks_of. simpl.
      rewrite Hck, decide_False by done. lia.
    + intros _. unfold checks_of. simpl.
      rewrite Hck, decide_False by done. lia.
Qed.

(** The invariant of the message loop for a handle [h] whose name the
    filter rejects. *)
Lemma handle_wm_input_rejected (self : RawInputLogger) (h : HANDLE)
    (ev : option bytes * Z) :
  cache_ok P self ->
  _match_filter self (get_device_name P h) = false ->
  Forall (fun row => row_device_handle row <> h) (writer self) ->
  let self' := (handle_wm_input P ev.1 ev.2 self).2 in
  device_filter self' = device_filter self /\
  cache_ok P self' /\
  Forall (fun row => row_device_handle row <> h) (writer self') /\
  checks_of h self' =
    (checks_of h self + if decide (hid_input_from h ev) then 1 else 0)%nat.
Proof.
  intros Hok Hrej Hrows. cbv zeta. rewrite handle_wm_input_unfold.
  destruct ev as [[buffer|] ts]; cbn [fst snd].
  2:{ rewrite decide_False by (unfold hid_input_from; simpl; tauto).
      split_and!; (done || lia). }
  assert (Hmiss : ~ hid_input_from h (Some buffer, ts) ->
    device_filter self = device_filter self /\
    cache_ok P self /\
    Forall (fun row => row_device_handle row <> h) (writer self) /\
    checks_of h self =
      (checks_of h self +
       if decide (hid_input_from h (Some buffer, ts)) then 1 else 0)%nat).
  { intros Hno. rewrite decide_False by done. split_and!; (done || lia). }
  destruct (RAWINPUTHEADER_from_buffer_copy buffer 0) as [header|e] eqn:Hh.
  2:{ apply Hmiss. rewrite hid_input_from_iff.
      intros (hd & rh & ? & _). congruence. }
  destruct (decide (hdr_dwType header = RIM_TYPEHID)) as [Htype|Htype].
  2:{ apply Hmiss. rewrite hid_input_from_iff.
      intros (hd & rh & ? & _ & ? & _). congruence. }
  destruct (RAWHID_from_buffer_copy buffer sizeof_RAWINPUTHEADER)
    as [rahid|e] eqn:Hr.
  2:{ apply Hmiss. rewrite hid_input_from_iff.
      intros (hd & rh & _ & ? & _). congruence. }
  clear Hmiss. cbv zeta.
  pose proof (get_device_state_facts self (hdr_hDevice header) h Hok Hrej)
    as (Hf & Hw & Hok' & Hsame & Hother). cbn [fst snd] in *.
  destruct (get_device_state P (hdr_hDevice header) self) as [r self1].
  cbn [fst snd] in *.
  destruct (decide (hdr_hDevice header = h)) as [Heq|Hne].
  - destruct (Hsame Heq) as [-> Hcount].
    rewrite decide_True by (apply hid_input_from_iff; by exists header, rahid).
    cbn [snd]. split; [done|]. split; [done|]. split; [by rewrite Hw|lia].
  - rewrite decide_False
      by (rewrite hid_input_from_iff; intros (hd & rh & ? & _ & _ & ?);
          congruence).
    destruct r as [st|]; cbn [snd].
    + split; [done|]. split; [by apply (cache_ok_ext self1)|]. split.
      * simpl. rewrite Hw. apply Forall_app. split; [done|].
        apply Forall_fmap, Forall_forall. intros report _. simpl.
        unfold make_row. by destruct (decode_or_empty P st report).
      * unfold checks_of in *. simpl. rewrite Hother by done. lia.
    + split; [done|]. split; [done|]. split; [by rewrite Hw|].
      rewrite Hother by done. lia.
Qed.

End DeviceCache.

Section Run.

Context (P : HidPlatform).

Lemma run_snoc (events : list (option bytes * Z))
    (ev : option bytes * Z) (self : RawInputLogger) :
  run P (events ++ [ev]) self =
  (handle_wm_input P ev.1 ev.2 (run P events self)).2.
Proof. unfold run. by rewrite foldl_app. Qed.

Lemma run_rejected (self0 : RawInputLogger)
    (events : list (option bytes * Z)) (h : HANDLE) :
  cache_ok P self0 ->
  _match_filter self0 (get_device_name P h) = false ->
  Forall (fun row => row_device_handle row <> h) (writer self0) ->
  device_filter (run P events self0) = device_filter self0 /\
  cache_ok P (run P events self0) /\
  Forall (fun row => row_device_handle row <> h)
         (writer (run P events self0)) /\
  checks_of h (run P events self0) =
    (checks_of h self0 + length (filter (hid_input_from h) events))%nat.
Proof.
  intros Hok Hrej Hrows.
  induction events as [|ev events IH] using rev_ind.
  - simpl. split_and!; (done || lia).
  - destruct IH as (Hf & Hok' & Hrows' & Hcount).
    rewrite run_snoc.
    destruct (handle_wm_input_rejected P (run P events self0) h ev)
      as (Hf1 & Hok1 & Hrows1 & Hcount1);
      [done|by rewrite (_match_filter_ext self0)|done|].
    split; [congruence|]. split; [done|]. split; [done|].
    rewrite Hcount1, Hcount, filter_app, length_app.
    rewrite filter_cons, filter_nil. case_decide; simpl; lia.
Qed.

End Run.

(** C7 (as amended). Let the name of the device [h] not contain the
    configured filter, case-insensitively. After any sequence of messages
    handled by a fresh logger, [h] is not in the device cache,
    [get_device_state] returns [None] for it and leaves the cache as it is,
    no row of [h] has been written, and the filter has been evaluated for
    [h] once for every HID message of [h] whose buffer holds a whole
    [RAWHID] structure: a rejected handle is not cached, so each of these
    messages builds its state and checks its name again. A HID message of
    [h] whose buffer ends before the [RAWHID] structure does is not
    counted: on it [handle_wm_input] raises [ValueError] before it reaches
    [get_device_state], and leaves the logger as it was. *)
Theorem rejected_device_is_dropped (P : HidPlatform)
    (name_filter : option string) (echo : bool)
    (events : list (option bytes * Z)) (h : HANDLE) :
  _match_filter (RawInputLogger_init name_filter echo)
    (get_device_name P h) = false ->
  device_cache (run P events (RawInputLogger_init name_filter echo)) !! h
    = None /\
  (get_device_state P h
     (run P events (RawInputLogger_init name_filter echo))).1 = None /\
  device_cache
    (get_device_state P h
       (run P events (RawInputLogger_init name_filter echo))).2
    = device_cache (run P events (RawInputLogger_init name_filter echo)) /\
  Forall (fun row => row_device_handle row <> h)
    (writer (run P events (RawInputLogger_init name_filter echo))) /\
  checks_of h (run P events (RawInputLogger_init name_filter echo))
    = length (filter (hid_input_from h) events) /\
  (forall ev self,
     short_hid_input_from h ev ->
     handle_wm_input P ev.1 ev.2 self = (Raise ValueError, self)).
Proof.
  intros Hrej.
  destruct (run_rejected P (RawInputLogger_init name_filter echo) events h)
    as (Hf & Hok & Hrows & Hcount); [by intros k st|done|by constructor|].
  assert (Hrej' : _match_filter
            (run P events (RawInputLogger_init name_filter echo))
            (get_device_name P h) = false)
    by (by rewrite (_match_filter_ext _ _ _ Hf)).
  pose proof (rejected_not_cached P _ h Hok Hrej') as Hnone.
  rewrite (get_device_state_rejected P _ h Hnone Hrej').
  split_and!; try done.
  intros [[buffer|] ts] self; unfold short_hid_input_from; cbn [fst snd];
    [|done].
  destruct (RAWINPUTHEADER_from_buffer_copy buffer 0) as [header|e] eqn:Hh;
    [|done].
  intros (Htype & _ & Hlen). by apply (handle_wm_input_short P buffer header).
Qed.

(** The filter "Thrustmaster" and the device "Logitech Gamepad": two
    messages of three reports and between them a message of 34 bytes. *)
Lemma rejected_device_is_dropped_witness :
  writer (run Samples.pad
            [(Some Samples.input3, 0); (Some Samples.input_short, 1);
             (Some Samples.input3, 2)]
            (RawInputLogger_init (Some "Thrustmaster"%string) false)) = [] /\
  device_cache (run Samples.pad
            [(Some Samples.input3, 0); (Some Samples.input_short, 1);
             (Some Samples.input3, 2)]
            (RawInputLogger_init (Some "Thrustmaster"%string) false)) !! 1
    = None /\
  checks_of 1 (run Samples.pad
            [(Some Samples.input3, 0); (Some Samples.input_short, 1);
             (Some Samples.input3, 2)]
            (RawInputLogger_init (Some "Thrustmaster"%string) false)) = 2%nat /\
  handle_wm_input Samples.pad (Some Samples.input_short) 1
      (RawInputLogger_init (Some "Thrustmaster"%string) false)
    = (Raise ValueError,
       RawInputLogger_init (Some "Thrustmaster"%string) false).
Proof.
  split; [vm_compute; reflexivity|].
  destruct (rejected_device_is_dropped Samples.pad
              (Some "Thrustmaster"%string) false
              [(Some Samples.input3, 0); (Some Samples.input_short, 1);
               (Some Samples.input3, 2)] 1 eq_refl)
    as (Hcache & _ & _ & _ & Hchecks & Hshort).
  split; [exact Hcache|]. split; [rewrite Hchecks; reflexivity|].
  apply (Hshort (Some Samples.input_short, 1)). by vm_compute.
Defined.

(** C7, counterexample: two messages of the rejected device, two
    evaluations of the filter for its handle. *)
Lemma filter_checked_per_event_counterexample :
  _match_filter (RawInputLogger_init (Some "Thrustmaster"%string) false)
    (get_device_name Samples.pad 1) = false /\
  filter_checks (run Samples.pad
                   [(Some Samples.input3, 0); (Some Samples.input3, 1)]
                   (RawInputLogger_init (Some "Thrustmaster"%string) false))
    = [1; 1] /\
  ~ (checks_of 1%Z (run Samples.pad
                    [(Some Samples.input3, 0%Z); (Some Samples.input3, 1%Z)]
                    (RawInputLogger_init (Some "Thrustmaster"%string) false))
     <= 1)%nat.
Proof.
  split; [reflexivity|]. split; [vm_compute; reflexivity|].
  vm_compute. lia.
Qed.

(** ** More on the report segmenter *)

Section SegmenterMore.

(** For a positive report size the reports are the slices of the first
    [min(count, len(data) // report_size)] indices. *)
Lemma parse_report_bytes_map (data : bytes) (report_size count : Z) :
  0 < report_size -> 0 <= count ->
  parse_report_bytes data report_size count =
  (fun i => py_slice data (i * report_size) ((i + 1) * report_size))
    <$> seqZ 0 (Z.min count (Z.of_nat (length data) / report_size)).
Proof.
  intros Hs Hc. rewrite parse_report_bytes_filter.
  rewrite (list_filter_iff _
             (fun i => i < Z.of_nat (length data) / report_size))
    by (intros i; by apply slice_end_in_data).
  rewrite <- (Z2Nat.id count) at 1 by done.
  rewrite filter_lt_seqZ, Z2Nat.id by done.
  apply list_fmap_ext. intros _ i _. f_equal. lia.
Qed.

Lemma concat_slices (data : bytes) (report_size : Z) (n : nat) :
  0 < report_size ->
  Z.of_nat n * report_size <= Z.of_nat (length data) ->
  concat ((fun i => py_slice data (i * report_size) ((i + 1) * report_size))
            <$> seqZ 0 (Z.of_nat n))
  = take (n * Z.to_nat report_size) data.
Proof.
  intros Hs. induction n as [|n IH]; intros Hn; [done|].
  rewrite seqZ_S, fmap_app, concat_app, IH by lia. simpl.
  rewrite app_nil_r, Z.add_0_l.
  destruct (py_slice_inside data (Z.of_nat n * report_size)
              ((Z.of_nat n + 1) * report_size)) as [-> _]; [nia|lia|].
  replace ((Z.of_nat n + 1) * report_size - Z.of_nat n * report_size)
    with report_size by lia.
  rewrite Z2Nat.inj_mul, Nat2Z.id by lia.
  rewrite take_take_drop. f_equal. lia.
Qed.

(** The reports joined are a prefix of the data. *)
Lemma concat_reports_prefix (data : bytes)
    (report_size count : Z) :
  0 < report_size -> 0 <= count ->
  exists k : nat,
    concat (parse_report_bytes data report_size count) = take k data.
Proof.
  intros Hs Hc.
  assert (Hq : 0 <= Z.of_nat (length data) / report_size)
    by (apply Z.div_pos; lia).
  rewrite parse_report_bytes_map by done.
  set (n := Z.min count (Z.of_nat (length data) / report_size)).
  assert (Hfit : n * report_size <= Z.of_nat (length data)).
  { pose proof (Z.mul_div_le (Z.of_nat (length data)) report_size Hs).
    nia. }
  rewrite <- (Z2Nat.id n) by lia.
  rewrite concat_slices by (try done; lia). eauto.
Qed.

End SegmenterMore.

(** X1. For a report size of at least 1, joining the reports that
    [parse_report_bytes] returns gives back the first
    [n * report_size] bytes of the data, [n] being the number of reports:
    nothing is reordered, duplicated or skipped, only the tail is dropped.
    When the data is exactly [count] reports long, the join is the data. *)
Theorem parse_report_bytes_concat (data : bytes) (report_size count : Z) :
  0 < report_size -> 0 <= count ->
  concat (parse_report_bytes data report_size count) =
    take (length (parse_report_bytes data report_size count)
          * Z.to_nat report_size) data /\
  (Z.of_nat (length data) = count * report_size ->
   concat (parse_report_bytes data report_size count) = data).
Proof.
  intros Hs Hc.
  assert (Hq : 0 <= Z.of_nat (length data) / report_size)
    by (apply Z.div_pos; lia).
  rewrite parse_report_bytes_map by done.
  set (n := Z.min count (Z.of_nat (length data) / report_size)).
  assert (Hn : 0 <= n) by lia.
  assert (Hfit : n * report_size <= Z.of_nat (length data)).
  { pose proof (Z.mul_div_le (Z.of_nat (length data)) report_size Hs).
    nia. }
  rewrite length_fmap, length_seqZ.
  rewrite <- (Z2Nat.id n) at 1 3 by done.
  rewrite concat_slices by (try done; lia).
  split; [done|]. intros Hlen.
  assert (n = count) as ->.
  { subst n. rewrite Hlen, Z.div_mul by lia. lia. }
  apply take_ge. rewrite <- Z2Nat.inj_mul by lia. lia.
Qed.

Lemma parse_report_bytes_concat_witness :
  concat (parse_report_bytes Samples.blob 2 3) =
    [Byte.x01; Byte.x02; Byte.x03; Byte.x04] /\
  concat (parse_report_bytes [Byte.x01; Byte.x02; Byte.x03; Byte.x04] 2 2) =
    [Byte.x01; Byte.x02; Byte.x03; Byte.x04].
Proof.
  split; [reflexivity|].
  destruct (parse_report_bytes_concat
              [Byte.x01; Byte.x02; Byte.x03; Byte.x04] 2 2) as [_ H];
    [lia|lia|].
  apply H. reflexivity.
Defined.

(** ** The pressed usages of a button capability *)

Section Usages.

Context (P : HidPlatform).

Lemma length_c_array {A} (n : nat) (zero : A) (written : list A) :
  length (c_array n zero written) = n.
Proof.
  unfold c_array. rewrite length_take, length_app, length_replicate. lia.
Qed.

Lemma elem_of_c_array {A} (n : nat) (zero x : A) (written : list A) :
  x ∈ c_array n zero written -> x ∈ written \/ x = zero.
Proof.
  unfold c_array. intros Hx. apply elem_of_take in Hx as (i & Hi & _).
  apply list_elem_of_lookup_2 in Hi.
  apply elem_of_app in Hi as [Hi|Hi]; [by left|right].
  by apply elem_of_replicate in Hi as [-> _].
Qed.

(** Reading the first [n] elements of an array by index: the elements when
    the array is long enough, [IndexError] otherwise. *)
Lemma mapM_index_ok (usages : list Z) (k n : nat) :
  (k + n <= length usages)%nat ->
  mapM (fun i : nat =>
          match usages !! i with
          | Some u => Ok u
          | None => Raise IndexError
          end) (seq k n)
  = Ok (take n (drop k usages)).
Proof.
  revert k. induction n as [|n IH]; intros k Hk; [done|].
  simpl. destruct (usages !! k) as [u|] eqn:Hu.
  - simpl. rewrite IH by lia. simpl.
    rewrite (drop_S _ _ _ Hu). done.
  - apply lookup_ge_None in Hu. lia.
Qed.

Lemma mapM_index_raise (usages : list Z) (k n : nat) :
  (k <= length usages < k + n)%nat ->
  mapM (fun i : nat =>
          match usages !! i with
          | Some u => Ok u
          | None => Raise IndexError
          end) (seq k n)
  = Raise IndexError.
Proof.
  revert k. induction n as [|n IH]; intros k Hk; [lia|].
  simpl. destruct (usages !! k) as [u|] eqn:Hu; [|done].
  simpl. apply lookup_lt_Some in Hu. by rewrite IH by lia.
Qed.

Lemma USHORT_range (z : Z) : 0 <= USHORT z < 65536.
Proof. unfold USHORT. apply Z.mod_pos_bound. lia. Qed.

Lemma ULONG_range (z : Z) : 0 <= ULONG z < 2 ^ 32.
Proof. unfold ULONG. apply Z.mod_pos_bound. lia. Qed.

(** What [hid_get_usages] returns for each answer of [HidP_GetUsages]. *)
Lemma hid_get_usages_answer (preparsed : Preparsed) (report_buf : bytes)
    (report_len usage_page link_collection max_usages : Z)
    (status : Z) (written : list Z) (usage_count : Z) :
  0 <= max_usages ->
  HidP_GetUsages P preparsed report_buf report_len (USHORT usage_page)
    (USHORT link_collection) max_usages = Ok (status, written, usage_count) ->
  hid_get_usages P preparsed report_buf report_len usage_page
    link_collection max_usages =
  if decide (status ≠ HIDP_STATUS_SUCCESS) then Ok []
  else if decide (ULONG usage_count <= max_usages) then
    Ok (take (Z.to_nat (ULONG usage_count))
          (c_array (Z.to_nat max_usages) 0 (USHORT <$> written)))
  else Raise IndexError.
Proof.
  intros Hmax Hos. unfold hid_get_usages, _check_hidp. rewrite Hos.
  cbn [mbind PyResult_bind]. pose proof (ULONG_range usage_count).
  case_decide; [done|]. cbn [negb]. case_decide.
  - rewrite mapM_index_ok by (rewrite length_c_array; lia).
    by rewrite drop_0.
  - apply mapM_index_raise. rewrite length_c_array. lia.
Qed.

(** The usages that [hid_get_usages] returns are 16-bit values, and there
    are at most [max_usages] of them. *)
Lemma hid_get_usages_Ok (preparsed : Preparsed) (report_buf : bytes)
    (report_len usage_page link_collection max_usages : Z)
    (pressed : list Z) :
  0 <= max_usages ->
  hid_get_usages P preparsed report_buf report_len usage_page
    link_collection max_usages = Ok pressed ->
  Z.of_nat (length pressed) <= max_usages /\
  Forall (fun b => 0 <= b < 65536) pressed.
Proof.
  intros Hmax Hrun.
  destruct (HidP_GetUsages P preparsed report_buf report_len
              (USHORT usage_page) (USHORT link_collection) max_usages)
    as [[[status written] usage_count]|e] eqn:Hos.
  2:{ unfold hid_get_usages in Hrun. by rewrite Hos in Hrun. }
  rewrite (hid_get_usages_answer _ _ _ _ _ _ _ _ _ Hmax Hos) in Hrun.
  repeat case_decide; simplify_eq.
  - split; [simpl; lia|constructor].
  - split.
    + rewrite length_take, length_c_array. lia.
    + apply Forall_forall. intros b Hb.
      apply elem_of_take in Hb as (i & Hi & _).
      apply list_elem_of_lookup_2, elem_of_c_array in Hi as [Hi| ->]; [|lia].
      apply list_elem_of_fmap in Hi as (z & -> & _). apply USHORT_range.
Qed.

End Usages.

(** X2. [hid_get_usages], for an answer [(status, usages, count)] of
    [HidP_GetUsages] asked for at most [max_usages] usages: a non-success
    status gives the empty list; a success with [count <= max_usages] gives
    the first [count] elements of the array, each a 16-bit value; a success
    with [count > max_usages] raises [IndexError], as the list
    comprehension indexes past the end of the ctypes array. *)
Theorem hid_get_usages_cases (P : HidPlatform) (preparsed : Preparsed)
    (report_buf : bytes)
    (report_len usage_page link_collection max_usages : Z)
    (status : Z) (written : list Z) (usage_count : Z) :
  0 <= max_usages ->
  HidP_GetUsages P preparsed report_buf report_len (USHORT usage_page)
    (USHORT link_collection) max_usages = Ok (status, written, usage_count) ->
  (status <> HIDP_STATUS_SUCCESS ->
   hid_get_usages P preparsed report_buf report_len usage_page
     link_collection max_usages = Ok []) /\
  (status = HIDP_STATUS_SUCCESS -> ULONG usage_count <= max_usages ->
   exists pressed,
     hid_get_usages P preparsed report_buf report_len usage_page
       link_collection max_usages = Ok pressed /\
     pressed = take (Z.to_nat (ULONG usage_count))
                 (c_array (Z.to_nat max_usages) 0 (USHORT <$> written)) /\
     Z.of_nat (length pressed) = ULONG usage_count /\
     Forall (fun b => 0 <= b < 65536) pressed) /\
  (status = HIDP_STATUS_SUCCESS -> max_usages < ULONG usage_count ->
   hid_get_usages P preparsed report_buf report_len usage_page
     link_collection max_usages = Raise IndexError).
Proof.
  intros Hmax Hos.
  pose proof (hid_get_usages_answer P _ _ _ _ _ _ _ _ _ Hmax Hos) as Hans.
  pose proof (ULONG_range usage_count) as Hc.
  split; [|split].
  - intros Hst. rewrite Hans. by case_decide.
  - intros Hst Hle. rewrite Hans. repeat case_decide; try done.
    eexists. split; [done|]. split; [done|].
    split; [rewrite length_take, length_c_array; lia|].
    eapply (hid_get_usages_Ok P); [exact Hmax|]. rewrite Hans.
    repeat case_decide; done.
  - intros Hst Hgt. rewrite Hans. repeat case_decide; try done. lia.
Qed.

Lemma hid_get_usages_cases_witness :
  hid_get_usages Samples.pad [] Samples.blob 5 0x09 0 8 = Ok [5] /\
  hid_get_usages Samples.pad [] Samples.blob 5 0x09 0 0 = Raise IndexError.
Proof.
  destruct (hid_get_usages_cases Samples.pad [] Samples.blob 5 0x09 0 8
              HIDP_STATUS_SUCCESS [5] 1 ltac:(lia) eq_refl)
    as (_ & Hok & _).
  destruct (Hok eq_refl) as (pressed & -> & -> & _); [by vm_compute|].
  destruct (hid_get_usages_cases Samples.pad [] Samples.blob 5 0x09 0 0
              HIDP_STATUS_SUCCESS [5] 1 ltac:(lia) eq_refl)
    as (_ & _ & Hraise).
  rewrite Hraise by (try done; by vm_compute).
  split; reflexivity.
Defined.

(** ** The button loop *)

Section Buttons.

Context (P : HidPlatform) (preparsed : Preparsed) (report : bytes).

(** The usages that a button capability adds do not depend on the buttons
    collected before it. *)
Lemma decode_button_cap_acc (buttons : list Z) (cap : HIDP_BUTTON_CAPS) :
  decode_button_cap P preparsed report buttons cap =
  pressed ← decode_button_cap P preparsed report [] cap;
  Ok (buttons ++ pressed).
Proof.
  unfold decode_button_cap. case_decide; simpl.
  - by rewrite app_nil_r.
  - by destruct (hid_get_usages _ _ _ _ _ _ _).
Qed.

Lemma decode_button_cap_range (buttons buttons' : list Z)
    (cap : HIDP_BUTTON_CAPS) :
  Forall (fun b => 0 <= b < 65536) buttons ->
  decode_button_cap P preparsed report buttons cap = Ok buttons' ->
  Forall (fun b => 0 <= b < 65536) buttons'.
Proof.
  intros Hacc. unfold decode_button_cap. case_decide as Hmax.
  - by intros [= <-].
  - destruct (hid_get_usages _ _ _ _ _ _ _) as [pressed|e] eqn:Hp;
      simpl; [|done].
    intros [= <-]. apply Forall_app. split; [done|].
    by apply (hid_get_usages_Ok P) in Hp as [_ ?]; [|lia].
Qed.

(** Running the button loop from permuted starts over the same
    capabilities gives permuted results. *)
Lemma for_each_buttons_acc (button_caps : list HIDP_BUTTON_CAPS)
    (acc acc' r : list Z) :
  acc ≡ₚ acc' ->
  for_each (decode_button_cap P preparsed report) button_caps acc = Ok r ->
  exists r',
    for_each (decode_button_cap P preparsed report) button_caps acc' = Ok r' /\
    r ≡ₚ r'.
Proof.
  revert acc acc'. induction button_caps as [|cap caps IH];
    intros acc acc' Hperm; simpl.
  - intros [= <-]. by exists acc'.
  - rewrite (decode_button_cap_acc acc), (decode_button_cap_acc acc').
    destruct (decode_button_cap P preparsed report [] cap) as [lx|e];
      simpl; [|done].
    apply IH. by rewrite Hperm.
Qed.

Lemma for_each_buttons_perm (caps caps' : list HIDP_BUTTON_CAPS) :
  caps ≡ₚ caps' ->
  forall acc acc' r,
    acc ≡ₚ acc' ->
    for_each (decode_button_cap P preparsed report) caps acc = Ok r ->
    exists r',
      for_each (decode_button_cap P preparsed report) caps' acc' = Ok r' /\
      r ≡ₚ r'.
Proof.
  induction 1 as [|x l l' Hl IH|x y l|l l' l'' H1 IH1 H2 IH2];
    intros acc acc' r Hacc; simpl.
  - intros [= <-]. by exists acc'.
  - rewrite (decode_button_cap_acc acc), (decode_button_cap_acc acc').
    destruct (decode_button_cap P preparsed report [] x) as [lx|e];
      simpl; [|done].
    apply IH. by rewrite Hacc.
  - rewrite (decode_button_cap_acc acc y), (decode_button_cap_acc acc' x).
    destruct (decode_button_cap P preparsed report [] y) as [ly|e] eqn:Hy;
      simpl; [|done].
    rewrite (decode_button_cap_acc (acc ++ ly) x).
    destruct (decode_button_cap P preparsed report [] x) as [lx|e];
      simpl; [|done].
    rewrite (decode_button_cap_acc (acc' ++ lx) y), Hy. simpl.
    intros Hrun. eapply for_each_buttons_acc; [|exact Hrun].
    rewrite Hacc, <- !app_assoc. f_equiv. apply Permutation_app_comm.
  - intros Hrun.
    destruct (IH1 acc acc r (reflexivity _) Hrun) as (r1 & Hr1 & Hp1).
    destruct (IH2 acc acc' r1 Hacc Hr1) as (r2 & Hr2 & Hp2).
    exists r2. split; [done|]. by rewrite Hp1.
Qed.

Lemma sorted_set_Permutation (l l' : list Z) :
  l ≡ₚ l' -> sorted_set l = sorted_set l'.
Proof.
  intros Hperm. unfold sorted_set. f_equal. f_equal.
  apply set_eq. intros x. rewrite !elem_of_list_to_set. by rewrite Hperm.
Qed.

End Buttons.

(** X3. Every button that [decode_hid_report] returns is a 16-bit usage:
    between 0 and 65535. *)
Theorem decode_hid_report_buttons_range (P : HidPlatform) (report : bytes)
    (preparsed : Preparsed) (value_caps : list HIDP_VALUE_CAPS)
    (button_caps : list HIDP_BUTTON_CAPS)
    (axes : gmap string AxisReading) (buttons : list Z) :
  decode_hid_report P report preparsed value_caps button_caps
    = Ok (axes, buttons) ->
  Forall (fun b => 0 <= b < 65536) buttons.
Proof.
  intros Hdec.
  apply decode_hid_report_Ok in Hdec as (pressed & _ & Hb & ->).
  assert (Hr : Forall (fun b => 0 <= b < 65536) pressed).
  { eapply (for_each_invariant _ (Forall (fun b => 0 <= b < 65536)));
      [|constructor|exact Hb].
    intros acc cap acc' _ Hacc Hstep.
    by eapply decode_button_cap_range. }
  rewrite Forall_forall in *. intros b Hin.
  apply Hr. by apply elem_of_sorted_set.
Qed.

Lemma decode_hid_report_buttons_range_witness :
  Forall (fun b => 0 <= b < 65536) [5] /\
  decode_hid_report Samples.pad Samples.blob [] [Samples.x_cap]
    [Samples.buttons_1_8] =
  Ok ({[ "x"%string := reading_of Samples.x_cap 0 (Some Samples.norm_x) ]},
      [5]).
Proof.
  assert (H : decode_hid_report Samples.pad Samples.blob [] [Samples.x_cap]
                [Samples.buttons_1_8] =
    Ok ({[ "x"%string :=
             reading_of Samples.x_cap 0 (Some Samples.norm_x) ]}, [5]))
    by (vm_compute; reflexivity).
  split; [|exact H].
  exact (decode_hid_report_buttons_range _ _ _ _ _ _ _ H).
Defined.

(** X4. The decoded report does not depend on the order of the button
    capabilities: if [decode_hid_report] returns for one order, it returns
    the same axes and the same buttons for every other order. *)
Theorem decode_hid_report_button_caps_order (P : HidPlatform)
    (report : bytes) (preparsed : Preparsed)
    (value_caps : list HIDP_VALUE_CAPS)
    (button_caps button_caps' : list HIDP_BUTTON_CAPS)
    (axes : gmap string AxisReading) (buttons : list Z) :
  button_caps ≡ₚ button_caps' ->
  decode_hid_report P report preparsed value_caps button_caps
    = Ok (axes, buttons) ->
  decode_hid_report P report preparsed value_caps button_caps'
    = Ok (axes, buttons).
Proof.
  intros Hperm Hdec.
  apply decode_hid_report_Ok in Hdec as (pressed & Haxes & Hb & ->).
  destruct (for_each_buttons_perm P preparsed report _ _ Hperm [] [] pressed
              (reflexivity _) Hb) as (pressed' & Hb' & Hpp).
  apply decode_hid_report_Ok. exists pressed'.
  split; [done|]. split; [done|]. by apply sorted_set_Permutation.
Qed.

Lemma decode_hid_report_button_caps_order_witness :
  decode_hid_report Samples.pad Samples.blob [] []
    [Samples.buttons_5_12; Samples.buttons_1_8] = Ok (∅, [5]).
Proof.
  apply (decode_hid_report_button_caps_order Samples.pad Samples.blob [] []
           [Samples.buttons_1_8; Samples.buttons_5_12]).
  - apply Permutation_swap.
  - vm_compute; reflexivity.
Defined.

(** X5. A fault in the button loop discards the axes that the value loop
    had already decoded: [decode_hid_report] raises, and the row written
    for the report has neither axes nor buttons. *)
Theorem button_fault_discards_axes (P : HidPlatform) (ts_ms : Z)
    (hDevice : HANDLE) (device_state : DeviceState) (report : bytes)
    (preparsed : Preparsed) (axes : gmap string AxisReading) (e : PyExn) :
  ds_preparsed device_state = Some preparsed ->
  for_each (decode_value_cap P preparsed report)
    (ds_value_caps device_state) ∅ = Ok axes ->
  for_each (decode_button_cap P preparsed report)
    (ds_button_caps device_state) [] = Raise e ->
  decode_hid_report P report preparsed (ds_value_caps device_state)
    (ds_button_caps device_state) = Raise e /\
  row_axes (make_row P ts_ms hDevice device_state report) = ∅ /\
  row_buttons (make_row P ts_ms hDevice device_state report) = [].
Proof.
  intros Hpp Haxes Hb.
  assert (Hdec : decode_hid_report P report preparsed
                   (ds_value_caps device_state)
                   (ds_button_caps device_state) = Raise e).
  { unfold decode_hid_report. rewrite Haxes. simpl. by rewrite Hb. }
  split; [done|].
  pose proof (make_row_decoded P ts_ms hDevice device_state report) as Hrow.
  assert (Hempty : decode_or_empty P device_state report = (∅, [])).
  { unfold decode_or_empty. rewrite Hpp.
    destruct (ds_value_caps device_state); [done|]. by rewrite Hdec. }
  rewrite Hempty in Hrow. by injection Hrow as -> ->.
Qed.

Lemma button_fault_discards_axes_witness :
  decode_hid_report Samples2.overcount Samples.blob [] [Samples.x_cap]
    [Samples2.button_7] = Raise IndexError /\
  row_axes (make_row Samples2.overcount 0 1 Samples2.one_button_state
              Samples.blob) = ∅.
Proof.
  destruct (button_fault_discards_axes Samples2.overcount 0 1
              Samples2.one_button_state Samples.blob []
              {[ "x"%string :=
                   reading_of Samples.x_cap 0 (Some Samples.norm_x) ]}
              IndexError eq_refl) as (Hdec & Haxes & _).
  - vm_compute; reflexivity.
  - reflexivity.
  - split; [exact Hdec|exact Haxes].
Defined.

(** ** The entries of the axes dictionary *)

Section AxisEntries.

Context (P : HidPlatform) (preparsed : Preparsed) (report : bytes).

Lemma hid_get_usage_value_range (report_len usage_page usage value : Z) :
  hid_get_usage_value P preparsed report report_len usage_page usage
    = Ok (Some value) ->
  0 <= value < 2 ^ 32.
Proof.
  unfold hid_get_usage_value.
  destruct (HidP_GetUsageValue _ _ _ _ _ _) as [[status v]|e]; simpl;
    [|done].
  destruct (negb _); [done|]. intros [= <-]. apply ULONG_range.
Qed.

Lemma normalize_value_None (value lo hi : Z) (norm : option PyFloat.float) :
  normalize_value value lo hi = Ok norm -> norm = None <-> hi = lo.
Proof.
  unfold normalize_value. case_decide as Heq.
  - by intros [= <-].
  - destruct (PyFloat.of_int (hi - lo)) as [span|e]; simpl; [|done].
    destruct (PyFloat.of_int (value - lo)) as [num|e]; simpl; [|done].
    case_decide; intros [= <-]; split; done.
Qed.

End AxisEntries.

(** X6. The axes of a decoded report hold at most ten entries. The raw
    value of an entry is an unsigned 32-bit number, also when the logical
    range of its capability is signed; its bounds are those of a value
    capability of the device; and its norm is absent exactly when these
    bounds are equal. *)
Theorem decode_hid_report_axis_entries (P : HidPlatform) (report : bytes)
    (preparsed : Preparsed) (value_caps : list HIDP_VALUE_CAPS)
    (button_caps : list HIDP_BUTTON_CAPS)
    (axes : gmap string AxisReading) (buttons : list Z) :
  decode_hid_report P report preparsed value_caps button_caps
    = Ok (axes, buttons) ->
  (size axes <= 10)%nat /\
  (forall name r, axes !! name = Some r ->
     0 <= ar_raw r < 2 ^ 32 /\
     exists cap, cap ∈ value_caps /\
       ar_min r = vc_LogicalMin cap /\
       ar_max r = vc_LogicalMax cap /\
       (ar_norm r = None <-> vc_LogicalMax cap = vc_LogicalMin cap)).
Proof.
  intros Hdec.
  apply decode_hid_report_Ok in Hdec as (pressed & Haxes & _ & _).
  pose proof (decode_axes_source P preparsed report value_caps axes Haxes)
    as Hsrc.
  split.
  - rewrite <- size_dom.
    assert (Hsub : dom axes ⊆ (list_to_set axis_names : gset string)).
    { intros name Hin. apply elem_of_dom in Hin as [r Hr].
      destruct (Hsrc name r Hr)
        as (cap & usage & value & norm & _ & _ & _ & Hname & _).
      apply elem_of_list_to_set.
      by apply AXIS_USAGE_NAMES_name in Hname as [_ ?]. }
    apply subseteq_size in Hsub.
    by replace (size (list_to_set axis_names : gset string)) with 10%nat
      in Hsub by (by vm_compute).
  - intros name r Hr.
    destruct (Hsrc name r Hr)
      as (cap & usage & value & norm & Hcap & _ & _ & _ & Hval & Hn & ->).
    simpl. split; [by eapply hid_get_usage_value_range|].
    exists cap. split; [done|]. split; [done|]. split; [done|].
    by eapply normalize_value_None.
Qed.

Lemma decode_hid_report_axis_entries_witness :
  (size ({[ "x"%string :=
              reading_of Samples.x_cap 0 (Some Samples.norm_x) ]}
           : gmap string AxisReading) <= 10)%nat.
Proof.
  exact (proj1 (decode_hid_report_axis_entries Samples.pad Samples.blob []
                  [Samples.x_cap] [] _ _ ltac:(vm_compute; reflexivity))).
Defined.

(** ** More facts about binary64 *)

Section FloatFactsMore.

Import PyFloat.

Lemma binary_round_canon (s : bool) (p : positive) :
  Zpos (digits2_pos p) <= 53 ->
  binary_round prec emax s p 0 = S754_finite s (canon_m p) (canon_e p).
Proof.
  intros Hd. pose proof (canon_m_digits p Hd) as Hc.
  assert (Hpos : 0 < Zpos (digits2_pos p)) by lia.
  unfold binary_round.
  assert (Hf : fexp prec emax (Zpos (digits2_pos p) + 0) = canon_e p).
  { unfold fexp, emin, prec, emax, canon_e. lia. }
  rewrite Hf. unfold shl_align, canon_e. rewrite Z.sub_0_r.
  unfold canon_m in *.
  destruct (Zpos (digits2_pos p) - 53) as [|k|k] eqn:Hk; try lia.
  - replace (53 - Zpos (digits2_pos p)) with 0 in * by lia.
    by rewrite binary_round_aux_canonical by (try done; lia).
  - replace (53 - Zpos (digits2_pos p)) with (Zpos k) in * by lia.
    by rewrite binary_round_aux_canonical by (try done; lia).
Qed.

(** An int of magnitude below [2^53] converts exactly, with its sign. *)
Lemma of_int_exact (z : Z) :
  - 2 ^ 53 < z < 2 ^ 53 ->
  of_int z =
  match z with
  | Z0 => Ok zero
  | Zpos p => Ok (S754_finite false (canon_m p) (canon_e p))
  | Zneg p => Ok (S754_finite true (canon_m p) (canon_e p))
  end.
Proof.
  intros Hz. destruct z as [|p|p]; [done|..];
    unfold of_int, binary_normalize;
    rewrite binary_round_canon; try done; apply digits2_pos_bound; lia.
Qed.

Lemma of_int_Ok (z : Z) :
  - 2 ^ 53 < z < 2 ^ 53 -> exists f, of_int z = Ok f.
Proof.
  intros Hz. rewrite of_int_exact by done. destruct z; eauto.
Qed.

(** The quotient of two doubles of the same mantissa is a signed power
    of two. *)
Lemma fdiv_same_mantissa (sx sy : bool) (m : positive) (e : Z) :
  fdiv (S754_finite sx m e) (S754_finite sy m e)
    = (if xorb sx sy then minus_one else one) /\
  fdiv (S754_finite sx m (e + 1)) (S754_finite sy m e)
    = S754_finite (xorb sx sy) 4503599627370496 (-51).
Proof.
  split.
  - unfold fdiv, SFdiv, SFdiv_core_binary.
    rewrite !Z.sub_diag. change (fexp prec emax 0) with (-53).
    change (Z.min (-53) 0) with (-53). change (0 - -53) with 53.
    cbv iota. rewrite (div_eucl_shiftl m 53) by lia.
    rewrite new_location_zero. by destruct sx, sy.
  - unfold fdiv, SFdiv, SFdiv_core_binary.
    replace (Zdigits2 (Zpos m) + (e + 1) - (Zdigits2 (Zpos m) + e))
      with 1 by lia.
    replace (e + 1 - e) with 1 by lia.
    change (fexp prec emax 1) with (-52).
    change (Z.min (-52) 1) with (-52). change (1 - -52) with 53.
    cbv iota. rewrite (div_eucl_shiftl m 53) by lia.
    rewrite new_location_zero. by destruct sx, sy.
Qed.

End FloatFactsMore.

Section NormalizerMore.

Import PyFloat.

Lemma is_LONG_diff (lo hi : Z) :
  is_LONG lo -> is_LONG hi -> - 2 ^ 53 < hi - lo < 2 ^ 53.
Proof. unfold is_LONG. lia. Qed.

End NormalizerMore.

(** X7. [normalize_value] does not clamp. For a range [lo < hi] of 32-bit
    bounds, a value one span above the maximum normalizes to exactly 2.0
    (3.0 when [lo < 0]) and a value one span below the minimum to exactly
    -1.0 (-3.0 when [lo < 0]). *)
Theorem normalize_value_no_clamp (lo hi : Z) :
  is_LONG lo -> is_LONG hi -> lo < hi ->
  (exists f, normalize_value (hi + (hi - lo)) lo hi = Ok (Some f) /\
             (PyFloat.to_Q f == if decide (lo < 0)%Z then 3 else 2)%Q) /\
  (exists f, normalize_value (lo - (hi - lo)) lo hi = Ok (Some f) /\
             (PyFloat.to_Q f == if decide (lo < 0)%Z then -3 else -1)%Q).
Proof.
  intros Hlo Hhi Hlt. unfold is_LONG in *.
  assert (Hspan : exists p, hi - lo = Zpos p /\ Zpos p < 2 ^ 33).
  { destruct (hi - lo) as [|p|p] eqn:Hd; try lia. exists p. lia. }
  destruct Hspan as (p & Hp & Hpb).
  assert (Hdig : Zpos (digits2_pos p~0) <= 53)
    by (apply digits2_pos_bound; lia).
  simpl digits2_pos in Hdig.
  destruct (canon_xO p ltac:(lia)) as [Hm He].
  split.
  - unfold normalize_value. case_decide; [lia|].
    replace (hi + (hi - lo) - lo) with (Zpos p~0) by lia. rewrite Hp.
    rewrite !of_int_exact by lia. cbn [mbind PyResult_bind].
    rewrite Hm, He.
    destruct (fdiv_same_mantissa false false (PyFloat.canon_m p)
                (PyFloat.canon_e p)) as [_ ->].
    case_decide; eexists; (split; [reflexivity|]); by vm_compute.
  - unfold normalize_value. case_decide; [lia|].
    replace (lo - (hi - lo) - lo) with (Zneg p) by lia. rewrite Hp.
    rewrite !of_int_exact by lia. cbn [mbind PyResult_bind].
    destruct (fdiv_same_mantissa true false (PyFloat.canon_m p)
                (PyFloat.canon_e p)) as [-> _].
    case_decide; eexists; (split; [reflexivity|]); by vm_compute.
Qed.

Lemma normalize_value_no_clamp_witness :
  normalize_value 510 0 255 = Ok (Some PyFloat.two) /\
  exists f, normalize_value (-32768 - 65535) (-32768) 32767 = Ok (Some f) /\
            (PyFloat.to_Q f == -3)%Q.
Proof.
  split; [reflexivity|].
  destruct (normalize_value_no_clamp (-32768) 32767) as [_ H];
    [unfold is_LONG; lia|unfold is_LONG; lia|lia|].
  exact H.
Defined.

(** X8. For every range of 32-bit bounds with [lo <> hi], in either
    orientation and also when both bounds are negative: the value [hi]
    normalizes to exactly 1.0; the value [lo] normalizes to -1.0 when
    [lo < 0], and otherwise to 0.0, which is the negative zero when the
    range is inverted ([hi < lo]). *)
Theorem normalize_value_any_range (lo hi : Z) :
  is_LONG lo -> is_LONG hi -> lo <> hi ->
  normalize_value hi lo hi = Ok (Some PyFloat.one) /\
  normalize_value lo lo hi =
    Ok (Some (if decide (lo < 0) then PyFloat.minus_one
              else S754_zero (bool_decide (hi < lo)))).
Proof.
  intros Hlo Hhi Hne.
  pose proof (is_LONG_diff lo hi Hlo Hhi) as Hd.
  unfold normalize_value. case_decide; [lia|].
  rewrite Z.sub_diag, !of_int_exact by lia.
  destruct (hi - lo) as [|p|p] eqn:Hspan; [lia|..];
    cbn [mbind PyResult_bind].
  - destruct (fdiv_same_mantissa false false (PyFloat.canon_m p)
                (PyFloat.canon_e p)) as [-> _].
    rewrite bool_decide_eq_false_2 by lia.
    split; case_decide; reflexivity.
  - destruct (fdiv_same_mantissa true true (PyFloat.canon_m p)
                (PyFloat.canon_e p)) as [-> _].
    rewrite bool_decide_eq_true_2 by lia.
    split; case_decide; reflexivity.
Qed.

Lemma normalize_value_any_range_witness :
  normalize_value (-1) (-5) (-1) = Ok (Some PyFloat.one) /\
  normalize_value (-5) (-5) (-1) = Ok (Some PyFloat.minus_one) /\
  normalize_value 0 255 0 = Ok (Some PyFloat.one) /\
  normalize_value 255 255 0 = Ok (Some (S754_zero true)).
Proof.
  destruct (normalize_value_any_range (-5) (-1)) as [H1 H2];
    [unfold is_LONG; lia|unfold is_LONG; lia|lia|].
  destruct (normalize_value_any_range 255 0) as [H3 H4];
    [unfold is_LONG; lia|unfold is_LONG; lia|lia|].
  split; [exact H1|]. split; [exact H2|]. split; [exact H3|exact H4].
Defined.

(** ** Decoding on a platform that answers *)

Section Returns.

Context (P : HidPlatform) (preparsed : Preparsed) (report : bytes).

Lemma for_each_returns {A S : Type} (body : S -> A -> PyResult S)
    (xs : list A) (s : S) :
  (forall s x, x ∈ xs -> exists s', body s x = Ok s') ->
  exists s', for_each body xs s = Ok s'.
Proof.
  revert s. induction xs as [|x xs IH]; intros s Hbody; simpl; [eauto|].
  destruct (Hbody s x) as [s1 ->]; [by left|]. simpl.
  apply IH. intros s2 y Hy. apply Hbody. by right.
Qed.

(** [normalize_value] does not raise on a 32-bit raw value and 32-bit
    bounds. *)
Lemma normalize_value_returns (value lo hi : Z) :
  0 <= value < 2 ^ 32 -> is_LONG lo -> is_LONG hi ->
  exists norm, normalize_value value lo hi = Ok norm.
Proof.
  unfold is_LONG. intros Hv Hlo Hhi. unfold normalize_value.
  case_decide; [eauto|].
  destruct (of_int_Ok (hi - lo)) as [span ->]; [lia|].
  destruct (of_int_Ok (value - lo)) as [num ->]; [lia|].
  simpl. case_decide; eauto.
Qed.

Lemma decode_usage_returns (cap : HIDP_VALUE_CAPS)
    (axes : gmap string AxisReading) (usage : Z) :
  answers_decoding P preparsed report ->
  is_LONG (vc_LogicalMin cap) -> is_LONG (vc_LogicalMax cap) ->
  exists axes', decode_usage P preparsed report cap axes usage = Ok axes'.
Proof.
  intros [Hval _] Hlo Hhi. unfold decode_usage.
  destruct (AXIS_USAGE_NAMES !! usage) as [name|]; [|eauto].
  destruct (hid_get_usage_value P preparsed report
              (Z.of_nat (length report)) (vc_UsagePage cap) usage)
    as [[value|]|e] eqn:Hv; simpl; [|eauto|].
  - destruct (normalize_value_returns value (vc_LogicalMin cap)
                (vc_LogicalMax cap)) as [norm ->];
      [by eapply hid_get_usage_value_range|done|done|].
    simpl. eauto.
  - unfold hid_get_usage_value in Hv.
    destruct (Hval (USHORT (vc_UsagePage cap)) (USHORT usage))
      as (status & v & Hos).
    rewrite Hos in Hv. simpl in Hv. by destruct (negb _).
Qed.

Lemma decode_button_cap_returns (buttons : list Z)
    (cap : HIDP_BUTTON_CAPS) :
  answers_decoding P preparsed report ->
  exists buttons',
    decode_button_cap P preparsed report buttons cap = Ok buttons'.
Proof.
  intros [_ Hus]. unfold decode_button_cap.
  set (m := if decide (bc_IsRange cap ≠ 0)
            then Range_UsageMax (bc_u cap) - Range_UsageMin (bc_u cap) + 1
            else 1).
  case_decide as Hmax; [eauto|].
  destruct (Hus (USHORT (bc_UsagePage cap)) (USHORT (bc_LinkCollection cap))
              m ltac:(lia)) as (status & written & usage_count & Hos & Hle).
  rewrite (hid_get_usages_answer P _ _ _ _ _ m _ _ _ ltac:(lia) Hos).
  destruct (decide (status ≠ HIDP_STATUS_SUCCESS)) as [|Hst]; simpl;
    [eauto|].
  rewrite decide_True by (apply Hle; by destruct (decide (status = HIDP_STATUS_SUCCESS))).
  simpl. eauto.
Qed.

End Returns.

(** X9. [decode_hid_report] raises nothing of its own. When the platform
    answers the queries of the report without a fault and never reports
    more pressed usages than the array holds, and the logical bounds of
    the value capabilities are 32-bit values, decoding returns: neither
    [float()] nor the normalizer nor the array indexing raises. *)
Theorem decode_hid_report_returns (P : HidPlatform) (report : bytes)
    (preparsed : Preparsed) (value_caps : list HIDP_VALUE_CAPS)
    (button_caps : list HIDP_BUTTON_CAPS) :
  answers_decoding P preparsed report ->
  Forall (fun cap => is_LONG (vc_LogicalMin cap) /\
                     is_LONG (vc_LogicalMax cap)) value_caps ->
  exists axes buttons,
    decode_hid_report P report preparsed value_caps button_caps
      = Ok (axes, buttons).
Proof.
  intros Hans Hcaps. rewrite Forall_forall in Hcaps.
  destruct (for_each_returns (decode_value_cap P preparsed report)
              value_caps ∅) as [axes Haxes].
  { intros axes cap Hcap. destruct (Hcaps cap Hcap) as [Hlo Hhi].
    unfold decode_value_cap. case_decide; [eauto|].
    apply for_each_returns. intros a usage _.
    by apply decode_usage_returns. }
  destruct (for_each_returns (decode_button_cap P preparsed report)
              button_caps []) as [pressed Hb].
  { intros acc cap _. by apply decode_button_cap_returns. }
  exists axes, (sorted_set pressed).
  apply decode_hid_report_Ok. by exists pressed.
Qed.

Lemma decode_hid_report_returns_witness :
  exists axes buttons,
    decode_hid_report Samples2.calm Samples.blob [] [Samples.x_cap]
      [Samples.buttons_1_8; Samples2.button_7] = Ok (axes, buttons).
Proof.
  apply decode_hid_report_returns.
  - split.
    + intros page usage. simpl. case_decide; eauto.
    + intros page link max_usages Hmax. simpl.
      eexists _, _, _. split; [reflexivity|]. intros _.
      change (ULONG 1) with 1. lia.
  - repeat constructor; unfold is_LONG; simpl; lia.
Defined.

(** ** The logger over a run of messages *)

Section LoggerMore.

Context (P : HidPlatform).

(** The three outcomes of [get_device_state]. *)
Lemma get_device_state_cases (h : HANDLE) (self : RawInputLogger) :
  (exists st, device_cache self !! h = Some st /\
              get_device_state P h self = (Some st, self)) \/
  (device_cache self !! h = None /\
   _match_filter self (get_device_name P h) = false /\
   get_device_state P h self =
     (None,
      {| writer := writer self; device_filter := device_filter self;
         device_cache := device_cache self; echo := echo self;
         filter_checks := filter_checks self ++ [h] |})) \/
  (device_cache self !! h = None /\
   _match_filter self (get_device_name P h) = true /\
   get_device_state P h self =
     (Some (DeviceState_init P h),
      {| writer := writer self; device_filter := device_filter self;
         device_cache := <[h := DeviceState_init P h]> (device_cache self);
         echo := echo self;
         filter_checks := filter_checks self ++ [h] |})).
Proof.
  unfold get_device_state.
  destruct (device_cache self !! h) as [st|] eqn:Hc; [left; eauto|right].
  rewrite ds_name_init. cbv zeta.
  match goal with
  | |- context [_match_filter ?s ?n] =>
      rewrite (_match_filter_ext self s n eq_refl)
  end.
  destruct (_match_filter self (get_device_name P h)); simpl; [right|left];
    done.
Qed.

Lemma checks_of_snoc (h k : HANDLE) (self self' : RawInputLogger) :
  filter_checks self' = filter_checks self ++ [k] ->
  checks_of h self' =
    (checks_of h self + if decide (k = h) then 1 else 0)%nat.
Proof.
  intros Heq. unfold checks_of. rewrite Heq.
  rewrite filter_app, length_app, filter_cons, filter_nil.
  by case_decide.
Qed.

(** A message keeps the filter, only extends the rows, the cache and the
    record of the filter checks, and keeps the cache consistent. *)
Lemma handle_wm_input_extends (ev : option bytes * Z)
    (self : RawInputLogger) :
  cache_ok P self ->
  device_filter (handle_wm_input P ev.1 ev.2 self).2 = device_filter self /\
  cache_ok P (handle_wm_input P ev.1 ev.2 self).2 /\
  writer self `prefix_of` writer (handle_wm_input P ev.1 ev.2 self).2 /\
  device_cache self ⊆ device_cache (handle_wm_input P ev.1 ev.2 self).2 /\
  filter_checks self `prefix_of`
    filter_checks (handle_wm_input P ev.1 ev.2 self).2.
Proof.
  intros Hok. rewrite handle_wm_input_unfold.
  destruct ev as [[buffer|] ts]; cbn [fst snd]; [|done].
  destruct (RAWINPUTHEADER_from_buffer_copy buffer 0) as [header|e];
    [|done].
  case_decide; [|done].
  destruct (RAWHID_from_buffer_copy buffer sizeof_RAWINPUTHEADER)
    as [rahid|e]; [|done]. cbv zeta.
  destruct (get_device_state_cases (hdr_hDevice header) self)
    as [(st & Hc & ->)|[(Hc & Hm & ->)|(Hc & Hm & ->)]]; cbn [fst snd].
  - split; [done|]. split; [by apply (cache_ok_ext P self)|].
    split; [by apply prefix_app_r|]. done.
  - simpl. split; [done|]. split; [by apply (cache_ok_ext P self)|].
    split; [done|]. split; [done|]. by apply prefix_app_r.
  - simpl. split; [done|]. split.
    + intros j st. simpl.
      destruct (decide (hdr_hDevice header = j)) as [<-|Hj].
      * rewrite lookup_insert_eq. intros [= <-]. split; [done|].
        by rewrite ds_name_init.
      * rewrite lookup_insert_ne by done. apply Hok.
    + split; [by apply prefix_app_r|].
      split; [by apply insert_subseteq|]. by apply prefix_app_r.
Qed.

Lemma run_extends (events : list (option bytes * Z))
    (self : RawInputLogger) :
  cache_ok P self ->
  device_filter (run P events self) = device_filter self /\
  cache_ok P (run P events self) /\
  writer self `prefix_of` writer (run P events self) /\
  device_cache self ⊆ device_cache (run P events self) /\
  filter_checks self `prefix_of` filter_checks (run P events self).
Proof.
  intros Hok. induction events as [|ev events IH] using rev_ind; [done|].
  destruct IH as (Hf & Hok' & Hw & Hc & Hk). rewrite run_snoc.
  destruct (handle_wm_input_extends ev (run P events self) Hok')
    as (Hf1 & Hok1 & Hw1 & Hc1 & Hk1).
  split; [congruence|]. split; [done|].
  split; [by etrans|]. split; [by etrans|by etrans].
Qed.

End LoggerMore.

(** X10. The logger never takes anything back. Over any run of messages
    from a consistent logger the rows already written stay a prefix of the
    rows, every cached device state stays in the cache unchanged (no
    eviction, no refresh), and the filter stays the same. *)
Theorem run_only_extends (P : HidPlatform)
    (events : list (option bytes * Z)) (self : RawInputLogger) :
  cache_ok P self ->
  writer self `prefix_of` writer (run P events self) /\
  (forall h st, device_cache self !! h = Some st ->
     device_cache (run P events self) !! h = Some st) /\
  device_filter (run P events self) = device_filter self.
Proof.
  intros Hok.
  destruct (run_extends P events self Hok) as (Hf & _ & Hw & Hc & _).
  split; [done|]. split; [|done].
  intros h st Hh. by eapply lookup_weaken.
Qed.

Lemma run_only_extends_witness :
  writer (RawInputLogger_init None false) `prefix_of`
    writer (run Samples.pad [(Some Samples.input3, 0)]
              (RawInputLogger_init None false)) /\
  device_cache (run Samples.pad [(Some Samples.input3, 0)]
                  (RawInputLogger_init None false)) !! 1
    = Some (DeviceState_init Samples.pad 1).
Proof.
  split; [|vm_compute; reflexivity].
  apply (run_only_extends Samples.pad [(Some Samples.input3, 0)]
           (RawInputLogger_init None false)).
  by intros k st.
Defined.

Section Accepted.

Context (P : HidPlatform).

(** The effect of one message on the cache entry and on the filter checks
    of a handle whose name passes the filter. *)
Lemma handle_wm_input_accepted (ev : option bytes * Z)
    (self : RawInputLogger) (h : HANDLE) :
  _match_filter self (get_device_name P h) = true ->
  let self' := (handle_wm_input P ev.1 ev.2 self).2 in
  if decide (hid_input_from h ev) then
    match device_cache self !! h with
    | Some st =>
        device_cache self' !! h = Some st /\
        checks_of h self' = checks_of h self
    | None =>
        device_cache self' !! h = Some (DeviceState_init P h) /\
        checks_of h self' = S (checks_of h self)
    end
  else
    device_cache self' !! h = device_cache self !! h /\
    checks_of h self' = checks_of h self.
Proof.
  intros Hacc. cbv zeta. rewrite handle_wm_input_unfold.
  destruct ev as [[buffer|] ts]; cbn [fst snd].
  2:{ by rewrite decide_False by (unfold hid_input_from; cbn [fst]; tauto). }
  destruct (RAWINPUTHEADER_from_buffer_copy buffer 0) as [header|e] eqn:Hh.
  2:{ rewrite decide_False; [done|]. rewrite hid_input_from_iff.
      intros (hd & rh & ? & _). congruence. }
  destruct (decide (hdr_dwType header = RIM_TYPEHID)) as [Htype|Htype].
  2:{ rewrite decide_False; [done|]. rewrite hid_input_from_iff.
      intros (hd & rh & ? & _ & ? & _). congruence. }
  destruct (RAWHID_from_buffer_copy buffer sizeof_RAWINPUTHEADER)
    as [rahid|e] eqn:Hr.
  2:{ rewrite decide_False; [done|]. rewrite hid_input_from_iff.
      intros (hd & rh & _ & ? & _). congruence. }
  cbv zeta.
  destruct (decide (hdr_hDevice header = h)) as [Heq|Hne].
  - rewrite decide_True by (apply hid_input_from_iff; by exists header, rahid).
    rewrite Heq.
    destruct (get_device_state_cases P h self)
      as [(st & Hc & ->)|[(Hc & Hm & ->)|(Hc & Hm & ->)]]; cbn [fst snd].
    + by rewrite Hc.
    + congruence.
    + rewrite Hc. simpl. rewrite lookup_insert_eq. split; [done|].
      unfold checks_of. simpl.
      rewrite filter_app, length_app, filter_cons_True by done.
      simpl. lia.
  - rewrite decide_False
      by (rewrite hid_input_from_iff; intros (hd & rh & ? & _ & _ & ?);
          congruence).
    assert (Hck : forall c : list HANDLE,
      length (filter (fun k => k = h) (c ++ [hdr_hDevice header]))
      = length (filter (fun k => k = h) c)).
    { intros c. rewrite filter_app, length_app, filter_cons_False by done.
      simpl. lia. }
    destruct (get_device_state_cases P (hdr_hDevice header) self)
      as [(st & Hc & ->)|[(Hc & Hm & ->)|(Hc & Hm & ->)]]; cbn [fst snd];
      simpl; unfold checks_of; simpl; rewrite ?Hck; try done.
    by rewrite lookup_insert_ne.
Qed.

Lemma run_accepted (self0 : RawInputLogger)
    (events : list (option bytes * Z)) (h : HANDLE) :
  cache_ok P self0 ->
  _match_filter self0 (get_device_name P h) = true ->
  device_cache self0 !! h = None ->
  if decide (Exists (hid_input_from h) events) then
    device_cache (run P events self0) !! h = Some (DeviceState_init P h) /\
    checks_of h (run P events self0) = S (checks_of h self0)
  else
    device_cache (run P events self0) !! h = None /\
    checks_of h (run P events self0) = checks_of h self0.
Proof.
  intros Hok Hacc Hnone.
  induction events as [|ev events IH] using rev_ind.
  - rewrite decide_False by (intros Hex; by apply Exists_nil in Hex). done.
  - rewrite run_snoc.
    destruct (run_extends P events self0 Hok) as (Hf & _).
    pose proof (handle_wm_input_accepted ev (run P events self0) h) as Hstep.
    rewrite (_match_filter_ext self0) in Hstep by done.
    specialize (Hstep Hacc). cbv zeta in Hstep.
    destruct (decide (hid_input_from h ev)) as [Hev|Hev].
    + rewrite decide_True by (apply Exists_app; right; by constructor).
      destruct (decide (Exists (hid_input_from h) events)) as [Hex|Hex];
        destruct IH as [Hc Hk]; rewrite Hc in Hstep;
        destruct Hstep as [-> ->]; (split; [done|]); lia.
    + destruct (decide (Exists (hid_input_from h) events)) as [Hex|Hex];
        destruct IH as [Hc Hk]; destruct Hstep as [-> ->].
      * rewrite decide_True by (apply Exists_app; by left). done.
      * rewrite decide_False; [done|].
        rewrite Exists_app, Exists_cons, Exists_nil. tauto.
Qed.

End Accepted.

(** X11. A device whose name passes the filter is built and checked once.
    After any run of messages handled by a fresh logger: if the run holds a
    HID message of the device whose buffer holds the header and a whole
    [RAWHID] structure, its state is in the cache, it is the state built
    from its handle, and [_match_filter] has been called for it exactly
    once, however many messages it sent; if the run holds no such message,
    the device is not cached and was never checked. *)
Theorem accepted_device_cached_once (P : HidPlatform)
    (name_filter : option string) (echo : bool)
    (events : list (option bytes * Z)) (h : HANDLE) :
  _match_filter (RawInputLogger_init name_filter echo)
    (get_device_name P h) = true ->
  (Exists (hid_input_from h) events ->
   device_cache (run P events (RawInputLogger_init name_filter echo)) !! h
     = Some (DeviceState_init P h) /\
   checks_of h (run P events (RawInputLogger_init name_filter echo))
     = 1%nat) /\
  (~ Exists (hid_input_from h) events ->
   device_cache (run P events (RawInputLogger_init name_filter echo)) !! h
     = None /\
   checks_of h (run P events (RawInputLogger_init name_filter echo))
     = 0%nat).
Proof.
  intros Hacc.
  pose proof (run_accepted P (RawInputLogger_init name_filter echo) events h)
    as Hrun.
  lapply Hrun; [clear Hrun; intros Hrun|by intros k st].
  specialize (Hrun Hacc (lookup_empty _)).
  split; intros Hex; [rewrite decide_True in Hrun by done
                     |rewrite decide_False in Hrun by done]; exact Hrun.
Qed.

Lemma accepted_device_cached_once_witness :
  checks_of 1 (run Samples.pad
                 [(Some Samples.input3, 0); (Some Samples.input3, 1)]
                 (RawInputLogger_init (Some "GAMEPAD"%string) false))
    = 1%nat /\
  length (writer (run Samples.pad
                 [(Some Samples.input3, 0); (Some Samples.input3, 1)]
                 (RawInputLogger_init (Some "GAMEPAD"%string) false)))
    = 6%nat.
Proof.
  split; [|vm_compute; reflexivity].
  destruct (accepted_device_cached_once Samples.pad
              (Some "GAMEPAD"%string) false
              [(Some Samples.input3, 0); (Some Samples.input3, 1)] 1 eq_refl)
    as [Hsome _].
  apply Hsome. apply Exists_cons. left. by vm_compute.
Defined.

Section Rows.

Context (P : HidPlatform).

Lemma ds_info_init (h : HANDLE) :
  ds_info (DeviceState_init P h) = get_device_info P h.
Proof.
  unfold DeviceState_init.
  destruct (get_preparsed_data P h) as [pp|]; [|done].
  by destruct (parse_hid_caps P pp) as [[[caps vcs] bcs]|].
Qed.

Lemma make_row_fields (ts_ms : Z) (hDevice : HANDLE)
    (device_state : DeviceState) (report : bytes) :
  row_timestamp_ms (make_row P ts_ms hDevice device_state report) = ts_ms /\
  row_device_handle (make_row P ts_ms hDevice device_state report)
    = hDevice /\
  row_device_name (make_row P ts_ms hDevice device_state report)
    = ds_name device_state /\
  row_usage_page (make_row P ts_ms hDevice device_state report)
    = ds_usage_page device_state /\
  row_usage (make_row P ts_ms hDevice device_state report)
    = ds_usage device_state /\
  row_report_size (make_row P ts_ms hDevice device_state report)
    = Z.of_nat (length report) /\
  row_report (make_row P ts_ms hDevice device_state report) = report.
Proof.
  unfold make_row. by destruct (decode_or_empty P device_state report).
Qed.

(** The state that [get_device_state] returns from a consistent logger is
    the state built from the handle, and its name passes the filter. *)
Lemma get_device_state_Some (h : HANDLE) (self self1 : RawInputLogger)
    (st : DeviceState) :
  cache_ok P self ->
  get_device_state P h self = (Some st, self1) ->
  st = DeviceState_init P h /\
  _match_filter self (get_device_name P h) = true.
Proof.
  intros Hok Hget.
  destruct (get_device_state_cases P h self)
    as [(st' & Hc & Heq)|[(Hc & Hm & Heq)|(Hc & Hm & Heq)]];
    rewrite Heq in Hget; simplify_eq.
  - destruct (Hok h st Hc) as [-> Hm]. by rewrite ds_name_init in Hm.
  - done.
Qed.

Lemma handle_wm_input_rows (ev : option bytes * Z)
    (self : RawInputLogger) :
  cache_ok P self ->
  Forall (row_of_accepted P self) (writer self) ->
  Forall (row_of_accepted P self)
    (writer (handle_wm_input P ev.1 ev.2 self).2).
Proof.
  intros Hok Hrows. rewrite handle_wm_input_unfold.
  destruct ev as [[buffer|] ts]; cbn [fst snd]; [|done].
  destruct (RAWINPUTHEADER_from_buffer_copy buffer 0) as [header|e];
    [|done].
  case_decide; [|done].
  destruct (RAWHID_from_buffer_copy buffer sizeof_RAWINPUTHEADER)
    as [rahid|e]; [|done]. cbv zeta.
  destruct (get_device_state P (hdr_hDevice header) self) as [[st|] self1]
    eqn:Hget; cbn [fst snd].
  - destruct (get_device_state_Some _ _ _ _ Hok Hget) as [-> Hm].
    simpl. rewrite (get_device_state_writer P _ _ _ _ Hget).
    apply Forall_app. split; [done|].
    apply Forall_fmap, Forall_forall. intros report _.
    destruct (make_row_fields ts (hdr_hDevice header)
                (DeviceState_init P (hdr_hDevice header)) report)
      as (_ & Hh & Hn & Hup & Hu & Hsz & Hr).
    unfold row_of_accepted. simpl.
    rewrite Hh, Hn, Hup, Hu, Hsz, Hr, ds_name_init.
    unfold ds_usage_page, ds_usage. by rewrite ds_info_init.
  - by rewrite (get_device_state_writer P _ _ _ _ Hget).
Qed.

End Rows.

(** X12. Every row written during a run of a fresh logger belongs to a
    device that passes the filter: the name in the row is the name of the
    handle in the row and matches the filter, the usage page and usage are
    those of the device info of that handle (absent when there is none),
    and the report size is the length of the report in the row. *)
Theorem rows_come_from_accepted_devices (P : HidPlatform)
    (name_filter : option string) (echo : bool)
    (events : list (option bytes * Z)) :
  Forall (row_of_accepted P (RawInputLogger_init name_filter echo))
    (writer (run P events (RawInputLogger_init name_filter echo))).
Proof.
  induction events as [|ev events IH] using rev_ind; [by constructor|].
  rewrite run_snoc.
  destruct (run_extends P events (RawInputLogger_init name_filter echo))
    as (Hf & Hok & _); [by intros k st|].
  assert (Hext : forall row,
            row_of_accepted P
              (run P events (RawInputLogger_init name_filter echo)) row <->
            row_of_accepted P (RawInputLogger_init name_filter echo) row).
  { intros row. unfold row_of_accepted.
    by rewrite (_match_filter_ext _ _ _ Hf). }
  eapply Forall_impl; [|intros row; apply Hext].
  apply handle_wm_input_rows; [done|].
  eapply Forall_impl; [exact IH|]. intros row. apply Hext.
Qed.

Section Messages.

Lemma le_uint_nonneg (field : bytes) : 0 <= le_uint field.
Proof.
  unfold le_uint. induction field as [|b field IH]; simpl; [done|].
  pose proof (N2Z.is_nonneg (Byte.to_N b)). lia.
Qed.

(** The slice that [handle_wm_input] takes from a buffer that holds a
    whole [RAWHID] structure. *)
Lemma raw_bytes_take (buffer : bytes) (n : Z) :
  sizeof_RAWINPUTHEADER + sizeof_RAWHID <= Z.of_nat (length buffer) ->
  0 <= n ->
  py_slice buffer (sizeof_RAWINPUTHEADER + 8) (sizeof_RAWINPUTHEADER + 8 + n)
  = take (Z.to_nat n) (raw_data buffer).
Proof.
  unfold raw_data, sizeof_RAWINPUTHEADER, sizeof_RAWHID. intros Hlen Hn.
  unfold py_slice, slice_index. repeat case_decide; try lia.
  rewrite (Z.min_l (24 + 8)) by lia.
  destruct (decide (24 + 8 + n <= Z.of_nat (length buffer))).
  - rewrite Z.min_l by lia. f_equal. lia.
  - rewrite Z.min_r by lia.
    rewrite !take_ge; [done|rewrite length_drop; lia|rewrite length_drop; lia].
Qed.

End Messages.

(** X13. A HID message of an accepted device whose buffer holds the header
    and a whole [RAWHID] structure, with reports of [dwSizeHid >= 1] bytes,
    makes [handle_wm_input] return after it wrote one row per complete
    report found in the first [dwSizeHid * dwCount] bytes of its data, in
    order: exactly [dwCount] rows when the data is long enough. Every row
    carries the time stamp and the handle of the message and [dwSizeHid] as
    report size, and the reports of the rows joined are a prefix of the
    data. A HID message whose buffer ends before the [RAWHID] structure
    does, that is with fewer than 4 bytes of data, makes [handle_wm_input]
    raise [ValueError] and leaves the logger as it was: no row is
    written. *)
Theorem handle_wm_input_row_count (P : HidPlatform) (buffer : bytes)
    (header : RAWINPUTHEADER) (ts_ms : Z) (self : RawInputLogger) :
  RAWINPUTHEADER_from_buffer_copy buffer 0 = Ok header ->
  hdr_dwType header = RIM_TYPEHID ->
  (Z.of_nat (length (raw_data buffer)) < 4 ->
   handle_wm_input P (Some buffer) ts_ms self = (Raise ValueError, self)) /\
  (forall rahid self1 device_state,
     RAWHID_from_buffer_copy buffer sizeof_RAWINPUTHEADER = Ok rahid ->
     0 < hid_dwSizeHid rahid ->
     get_device_state P (hdr_hDevice header) self
       = (Some device_state, self1) ->
     4 <= Z.of_nat (length (raw_data buffer)) /\
     exists rows,
       (handle_wm_input P (Some buffer) ts_ms self).1 = Ok tt /\
       writer (handle_wm_input P (Some buffer) ts_ms self).2
         = writer self ++ rows /\
       Z.of_nat (length rows) =
         Z.min (hid_dwCount rahid)
               (Z.min (Z.of_nat (length (raw_data buffer)))
                      (hid_dwSizeHid rahid * hid_dwCount rahid)
                / hid_dwSizeHid rahid) /\
       (hid_dwSizeHid rahid * hid_dwCount rahid
          <= Z.of_nat (length (raw_data buffer)) ->
        Z.of_nat (length rows) = hid_dwCount rahid) /\
       Forall (fun row => row_timestamp_ms row = ts_ms /\
                          row_device_handle row = hdr_hDevice header /\
                          row_report_size row = hid_dwSizeHid rahid) rows /\
       concat (row_report <$> rows) `prefix_of` raw_data buffer).
Proof.
  intros Hh Htype.
  assert (Hhdr : sizeof_RAWINPUTHEADER <= Z.of_nat (length buffer)).
  { destruct (RAWINPUTHEADER_from_buffer_copy_cases buffer)
      as [[? _]|[_ Hraise]]; [done|congruence]. }
  assert (Hdata : Z.of_nat (length (raw_data buffer)) =
                  Z.max 0 (Z.of_nat (length buffer)
                           - (sizeof_RAWINPUTHEADER + 8))).
  { unfold raw_data. rewrite length_drop.
    unfold sizeof_RAWINPUTHEADER in *. lia. }
  split.
  { intros Hshort. apply (handle_wm_input_short P buffer header); try done.
    unfold sizeof_RAWINPUTHEADER, sizeof_RAWHID in *. lia. }
  intros rahid self1 device_state Hr Hsize Hget.
  assert (Hlong : sizeof_RAWINPUTHEADER + sizeof_RAWHID
                  <= Z.of_nat (length buffer)).
  { destruct (RAWHID_from_buffer_copy_cases buffer)
      as [[? _]|[_ Hraise]]; [done|congruence]. }
  split; [unfold sizeof_RAWINPUTHEADER, sizeof_RAWHID in *; lia|].
  assert (Hcount : 0 <= hid_dwCount rahid).
  { unfold RAWHID_from_buffer_copy in Hr.
    destruct (from_buffer_copy _ _ _) as [copy|e]; simpl in Hr; [|done].
    injection Hr as <-. simpl. apply le_uint_nonneg. }
  set (data := raw_data buffer) in *.
  set (raw := py_slice buffer (sizeof_RAWINPUTHEADER + 8)
                (sizeof_RAWINPUTHEADER + 8 +
                 hid_dwSizeHid rahid * hid_dwCount rahid)).
  set (reports := parse_report_bytes raw (hid_dwSizeHid rahid)
                    (hid_dwCount rahid)).
  exists (make_row P ts_ms (hdr_hDevice header) device_state <$> reports).
  assert (Hraw : raw = take (Z.to_nat (hid_dwSizeHid rahid
                                       * hid_dwCount rahid)) data).
  { subst raw data. apply raw_bytes_take; [done|nia]. }
  assert (Hlen : Z.of_nat (length raw) =
                 Z.min (Z.of_nat (length data))
                       (hid_dwSizeHid rahid * hid_dwCount rahid)).
  { rewrite Hraw, length_take. nia. }
  assert (Hmap := parse_report_bytes_map raw (hid_dwSizeHid rahid)
                    (hid_dwCount rahid) Hsize Hcount).
  fold reports in Hmap.
  assert (Hq : 0 <= Z.of_nat (length raw) / hid_dwSizeHid rahid)
    by (apply Z.div_pos; lia).
  assert (Hn : Z.of_nat (length reports) =
               Z.min (hid_dwCount rahid)
                     (Z.of_nat (length raw) / hid_dwSizeHid rahid)).
  { rewrite Hmap, length_fmap, length_seqZ. lia. }
  pose proof (handle_wm_input_unfold P (Some buffer, ts_ms) self) as Hu.
  cbn [fst snd] in Hu. rewrite Hu, Hh, decide_True, Hr by done. cbv zeta.
  rewrite Hget. cbn [fst snd]. clear Hu.
  split; [done|]. split; [|split; [|split; [|split]]].
  - simpl. by rewrite (get_device_state_writer P _ _ _ _ Hget).
  - by rewrite length_fmap, Hn, Hlen.
  - intros Hfit. rewrite length_fmap, Hn, Hlen.
    rewrite (Z.min_r (Z.of_nat (length data))) by lia.
    rewrite Z.mul_comm, Z.div_mul by lia. lia.
  - apply Forall_fmap, Forall_forall. intros report Hin.
    destruct (make_row_fields P ts_ms (hdr_hDevice header) device_state
                report) as (Hts & Hhd & _ & _ & _ & Hsz & _).
    simpl. rewrite Hts, Hhd, Hsz. split; [done|]. split; [done|].
    subst reports. rewrite Hmap in Hin.
    apply list_elem_of_fmap in Hin as (i & -> & Hi).
    apply elem_of_seqZ in Hi.
    assert ((i + 1) * hid_dwSizeHid rahid <= Z.of_nat (length raw)).
    { pose proof (Z.mul_div_le (Z.of_nat (length raw)) (hid_dwSizeHid rahid)
                    Hsize). nia. }
    destruct (py_slice_inside raw (i * hid_dwSizeHid rahid)
                ((i + 1) * hid_dwSizeHid rahid)) as [_ ->]; [nia|lia|lia].
  - rewrite <- list_fmap_compose.
    rewrite (list_fmap_ext _ id reports); [|
      intros _ report _; simpl;
      by destruct (make_row_fields P ts_ms (hdr_hDevice header)
                     device_state report) as (_ & _ & _ & _ & _ & _ & ->)].
    rewrite list_fmap_id.
    destruct (concat_reports_prefix raw (hid_dwSizeHid rahid)
                (hid_dwCount rahid) Hsize Hcount) as [k Hk].
    fold reports in Hk. rewrite Hk.
    rewrite Hraw. etrans; [apply prefix_take|apply prefix_take].
Qed.

(** Three reports of 2 bytes give three rows; one report of 2 bytes gives
    a buffer of 34 bytes, [ValueError] and no row. *)
Lemma handle_wm_input_row_count_witness :
  (exists rows,
     writer (handle_wm_input Samples.pad (Some Samples.input3) 0
               (RawInputLogger_init None false)).2 = rows /\
     Z.of_nat (length rows) = 3 /\
     row_report_size <$> rows = [2; 2; 2]) /\
  length Samples.input_short = 34%nat /\
  handle_wm_input Samples.pad (Some Samples.input_short) 0
      (RawInputLogger_init None false)
    = (Raise ValueError, RawInputLogger_init None false).
Proof.
  split; [|split; [reflexivity|]].
  - destruct (handle_wm_input_row_count Samples.pad Samples.input3
                {| hdr_dwType := RIM_TYPEHID; hdr_dwSize := 38;
                   hdr_hDevice := 1; hdr_wParam := 0 |} 0
                (RawInputLogger_init None false)
                ltac:(vm_compute; reflexivity) eq_refl) as [_ Hrows].
    destruct (Hrows {| hid_dwSizeHid := 2; hid_dwCount := 3 |}
                (get_device_state Samples.pad 1
                   (RawInputLogger_init None false)).2
                (DeviceState_init Samples.pad 1)
                ltac:(vm_compute; reflexivity) ltac:(by vm_compute)
                eq_refl)
      as (_ & rows & _ & Hw & _ & Hc & _).
    exists rows. rewrite app_nil_l in Hw. split; [exact Hw|].
    split; [apply Hc; by vm_compute|].
    rewrite <- Hw. vm_compute. reflexivity.
  - apply (handle_wm_input_row_count Samples.pad Samples.input_short
             {| hdr_dwType := RIM_TYPEHID; hdr_dwSize := 34;
                hdr_hDevice := 1; hdr_wParam := 0 |} 0
             (RawInputLogger_init None false)).
    + vm_compute; reflexivity.
    + reflexivity.
    + by vm_compute.
Defined.

(** ** The name filter *)

Section Filter.

Lemma append_String (c : ascii) (s t : string) :
  (String c s +:+ t)%string = String c (s +:+ t)%string.
Proof. reflexivity. Qed.

Lemma append_empty (t : string) : (""%string +:+ t)%string = t.
Proof. reflexivity. Qed.

Lemma prefix_spec (sub s : string) :
  String.prefix sub s = true <-> exists post, s = (sub +:+ post)%string.
Proof.
  revert s. induction sub as [|c sub IH]; intros s.
  - destruct s; (split; [intros _; by eexists|done]).
  - destruct s as [|d s]; simpl.
    + split; [done|]. by intros [post ?].
    + destruct (Ascii.ascii_dec c d) as [->|Hne].
      * rewrite IH. split; intros [post Hp]; exists post;
          rewrite append_String in *; congruence.
      * split; [done|]. intros [post Hp]. rewrite append_String in Hp.
        congruence.
Qed.

Lemma str_contains_spec (sub s : string) :
  str_contains sub s = true <->
  exists pre post, s = (pre +:+ sub +:+ post)%string.
Proof.
  induction s as [|d s IH]; cbn [str_contains].
  - rewrite orb_false_r, prefix_spec. split.
    + intros [post ->]. by exists ""%string, post.
    + intros (pre & post & Hs). destruct pre as [|c pre].
      * rewrite append_empty in Hs. by exists post.
      * by rewrite append_String in Hs.
  - rewrite orb_true_iff, prefix_spec, IH. split.
    + intros [[post ->]|(pre & post & ->)].
      * by exists ""%string, post.
      * by exists (String d pre), post.
    + intros (pre & post & Hs). destruct pre as [|c pre].
      * left. rewrite append_empty in Hs. by exists post.
      * right. rewrite append_String in Hs. exists pre, post. congruence.
Qed.

Lemma ascii_lower_idemp (c : ascii) :
  ascii_lower (ascii_lower c) = ascii_lower c.
Proof. by destruct c as [[] [] [] [] [] [] [] []]. Qed.

Lemma str_lower_idemp (s : string) : str_lower (str_lower s) = str_lower s.
Proof.
  induction s as [|c s IH]; simpl; [done|].
  by rewrite ascii_lower_idemp, IH.
Qed.

Lemma str_lower_empty (s : string) :
  str_lower s = ""%string <-> s = ""%string.
Proof. by destruct s. Qed.

End Filter.

(** X14. The filter of a logger built with a non-empty filter string
    accepts a name exactly when the lowercased filter occurs in the
    lowercased name as a substring; the case of the letters of either
    plays no role. A logger built with no filter or with the empty string
    accepts every name. *)
Theorem match_filter_spec (name_filter : option string) (echo : bool)
    (name : string) :
  (name_filter = None \/ name_filter = Some ""%string ->
   _match_filter (RawInputLogger_init name_filter echo) name = true) /\
  (forall f, name_filter = Some f -> f <> ""%string ->
     (_match_filter (RawInputLogger_init name_filter echo) name = true <->
      exists pre post,
        str_lower name = (pre +:+ str_lower f +:+ post)%string) /\
     _match_filter (RawInputLogger_init name_filter echo) name =
     _match_filter (RawInputLogger_init (Some (str_lower f)) echo)
       (str_lower name)).
Proof.
  split.
  - by intros [->| ->].
  - intros f -> Hf. unfold _match_filter, RawInputLogger_init. simpl.
    assert (Hl : str_lower f <> ""%string) by (by rewrite str_lower_empty).
    rewrite !decide_False by done. simpl.
    rewrite !decide_False by (by rewrite ?str_lower_idemp).
    split; [apply str_contains_spec|].
    by rewrite !str_lower_idemp.
Qed.

Lemma match_filter_spec_witness :
  _match_filter (RawInputLogger_init (Some "gAmEpAd"%string) false)
    "Logitech Gamepad" = true /\
  _match_filter (RawInputLogger_init (Some "Thrustmaster"%string) false)
    "Logitech Gamepad" = false.
Proof.
  destruct (match_filter_spec (Some "gAmEpAd"%string) false
              "Logitech Gamepad") as [_ H].
  destruct (H "gAmEpAd"%string eq_refl ltac:(done)) as [Hiff _].
  split; [|reflexivity].
  apply Hiff. by exists "logitech "%string, ""%string.
Defined.

(** ** The tables of a device state *)

Section Tables.

Context (P : HidPlatform).

Lemma parse_hid_caps_Some (preparsed : Preparsed) (caps : HIDP_CAPS)
    (value_caps : list HIDP_VALUE_CAPS)
    (button_caps : list HIDP_BUTTON_CAPS) :
  parse_hid_caps P preparsed = Some (caps, value_caps, button_caps) ->
  HidP_GetCaps P preparsed = (HIDP_STATUS_SUCCESS, caps) /\
  Z.of_nat (length value_caps) <= USHORT (NumberInputValueCaps caps) /\
  Z.of_nat (length button_caps) <= USHORT (NumberInputButtonCaps caps).
Proof.
  unfold parse_hid_caps, _check_hidp.
  destruct (HidP_GetCaps P preparsed) as [status caps'].
  case_decide as Hst; [done|]. simpl.
  destruct (HidP_GetValueCaps P preparsed _) as [[vstatus vwritten] vcount].
  destruct (HidP_GetButtonCaps P preparsed _) as [[bstatus bwritten] bcount].
  intros [= <- <- <-]. subst status.
  pose proof (USHORT_range (NumberInputValueCaps caps')).
  pose proof (USHORT_range (NumberInputButtonCaps caps')).
  split; [done|].
  split; case_decide; simpl; rewrite ?length_take, ?length_c_array; lia.
Qed.

End Tables.

(** X15. The state built for a handle keeps the name, the device info and
    the preparsed data that the platform gives for the handle. Without
    preparsed data, or when [HidP_GetCaps] fails, the state has no
    capability summary and both tables are empty, so that every report of
    the device is logged with empty axes and buttons. With a summary, the
    value table and the button table hold at most as many capabilities as
    the summary declares. *)
Theorem DeviceState_init_tables (P : HidPlatform) (h : HANDLE) :
  ds_handle (DeviceState_init P h) = h /\
  ds_name (DeviceState_init P h) = get_device_name P h /\
  ds_info (DeviceState_init P h) = get_device_info P h /\
  ds_preparsed (DeviceState_init P h) = get_preparsed_data P h /\
  (ds_caps (DeviceState_init P h) = None <->
   get_preparsed_data P h = None \/
   exists pp, get_preparsed_data P h = Some pp /\
              (HidP_GetCaps P pp).1 <> HIDP_STATUS_SUCCESS) /\
  (ds_caps (DeviceState_init P h) = None ->
   ds_value_caps (DeviceState_init P h) = [] /\
   ds_button_caps (DeviceState_init P h) = [] /\
   forall report,
     decode_or_empty P (DeviceState_init P h) report = (∅, [])) /\
  (forall caps, ds_caps (DeviceState_init P h) = Some caps ->
     Z.of_nat (length (ds_value_caps (DeviceState_init P h)))
       <= USHORT (NumberInputValueCaps caps) /\
     Z.of_nat (length (ds_button_caps (DeviceState_init P h)))
       <= USHORT (NumberInputButtonCaps caps)).
Proof.
  unfold DeviceState_init.
  destruct (get_preparsed_data P h) as [pp|] eqn:Hpp.
  2:{ simpl. split_and!; try done. split; [by left|done]. }
  destruct (parse_hid_caps P pp) as [[[caps vcs] bcs]|] eqn:Hparse; simpl.
  - apply parse_hid_caps_Some in Hparse as (Hcaps & Hv & Hb).
    split_and!; try done.
    + split; [done|]. intros [?|(pp' & [= <-] & Hst)]; [done|].
      by rewrite Hcaps in Hst.
    + by intros caps' [= <-].
  - split_and!; try done.
    split; [|done]. intros _. right. exists pp. split; [done|].
      unfold parse_hid_caps, _check_hidp in Hparse.
      destruct (HidP_GetCaps P pp) as [status caps]. simpl.
      case_decide; [done|]. simpl in Hparse.
      destruct (HidP_GetValueCaps P pp _) as [[? ?] ?].
      by destruct (HidP_GetButtonCaps P pp _) as [[? ?] ?].
Qed.

Lemma DeviceState_init_tables_witness :
  length (ds_value_caps (DeviceState_init Samples.pad 1)) = 1%nat /\
  (Z.of_nat (length (ds_button_caps (DeviceState_init Samples.pad 1)))
   <= USHORT 2).
Proof.
  split; [reflexivity|].
  destruct (DeviceState_init_tables Samples.pad 1)
    as (_ & _ & _ & _ & _ & _ & Hlen).
  exact (proj2 (Hlen Samples.caps_1_2 eq_refl)).
Defined.

(** ** The wrappers of [user32.dll] *)

Section WrappersFacts.

Import Wrappers.

(** A result converted as a C [int] is never [UINT(-1).value]. *)
Lemma c_int_not_UINT_max (z : Z) : c_int z <> UINT (-1).
Proof.
  unfold c_int, UINT.
  pose proof (Z.mod_pos_bound (z + 2 ^ 31) (2 ^ 32) ltac:(lia)).
  change (-1 mod 2 ^ 32) with 4294967295. lia.
Qed.

Lemma buffer_value_no_NUL (buffer : list ascii) (i : nat) :
  String.get i (buffer_value buffer) <> Some Ascii.zero.
Proof.
  revert i. induction buffer as [|c rest IH]; intros i; simpl; [done|].
  case_decide; [done|]. destruct i as [|i]; simpl; [congruence|apply IH].
Qed.

Lemma buffer_value_length (buffer : list ascii) :
  (String.length (buffer_value buffer) <= length buffer)%nat.
Proof.
  induction buffer as [|c rest IH]; simpl; [done|].
  case_decide; simpl; lia.
Qed.

End WrappersFacts.

(** X16. [get_raw_input_device_list] raises exactly when the first call
    of [GetRawInputDeviceList] returns non-zero. Otherwise it returns as
    many entries as that first call counted (none for a count of 0): the
    entries that the second call stored, followed by zero entries for
    those it did not store. The result of the second call never makes it
    raise, since a C [int] result is never equal to [UINT(-1).value]. *)
Theorem get_raw_input_device_list_cases (U : Wrappers.User32) :
  (Wrappers.c_int (Wrappers.GetRawInputDeviceList_count U).1 <> 0 ->
   Wrappers.get_raw_input_device_list U
     = Raise (OSError (Wrappers.GetLastError U))) /\
  (Wrappers.c_int (Wrappers.GetRawInputDeviceList_count U).1 = 0 ->
   Wrappers.get_raw_input_device_list U =
     Ok (c_array
           (Z.to_nat
              (Wrappers.UINT (Wrappers.GetRawInputDeviceList_count U).2))
           Wrappers.zero_entry
           (Wrappers.GetRawInputDeviceList_fill U
              (Wrappers.UINT
                 (Wrappers.GetRawInputDeviceList_count U).2)).2) /\
   forall devices,
     Wrappers.get_raw_input_device_list U = Ok devices ->
     Z.of_nat (length devices)
       = Wrappers.UINT (Wrappers.GetRawInputDeviceList_count U).2).
Proof.
  unfold Wrappers.get_raw_input_device_list.
  destruct (Wrappers.GetRawInputDeviceList_count U) as [res device_count].
  cbn [fst snd]. split.
  - intros Hres. by case_decide.
  - intros Hres. case_decide; [done|].
    assert (Hc : 0 <= Wrappers.UINT device_count)
      by (unfold Wrappers.UINT; apply Z.mod_pos_bound; lia).
    case_decide as Hzero.
    + rewrite Hzero. split; [done|]. by intros devices [= <-].
    + destruct (Wrappers.GetRawInputDeviceList_fill U _) as [res2 written].
      cbn [snd]. case_decide as Hfail;
        [by apply c_int_not_UINT_max in Hfail|].
      split; [done|]. intros devices [= <-].
      rewrite length_c_array. lia.
Qed.

Lemma get_raw_input_device_list_cases_witness :
  Wrappers.get_raw_input_device_list Wrappers.failing =
    Ok [Wrappers.zero_entry; Wrappers.zero_entry].
Proof.
  destruct (get_raw_input_device_list_cases Wrappers.failing) as [_ H].
  destruct (H eq_refl) as [-> _]. reflexivity.
Defined.

(** X17. The three device queries never see a failure of
    [GetRawInputDeviceInfoW], since its result, converted as a C [int], is
    never equal to [UINT(-1).value]. [get_device_info] always returns the
    structure, never [None]. [get_preparsed_data] returns [None] exactly
    when the size it was told is 0, and otherwise a buffer of exactly that
    many bytes. [get_device_name] returns the characters of its buffer of
    [size + 1] characters up to the first NUL: a string without NUL of at
    most [size + 1] characters. *)
Theorem device_queries_ignore_failure (U : Wrappers.User32) (h : HANDLE) :
  Wrappers.get_device_info U h =
    Some (USHORT (Wrappers.DeviceInfo_fill U h).2.1,
          USHORT (Wrappers.DeviceInfo_fill U h).2.2) /\
  (Wrappers.get_preparsed_data U h = None <->
   Wrappers.UINT (Wrappers.PreparsedData_size U h).2 = 0) /\
  (forall buffer, Wrappers.get_preparsed_data U h = Some buffer ->
     Z.of_nat (length buffer)
       = Wrappers.UINT (Wrappers.PreparsedData_size U h).2) /\
  Wrappers.get_device_name U h =
    Wrappers.buffer_value
      (c_array
         (Z.to_nat (Wrappers.UINT (Wrappers.DeviceName_size U h).2 + 1))
         Ascii.zero
         (Wrappers.DeviceName_fill U h
            (Wrappers.UINT (Wrappers.DeviceName_size U h).2 + 1)).2) /\
  (forall i, String.get i (Wrappers.get_device_name U h)
             <> Some Ascii.zero) /\
  Z.of_nat (String.length (Wrappers.get_device_name U h))
    <= Wrappers.UINT (Wrappers.DeviceName_size U h).2 + 1.
Proof.
  assert (Hname : Wrappers.get_device_name U h =
    Wrappers.buffer_value
      (c_array
         (Z.to_nat (Wrappers.UINT (Wrappers.DeviceName_size U h).2 + 1))
         Ascii.zero
         (Wrappers.DeviceName_fill U h
            (Wrappers.UINT (Wrappers.DeviceName_size U h).2 + 1)).2)).
  { unfold Wrappers.get_device_name.
    destruct (Wrappers.DeviceName_size U h) as [res size]. cbn [snd].
    case_decide as Hf; [by apply c_int_not_UINT_max in Hf|].
    destruct (Wrappers.DeviceName_fill U h _) as [res2 written]. cbn [snd].
    case_decide as Hf2; [by apply c_int_not_UINT_max in Hf2|]. done. }
  assert (Hsize : forall z, 0 <= Wrappers.UINT z)
    by (intros z; unfold Wrappers.UINT; apply Z.mod_pos_bound; lia).
  split_and!.
  - unfold Wrappers.get_device_info.
    destruct (Wrappers.DeviceInfo_fill U h) as [res info]. cbn [snd].
    case_decide as Hf; [by apply c_int_not_UINT_max in Hf|]. done.
  - unfold Wrappers.get_preparsed_data.
    destruct (Wrappers.PreparsedData_size U h) as [res size]. cbn [snd].
    case_decide as Hf.
    + split; [|done]. intros _.
      destruct Hf as [Hf|Hf]; [by apply c_int_not_UINT_max in Hf|done].
    + destruct (Wrappers.PreparsedData_fill U h _) as [res2 written].
      case_decide as Hf2; [by apply c_int_not_UINT_max in Hf2|].
      split; [done|]. intros Hz. tauto.
  - intros buffer. unfold Wrappers.get_preparsed_data.
    destruct (Wrappers.PreparsedData_size U h) as [res size]. cbn [snd].
    case_decide as Hf; [done|].
    destruct (Wrappers.PreparsedData_fill U h _) as [res2 written].
    case_decide; [done|]. intros [= <-]. rewrite length_c_array.
    specialize (Hsize size). lia.
  - done.
  - intros i. rewrite Hname. apply buffer_value_no_NUL.
  - rewrite Hname.
    pose proof (buffer_value_length
      (c_array
         (Z.to_nat (Wrappers.UINT (Wrappers.DeviceName_size U h).2 + 1))
         Ascii.zero
         (Wrappers.DeviceName_fill U h
            (Wrappers.UINT (Wrappers.DeviceName_size U h).2 + 1)).2)) as Hl.
    rewrite length_c_array in Hl.
    specialize (Hsize (Wrappers.DeviceName_size U h).2). lia.
Qed.

Lemma device_queries_ignore_failure_witness :
  Wrappers.get_device_info Wrappers.failing 1 = Some (0, 0) /\
  Wrappers.get_preparsed_data Wrappers.failing 1 =
    Some [Byte.x00; Byte.x00; Byte.x00; Byte.x00] /\
  Wrappers.get_device_name Wrappers.failing 1 = ""%string.
Proof.
  destruct (device_queries_ignore_failure Wrappers.failing 1)
    as (Hinfo & _ & _ & Hname & _).
  split; [exact Hinfo|]. split; [reflexivity|]. rewrite Hname. reflexivity.
Defined.

(** ** The event writer *)

(** X18. What a writer holds after a session depends on its format alone:
    with ["jsonl"] one JSON line per row and no header; with ["csv"] the
    header followed by one record per row, in order; with any other format
    nothing at all, the rows being dropped without an error. *)
Theorem EventWriter_session_file (path fmt : string) (rows : list EventRow) :
  ew_file (EventWriter_session path fmt rows) =
  if decide (fmt = "jsonl"%string) then JsonLine <$> rows
  else if decide (fmt = "csv"%string)
       then CsvHeader csv_fieldnames :: (CsvRecord <$> rows)
       else [].
Proof.
  unfold EventWriter_session.
  assert (Hinv : forall w,
    ew_file (foldl (fun w row => EventWriter_write_event row w) w rows) =
    if decide (ew_fmt w = "jsonl"%string) then ew_file w ++ (JsonLine <$> rows)
    else match ew_csv_writer w with
         | Some _ => ew_file w ++ (CsvRecord <$> rows)
         | None => ew_file w
         end).
  { induction rows as [|row rows IH]; intros w; simpl.
    - rewrite !app_nil_r. by destruct (decide _), (ew_csv_writer w).
    - rewrite IH. unfold EventWriter_write_event.
      destruct (decide (ew_fmt w = "jsonl"%string)) as [Hj|Hj]; simpl.
      + rewrite decide_True by done. by rewrite <- app_assoc.
      + destruct (ew_csv_writer w) eqn:Hw; simpl.
        * rewrite decide_False by done. by rewrite <- app_assoc.
        * rewrite decide_False by done. by rewrite Hw. }
  rewrite Hinv. unfold EventWriter_init.
  destruct (decide (fmt = "csv"%string)) as [->|Hcsv]; simpl.
  - done.
  - by case_decide.
Qed.
